(** * TCP CUBIC with HyStart (net/ipv4/tcp_cubic.c): a shallow embedding

    The per-connection private state [struct bictcp], the module
    parameters and every callback of [cubictcp] are transcribed from the C
    source.  Machine integers are [Z] values with the wrap-around of each C
    operation written out ([u32], [u64], [s32], [u8]); a C expression is
    translated under the usual arithmetic conversions, so a comparison
    between an [s32] and a [u32] is an unsigned one.  Kernel services that
    live outside this file (the tick frequency, [msecs_to_jiffies],
    [tcp_slow_start], [tcp_cong_avoid_ai]) are fields of a [Kernel] record
    the development is parametric in.  The [printk] lines and the MIB
    counters are telemetry and have no counterpart here. *)

From Stdlib Require Import ZArith List Bool Lia.
Import ListNotations.
Local Open Scope Z_scope.

(** ** Machine integers *)

Definition u8 (x : Z) : Z := x mod 2 ^ 8.
Definition u32 (x : Z) : Z := x mod 2 ^ 32.
Definition u64 (x : Z) : Z := x mod 2 ^ 64.

(** Conversion of a 32-bit pattern to [s32] (two's complement). *)
Definition s32 (x : Z) : Z :=
  let y := u32 x in if y <? 2 ^ 31 then y else y - 2 ^ 32.

Definition INT_MAX : Z := 2 ^ 31 - 1.

(** ** Kernel helpers with a fixed meaning *)

(** [fls64]: position of the last (most significant) set bit, counted from
    one; zero for a zero argument. *)
Definition fls64 (a : Z) : Z := if a =? 0 then 0 else Z.log2 a + 1.

(** [div64_u64]: unsigned 64-bit division; a zero divisor is a fault. *)
Definition div64_u64 (dividend divisor : Z) : option Z :=
  if divisor =? 0 then None else Some (dividend / divisor).

(** [after(seq2, seq1)] is [before(seq1, seq2)], i.e.
    [(s32)(seq1 - seq2) < 0]. *)
Definition after (seq2 seq1 : Z) : bool := s32 (seq1 - seq2) <? 0.

(** [clamp(val, lo, hi)] is [min(max(val, lo), hi)]. *)
Definition clamp (val lo hi : Z) : Z := Z.min (Z.max val lo) hi.

(** ** Constants of the file *)

Definition BICTCP_BETA_SCALE : Z := 1024.
Definition BICTCP_HZ : Z := 10.
Definition HYSTART_ACK_TRAIN : Z := 1.
Definition HYSTART_DELAY : Z := 2.
Definition HYSTART_MIN_SAMPLES : Z := 8.
Definition HYSTART_DELAY_MIN : Z := Z.shiftl 4 3.
Definition USEC_PER_MSEC : Z := 1000.
Definition TCP_CA_Loss : Z := 4.

(** ** The cube root *)

(** The table [v] of [cubic_root]. *)
Definition v : list Z :=
  [   0;  54;  54;  54; 118; 118; 118; 118;
    123; 129; 134; 138; 143; 147; 151; 156;
    157; 161; 164; 168; 170; 173; 176; 179;
    181; 185; 187; 190; 192; 194; 197; 199;
    200; 202; 204; 206; 209; 211; 213; 215;
    217; 219; 221; 222; 224; 225; 227; 229;
    231; 232; 234; 236; 237; 239; 240; 242;
    244; 245; 246; 248; 250; 251; 252; 254 ].

(** [v[i]]: [None] is an access outside the table. *)
Definition v_at (i : Z) : option Z :=
  if i <? 0 then None else nth_error v (Z.to_nat i).

(** [b = ((b * 84) >> 8) - 1] for [b = fls64(a)]. *)
Definition cubic_root_b (a : Z) : Z :=
  u32 (Z.shiftr (u32 (fls64 a * 84)) 8 - 1).

(** [shift = (a >> (b * 3))], stored in a [u32]. *)
Definition cubic_root_shift (a : Z) : Z :=
  u32 (Z.shiftr a (u32 (cubic_root_b a * 3))).

(** The seed [x = ((u32)(((u32)v[shift] + 10) << b)) >> 6]. *)
Definition cubic_root_seed (b vs : Z) : Z :=
  Z.shiftr (u32 (Z.shiftl (vs + 10) b)) 6.

(** One Newton-Raphson step from the seed [x]:
    [x = 2 * x + (u32)div64_u64(a, (u64)x * (u64)(x - 1));
     x = (x * 341) >> 10]. *)
Definition cubic_root_newton (x a : Z) : option Z :=
  match div64_u64 a (u64 (x * u32 (x - 1))) with
  | None => None
  | Some q => Some (Z.shiftr (u32 (u32 (2 * x + u32 q) * 341)) 10)
  end.

Definition cubic_root (a : Z) : option Z :=
  if fls64 a <? 7 then
    match v_at (u32 a) with
    | None => None
    | Some va => Some (Z.shiftr (va + 35) 6)
    end
  else
    match v_at (cubic_root_shift a) with
    | None => None
    | Some vs => cubic_root_newton (cubic_root_seed (cubic_root_b a) vs) a
    end.

(** ** Data model *)

(** [struct bictcp], the private congestion-control area of a socket.  The
    padding field [unused] is never accessed and is left out. *)
Record bictcp : Type := mk_bictcp {
  cnt : Z;              (* u32: increase cwnd by 1 after ACKs *)
  last_max_cwnd : Z;    (* u32: last maximum snd_cwnd *)
  last_cwnd : Z;        (* u32: the last snd_cwnd *)
  last_time : Z;        (* u32: time when updated last_cwnd *)
  bic_origin_point : Z; (* u32: origin point of bic function *)
  bic_K : Z;            (* u32: time to origin point *)
  delay_min : Z;        (* u32: min delay (msec << 3) *)
  epoch_start : Z;      (* u32: beginning of an epoch *)
  ack_cnt : Z;          (* u32: number of acks *)
  tcp_cwnd : Z;         (* u32: estimated tcp cwnd *)
  sample_cnt : Z;       (* u8: number of samples to decide curr_rtt *)
  found : Z;            (* u8: the exit point is found? *)
  round_start : Z;      (* u32: beginning of each round *)
  end_seq : Z;          (* u32: end_seq of the round *)
  last_ack : Z;         (* u32: last time when the ACK spacing is close *)
  curr_rtt : Z          (* u32: the minimum rtt of current round *)
}.

(** The fields of [struct tcp_sock] this file reads or writes, and the two
    the kernel's window primitives keep beside them. *)
Record tcp_sock : Type := mk_tcp_sock {
  snd_cwnd : Z;
  snd_ssthresh : Z;
  snd_nxt : Z;
  lsndtime : Z;
  snd_cwnd_cnt : Z;
  snd_cwnd_clamp : Z;
  sdev_num_packets : Z;  (* sdev_stats.num_packets, long *)
  sdev_m2_rtt_ms : Z     (* sdev_stats.m2_rtt_ms, long long *)
}.

(** A socket: [tcp_sk(sk)] and [inet_csk_ca(sk)]. *)
Record sock : Type := mk_sock {
  tcp_sk : tcp_sock;
  inet_csk_ca : bictcp
}.

Record ack_sample : Type := mk_ack_sample {
  pkts_acked : Z;
  rtt_us : Z   (* s32 *)
}.

(** The module parameters (C [int]s). *)
Record Params : Type := mk_Params {
  fast_convergence : Z;
  beta : Z;
  initial_ssthresh : Z;
  bic_scale : Z;
  tcp_friendliness : Z;
  hystart : Z;
  hystart_detect : Z;
  hystart_low_window : Z;
  hystart_ack_delta : Z;
  hystart_delay_max : Z
}.

(** The defaults given in the source. *)
Definition default_params : Params :=
  {| fast_convergence := 1; beta := 717; initial_ssthresh := 0;
     bic_scale := 41; tcp_friendliness := 1; hystart := 1;
     hystart_detect := Z.lor HYSTART_ACK_TRAIN HYSTART_DELAY;
     hystart_low_window := 16; hystart_ack_delta := 2;
     hystart_delay_max := 1 |}.

(** What the file takes from the rest of the kernel: the tick frequency
    [HZ] (a positive constant) and the helpers whose bodies are elsewhere.
    [tcp_slow_start] returns the socket it has updated and what is left of
    [acked]. *)
Record Kernel : Type := mk_Kernel {
  HZ : Z;
  msecs_to_jiffies : Z -> Z;
  tcp_is_cwnd_limited : tcp_sock -> bool;
  tcp_slow_start : tcp_sock -> Z -> tcp_sock * Z;
  tcp_cong_avoid_ai : tcp_sock -> Z -> Z -> tcp_sock
}.

(** [tcp_in_slow_start(tp)]. *)
Definition tcp_in_slow_start (tp : tcp_sock) : bool :=
  snd_cwnd tp <? snd_ssthresh tp.

(** *** Field updates *)

Definition set_cnt (x : Z) (c : bictcp) : bictcp :=
  mk_bictcp x (last_max_cwnd c) (last_cwnd c) (last_time c)
    (bic_origin_point c) (bic_K c) (delay_min c) (epoch_start c) (ack_cnt c)
    (tcp_cwnd c) (sample_cnt c) (found c) (round_start c) (end_seq c)
    (last_ack c) (curr_rtt c).
Definition set_last_max_cwnd (x : Z) (c : bictcp) : bictcp :=
  mk_bictcp (cnt c) x (last_cwnd c) (last_time c)
    (bic_origin_point c) (bic_K c) (delay_min c) (epoch_start c) (ack_cnt c)
    (tcp_cwnd c) (sample_cnt c) (found c) (round_start c) (end_seq c)
    (last_ack c) (curr_rtt c).
Definition set_last_cwnd (x : Z) (c : bictcp) : bictcp :=
  mk_bictcp (cnt c) (last_max_cwnd c) x (last_time c)
    (bic_origin_point c) (bic_K c) (delay_min c) (epoch_start c) (ack_cnt c)
    (tcp_cwnd c) (sample_cnt c) (found c) (round_start c) (end_seq c)
    (last_ack c) (curr_rtt c).
Definition set_last_time (x : Z) (c : bictcp) : bictcp :=
  mk_bictcp (cnt c) (last_max_cwnd c) (last_cwnd c) x
    (bic_origin_point c) (bic_K c) (delay_min c) (epoch_start c) (ack_cnt c)
    (tcp_cwnd c) (sample_cnt c) (found c) (round_start c) (end_seq c)
    (last_ack c) (curr_rtt c).
Definition set_bic_origin_point (x : Z) (c : bictcp) : bictcp :=
  mk_bictcp (cnt c) (last_max_cwnd c) (last_cwnd c) (last_time c)
    x (bic_K c) (delay_min c) (epoch_start c) (ack_cnt c)
    (tcp_cwnd c) (sample_cnt c) (found c) (round_start c) (end_seq c)
    (last_ack c) (curr_rtt c).
Definition set_bic_K (x : Z) (c : bictcp) : bictcp :=
  mk_bictcp (cnt c) (last_max_cwnd c) (last_cwnd c) (last_time c)
    (bic_origin_point c) x (delay_min c) (epoch_start c) (ack_cnt c)
    (tcp_cwnd c) (sample_cnt c) (found c) (round_start c) (end_seq c)
    (last_ack c) (curr_rtt c).
Definition set_delay_min (x : Z) (c : bictcp) : bictcp :=
  mk_bictcp (cnt c) (last_max_cwnd c) (last_cwnd c) (last_time c)
    (bic_origin_point c) (bic_K c) x (epoch_start c) (ack_cnt c)
    (tcp_cwnd c) (sample_cnt c) (found c) (round_start c) (end_seq c)
    (last_ack c) (curr_rtt c).
Definition set_epoch_start (x : Z) (c : bictcp) : bictcp :=
  mk_bictcp (cnt c) (last_max_cwnd c) (last_cwnd c) (last_time c)
    (bic_origin_point c) (bic_K c) (delay_min c) x (ack_cnt c)
    (tcp_cwnd c) (sample_cnt c) (found c) (round_start c) (end_seq c)
    (last_ack c) (curr_rtt c).
Definition set_ack_cnt (x : Z) (c : bictcp) : bictcp :=
  mk_bictcp (cnt c) (last_max_cwnd c) (last_cwnd c) (last_time c)
    (bic_origin_point c) (bic_K c) (delay_min c) (epoch_start c) x
    (tcp_cwnd c) (sample_cnt c) (found c) (round_start c) (end_seq c)
    (last_ack c) (curr_rtt c).
Definition set_tcp_cwnd (x : Z) (c : bictcp) : bictcp :=
  mk_bictcp (cnt c) (last_max_cwnd c) (last_cwnd c) (last_time c)
    (bic_origin_point c) (bic_K c) (delay_min c) (epoch_start c) (ack_cnt c)
    x (sample_cnt c) (found c) (round_start c) (end_seq c)
    (last_ack c) (curr_rtt c).
Definition set_sample_cnt (x : Z) (c : bictcp) : bictcp :=
  mk_bictcp (cnt c) (last_max_cwnd c) (last_cwnd c) (last_time c)
    (bic_origin_point c) (bic_K c) (delay_min c) (epoch_start c) (ack_cnt c)
    (tcp_cwnd c) x (found c) (round_start c) (end_seq c)
    (last_ack c) (curr_rtt c).
Definition set_found (x : Z) (c : bictcp) : bictcp :=
  mk_bictcp (cnt c) (last_max_cwnd c) (last_cwnd c) (last_time c)
    (bic_origin_point c) (bic_K c) (delay_min c) (epoch_start c) (ack_cnt c)
    (tcp_cwnd c) (sample_cnt c) x (round_start c) (end_seq c)
    (last_ack c) (curr_rtt c).
Definition set_round_start (x : Z) (c : bictcp) : bictcp :=
  mk_bictcp (cnt c) (last_max_cwnd c) (last_cwnd c) (last_time c)
    (bic_origin_point c) (bic_K c) (delay_min c) (epoch_start c) (ack_cnt c)
    (tcp_cwnd c) (sample_cnt c) (found c) x (end_seq c)
    (last_ack c) (curr_rtt c).
Definition set_end_seq (x : Z) (c : bictcp) : bictcp :=
  mk_bictcp (cnt c) (last_max_cwnd c) (last_cwnd c) (last_time c)
    (bic_origin_point c) (bic_K c) (delay_min c) (epoch_start c) (ack_cnt c)
    (tcp_cwnd c) (sample_cnt c) (found c) (round_start c) x
    (last_ack c) (curr_rtt c).
Definition set_last_ack (x : Z) (c : bictcp) : bictcp :=
  mk_bictcp (cnt c) (last_max_cwnd c) (last_cwnd c) (last_time c)
    (bic_origin_point c) (bic_K c) (delay_min c) (epoch_start c) (ack_cnt c)
    (tcp_cwnd c) (sample_cnt c) (found c) (round_start c) (end_seq c)
    x (curr_rtt c).
Definition set_curr_rtt (x : Z) (c : bictcp) : bictcp :=
  mk_bictcp (cnt c) (last_max_cwnd c) (last_cwnd c) (last_time c)
    (bic_origin_point c) (bic_K c) (delay_min c) (epoch_start c) (ack_cnt c)
    (tcp_cwnd c) (sample_cnt c) (found c) (round_start c) (end_seq c)
    (last_ack c) x.

Definition set_snd_ssthresh (x : Z) (t : tcp_sock) : tcp_sock :=
  mk_tcp_sock (snd_cwnd t) x (snd_nxt t) (lsndtime t) (snd_cwnd_cnt t)
    (snd_cwnd_clamp t) (sdev_num_packets t) (sdev_m2_rtt_ms t).

Definition with_ca (c : bictcp) (sk : sock) : sock := mk_sock (tcp_sk sk) c.
Definition with_tp (t : tcp_sock) (sk : sock) : sock :=
  mk_sock t (inet_csk_ca sk).

(** ** The scale factors precomputed by [cubictcp_register]

    They are computed once, at registration, from the parameters then in
    force; the embedding reads them as functions of the parameter record.
    The divisions are C [int] divisions ([Z.quot]); [do_div] is unsigned.
    A zero divisor ([beta = 1024], [bic_scale * 10 = 0]) is a fault in C as
    the module registers; the quotient is 0 here. *)

Definition beta_scale (P : Params) : Z :=
  u32 (Z.quot (Z.quot (8 * (BICTCP_BETA_SCALE + beta P)) 3)
              (BICTCP_BETA_SCALE - beta P)).

Definition cube_rtt_scale (P : Params) : Z := u32 (bic_scale P * 10).

Definition cube_factor (P : Params) : Z :=
  Z.shiftl 1 (10 + 3 * BICTCP_HZ) / u32 (bic_scale P * 10).

(** ** The loops *)

(** [while (ca->ack_cnt > delta) { ca->ack_cnt -= delta; ca->tcp_cwnd++; }]
    on the pair (ack_cnt, tcp_cwnd).  [None]: the loop is still running
    when the fuel is spent. *)
Fixpoint tcp_friendly_loop (fuel : nat) (delta ack tcpw : Z)
  : option (Z * Z) :=
  if ack >? delta then
    match fuel with
    | O => None
    | S fuel' => tcp_friendly_loop fuel' delta (u32 (ack - delta))
                   (u32 (tcpw + 1))
    end
  else Some (ack, tcpw).

(** The binary search for the integer square root of the variance in
    [bictcp_acked]: [start] is a [u32], [end] and [mid] are [u64], [sdev]
    a [long].  The value found is only printed. *)
Fixpoint sdev_search (fuel : nat) (variance start end_ sdev : Z)
  : option Z :=
  if start <=? end_ then
    match fuel with
    | O => None
    | S fuel' =>
        let mid := Z.shiftr (u64 (start + end_)) 1 in
        if u64 (mid * mid) =? variance then Some mid
        else if mid <=? variance / mid
             then sdev_search fuel' variance (u32 (mid + 1)) end_ mid
             else sdev_search fuel' variance start (u64 (mid - 1)) sdev
    end
  else Some sdev.

(** The dispersion block of [bictcp_acked].  [sdev0] is the indeterminate
    content of the local [sdev], which the negative branch leaves as it
    was. *)
Definition rtt_sdev (fuel : nat) (tp : tcp_sock) (sdev0 : Z) : option Z :=
  let variance :=
    if sdev_num_packets tp >? 0
    then Z.quot (sdev_m2_rtt_ms tp) (sdev_num_packets tp) else 0 in
  if (variance =? 0) || (variance =? 1) then Some variance
  else if variance <? 0 then Some sdev0
  else sdev_search fuel variance 1 (Z.shiftr variance 1) sdev0.

(** ** The callbacks *)

Section Cubic.

Variable K : Kernel.
Variable P : Params.

Definition bictcp_reset (ca : bictcp) : bictcp :=
  mk_bictcp 0 0 0 0 0 0 0 0 0 0
    (sample_cnt ca) 0 (round_start ca) (end_seq ca) (last_ack ca)
    (curr_rtt ca).

(** [clock] is the value [bictcp_clock()] returns. *)
Definition bictcp_hystart_reset (sk : sock) (clock : Z) : sock :=
  let ca := inet_csk_ca sk in
  let ca := set_last_ack clock ca in
  let ca := set_round_start clock ca in
  let ca := set_end_seq (snd_nxt (tcp_sk sk)) ca in
  let ca := set_curr_rtt 0 ca in
  let ca := set_sample_cnt 0 ca in
  with_ca ca sk.

Definition bictcp_init (sk : sock) (clock : Z) : sock :=
  let sk := with_ca (bictcp_reset (inet_csk_ca sk)) sk in
  let sk := if hystart P =? 0 then sk else bictcp_hystart_reset sk clock in
  if (hystart P =? 0) && negb (initial_ssthresh P =? 0)
  then with_tp (set_snd_ssthresh (u32 (initial_ssthresh P)) (tcp_sk sk)) sk
  else sk.

(** [tx_start] says that the event is [CA_EVENT_TX_START]; [now] is
    [tcp_jiffies32]. *)
Definition bictcp_cwnd_event (sk : sock) (tx_start : bool) (now : Z)
  : sock :=
  if tx_start then
    let ca := inet_csk_ca sk in
    let delta := s32 (now - lsndtime (tcp_sk sk)) in
    if negb (epoch_start ca =? 0) && (delta >? 0) then
      let ca := set_epoch_start (u32 (epoch_start ca + delta)) ca in
      let ca := if after (epoch_start ca) now
                then set_epoch_start now ca else ca in
      with_ca ca sk
    else sk
  else sk.

(** *** bictcp_update, in its three parts *)

(** From [ca->last_cwnd = cwnd] to the first-epoch clamp of [ca->cnt]:
    the cubic function proper. *)
Definition bictcp_cubic (ca : bictcp) (cwnd acked now : Z)
  : option bictcp :=
  let ca := set_last_cwnd cwnd ca in
  let ca := set_last_time now ca in
  match
    (if epoch_start ca =? 0 then
       let ca := set_epoch_start now ca in
       let ca := set_ack_cnt acked ca in
       let ca := set_tcp_cwnd cwnd ca in
       if last_max_cwnd ca <=? cwnd then
         Some (set_bic_origin_point cwnd (set_bic_K 0 ca))
       else
         match cubic_root (u64 (cube_factor P
                                 * u32 (last_max_cwnd ca - cwnd))) with
         | None => None
         | Some k =>
             Some (set_bic_origin_point (last_max_cwnd ca) (set_bic_K k ca))
         end
     else Some ca)
  with
  | None => None
  | Some ca =>
      let t := u64 (s32 (now - epoch_start ca)) in
      let t := u64 (t + msecs_to_jiffies K (Z.shiftr (delay_min ca) 3)) in
      let t := u64 (Z.shiftl t BICTCP_HZ) in
      let t := t / HZ K in
      let offs := if t <? bic_K ca then u64 (bic_K ca - t)
                  else u64 (t - bic_K ca) in
      let delta :=
        u32 (Z.shiftr (u64 (cube_rtt_scale P * offs * offs * offs))
                      (10 + 3 * BICTCP_HZ)) in
      let bic_target :=
        if t <? bic_K ca then u32 (bic_origin_point ca - delta)
        else u32 (bic_origin_point ca + delta) in
      let ca :=
        if bic_target >? cwnd
        then set_cnt (cwnd / (bic_target - cwnd)) ca
        else set_cnt (u32 (100 * cwnd)) ca in
      Some (if (last_max_cwnd ca =? 0) && (cnt ca >? 20)
            then set_cnt 20 ca else ca)
  end.

(** The block under the label [tcp_friendliness]. *)
Definition bictcp_friendliness (fuel : nat) (ca : bictcp) (cwnd : Z)
  : option bictcp :=
  if tcp_friendliness P =? 0 then Some ca
  else
    let delta := Z.shiftr (u32 (cwnd * beta_scale P)) 3 in
    match tcp_friendly_loop fuel delta (ack_cnt ca) (tcp_cwnd ca) with
    | None => None
    | Some (a, w) =>
        let ca := set_tcp_cwnd w (set_ack_cnt a ca) in
        if tcp_cwnd ca >? cwnd then
          let delta := u32 (tcp_cwnd ca - cwnd) in
          let max_cnt := cwnd / delta in
          Some (if cnt ca >? max_cnt then set_cnt max_cnt ca else ca)
        else Some ca
    end.

(** The first guard of [bictcp_update], on the state in which
    [ca->ack_cnt] has been advanced already. *)
Definition rate_limited (ca : bictcp) (cwnd now : Z) : bool :=
  (last_cwnd ca =? cwnd) && (s32 (now - last_time ca) <=? Z.quot (HZ K) 32).

(** The second guard: [ca->epoch_start && tcp_jiffies32 == ca->last_time]. *)
Definition same_jiffy (ca : bictcp) (now : Z) : bool :=
  negb (epoch_start ca =? 0) && (now =? last_time ca).

(** [now] is [tcp_jiffies32]. *)
Definition bictcp_update (fuel : nat) (ca : bictcp) (cwnd acked now : Z)
  : option bictcp :=
  let ca := set_ack_cnt (u32 (ack_cnt ca + acked)) ca in
  if rate_limited ca cwnd now then Some ca
  else
    match (if same_jiffy ca now then Some ca
           else bictcp_cubic ca cwnd acked now) with
    | None => None
    | Some ca =>
        match bictcp_friendliness fuel ca cwnd with
        | None => None
        | Some ca => Some (set_cnt (Z.max (cnt ca) 2) ca)
        end
    end.

(** The slow-start branch of [bictcp_cong_avoid], up to the test of what
    [tcp_slow_start] left of [acked]. *)
Definition cong_avoid_slow_start (sk : sock) (ack acked clock : Z)
  : sock * Z :=
  let sk := if negb (hystart P =? 0) && after ack (end_seq (inet_csk_ca sk))
            then bictcp_hystart_reset sk clock else sk in
  let '(tp, acked) := tcp_slow_start K (tcp_sk sk) acked in
  (with_tp tp sk, acked).

Definition bictcp_cong_avoid (fuel : nat) (sk : sock)
    (ack acked now clock : Z) : option sock :=
  if negb (tcp_is_cwnd_limited K (tcp_sk sk)) then Some sk
  else
    let ss := tcp_in_slow_start (tcp_sk sk) in
    let '(sk1, acked1) :=
      if ss then cong_avoid_slow_start sk ack acked clock else (sk, acked) in
    if ss && (acked1 =? 0) then Some sk1
    else
      match bictcp_update fuel (inet_csk_ca sk1) (snd_cwnd (tcp_sk sk1))
              acked1 now with
      | None => None
      | Some ca =>
          Some (mk_sock (tcp_cong_avoid_ai K (tcp_sk sk1) (cnt ca) acked1) ca)
      end.

Definition bictcp_recalc_ssthresh (sk : sock) : sock * Z :=
  let tp := tcp_sk sk in
  let ca := set_epoch_start 0 (inet_csk_ca sk) in
  let ca :=
    if (snd_cwnd tp <? last_max_cwnd ca) && negb (fast_convergence P =? 0)
    then set_last_max_cwnd
           (u32 (snd_cwnd tp * u32 (BICTCP_BETA_SCALE + beta P))
              / (2 * BICTCP_BETA_SCALE)) ca
    else set_last_max_cwnd (snd_cwnd tp) ca in
  (with_ca ca sk,
   Z.max (u32 (snd_cwnd tp * u32 (beta P)) / BICTCP_BETA_SCALE) 2).

Definition bictcp_state (sk : sock) (new_state clock : Z) : sock :=
  if new_state =? TCP_CA_Loss then
    bictcp_hystart_reset (with_ca (bictcp_reset (inet_csk_ca sk)) sk) clock
  else sk.

(** [HYSTART_DELAY_MAX] and [HYSTART_DELAY_THRESH(x)]; the conditional has
    type [unsigned int], so do the bounds of the clamp. *)
Definition HYSTART_DELAY_MAX : Z :=
  if hystart_delay_max P =? 0 then INT_MAX else Z.shiftl 16 3.
Definition HYSTART_DELAY_THRESH (x : Z) : Z :=
  clamp x HYSTART_DELAY_MIN HYSTART_DELAY_MAX.

(** The ACK-train detector of [hystart_update]. *)
Definition hystart_ack_train (sk : sock) (clock : Z) : sock :=
  let ca := inet_csk_ca sk in
  let now := clock in
  if s32 (now - last_ack ca) <=? hystart_ack_delta P then
    let ca := set_last_ack now ca in
    if u32 (s32 (now - round_start ca)) >? Z.shiftr (delay_min ca) 4 then
      mk_sock (set_snd_ssthresh (snd_cwnd (tcp_sk sk)) (tcp_sk sk))
              (set_found (u8 (Z.lor (found ca) HYSTART_ACK_TRAIN)) ca)
    else with_ca ca sk
  else sk.

(** The delay-increase detector of [hystart_update]. *)
Definition hystart_delay (sk : sock) (delay : Z) : sock :=
  let ca := inet_csk_ca sk in
  let ca := if curr_rtt ca >? delay then set_curr_rtt delay ca else ca in
  if sample_cnt ca <? HYSTART_MIN_SAMPLES then
    let ca := if (curr_rtt ca =? 0) || (curr_rtt ca >? delay)
              then set_curr_rtt delay ca else ca in
    with_ca (set_sample_cnt (u8 (sample_cnt ca + 1)) ca) sk
  else
    if curr_rtt ca >?
       u32 (delay_min ca + HYSTART_DELAY_THRESH (Z.shiftr (delay_min ca) 3))
    then
      mk_sock (set_snd_ssthresh (snd_cwnd (tcp_sk sk)) (tcp_sk sk))
              (set_found (u8 (Z.lor (found ca) HYSTART_DELAY)) ca)
    else with_ca ca sk.

Definition hystart_update (sk : sock) (delay clock : Z) : sock :=
  if negb (Z.land (found (inet_csk_ca sk)) (hystart_detect P) =? 0) then sk
  else
    let sk := if negb (Z.land (hystart_detect P) HYSTART_ACK_TRAIN =? 0)
              then hystart_ack_train sk clock else sk in
    if negb (Z.land (hystart_detect P) HYSTART_DELAY =? 0)
    then hystart_delay sk delay else sk.

(** [delay = (sample->rtt_us << 3) / USEC_PER_MSEC; if (delay == 0) delay = 1]. *)
Definition sample_delay (sample : ack_sample) : Z :=
  let delay := u32 (Z.quot (s32 (Z.shiftl (rtt_us sample) 3)) USEC_PER_MSEC) in
  if delay =? 0 then 1 else delay.

Definition bictcp_acked (fuel : nat) (sk : sock) (sample : ack_sample)
    (now clock sdev0 : Z) : option sock :=
  let tp := tcp_sk sk in
  let ca := inet_csk_ca sk in
  if rtt_us sample <? 0 then Some sk
  else if negb (epoch_start ca =? 0) && (s32 (now - epoch_start ca) <? HZ K)
  then Some sk
  else
    let delay := sample_delay sample in
    match rtt_sdev fuel tp sdev0 with
    | None => None
    | Some _ =>
        if negb (hystart P =? 0) && tcp_in_slow_start tp
           && (snd_cwnd tp >=? u32 (hystart_low_window P))
        then Some (hystart_update sk delay clock)
        else Some sk
    end.

End Cubic.


(** ** Definitions used by the proofs *)

(** The integers [lo], [lo + 1], ..., [lo + n - 1]. *)
Definition Z_range (lo : Z) (n : nat) : list Z :=
  map (fun i => lo + Z.of_nat i) (seq 0 n).

(** For a bit length [f] in [7..64], the exponent [b] of [cubic_root]
    leaves between four and six leading bits for the table index. *)
Definition b_ok (f : Z) : bool :=
  let kb := u32 (Z.shiftr (u32 (f * 84)) 8 - 1) in
  (1 <=? kb) && (kb <=? 20) && (3 * kb + 4 <=? f) && (f <=? 3 * kb + 6).

(** Table entries that can seed the Newton-Raphson step. *)
Definition v_ok (i : Z) : bool :=
  match v_at i with
  | Some vs => (123 <=? vs) && (vs <=? 254)
  | None => false
  end.

Definition v_in_table (i : Z) : bool :=
  match v_at i with
  | Some va => (0 <=? va) && (va <=? 254)
  | None => false
  end.

(** [|r^3 - a| / a < 0.5%], without division. *)
Definition cube_err_ok (r a : Z) : bool := 200 * Z.abs (r ^ 3 - a) <? a.

(** The result of the Newton-Raphson step as a function of the quotient
    [q = a / (x * (x - 1))]. *)
Definition newton_of_quot (x q : Z) : Z :=
  Z.shiftr (u32 (u32 (2 * x + u32 q) * 341)) 10.

(** All [a] in [lo..hi] with [q <= a / d] pass [cube_err_ok]: for each
    quotient the result is constant, and the test is made at both ends of
    the stretch of inputs with that quotient. *)
Fixpoint check_quots (fuel : nat) (x d lo hi q : Z) : bool :=
  if q * d >? hi then true
  else
    match fuel with
    | O => false
    | S fuel' =>
        let r := newton_of_quot x q in
        cube_err_ok r (Z.max lo (q * d))
        && cube_err_ok r (Z.min hi (q * d + d - 1))
        && check_quots fuel' x d lo hi (q + 1)
    end.

(** The inputs with exponent [kb] and table index [s]: they share a seed. *)
Definition check_class (kb s : Z) : bool :=
  match v_at s with
  | None => false
  | Some vs =>
      let x := cubic_root_seed kb vs in
      let d := x * (x - 1) in
      let lo := s * 2 ^ (3 * kb) in
      let hi := lo + 2 ^ (3 * kb) - 1 in
      (2 <=? x) && (x <? 2 ^ 32)
      && check_quots (Z.to_nat (hi / d - lo / d + 1)) x d lo hi (lo / d)
  end.

(** ** A kernel to run the callbacks in

    The helpers as net/ipv4/tcp_cong.c and include/linux/jiffies.h define
    them, for a kernel with [HZ = 1000] and a sender that is always limited
    by its window.  [tcp_cong_avoid_ai] divides by [w], a fault in C for
    [w = 0]; the quotient is 0 here. *)

Definition linux_tcp_slow_start (tp : tcp_sock) (acked : Z) : tcp_sock * Z :=
  let cwnd := Z.min (u32 (snd_cwnd tp + acked)) (snd_ssthresh tp) in
  let acked := u32 (acked - u32 (cwnd - snd_cwnd tp)) in
  (mk_tcp_sock (Z.min cwnd (snd_cwnd_clamp tp)) (snd_ssthresh tp) (snd_nxt tp)
     (lsndtime tp) (snd_cwnd_cnt tp) (snd_cwnd_clamp tp)
     (sdev_num_packets tp) (sdev_m2_rtt_ms tp), acked).

Definition linux_tcp_cong_avoid_ai (tp : tcp_sock) (w acked : Z) : tcp_sock :=
  let '(cwnd, c) :=
    if snd_cwnd_cnt tp >=? w then (u32 (snd_cwnd tp + 1), 0)
    else (snd_cwnd tp, snd_cwnd_cnt tp) in
  let c := u32 (c + acked) in
  let '(cwnd, c) :=
    if c >=? w then
      let delta := c / w in (u32 (cwnd + delta), u32 (c - u32 (delta * w)))
    else (cwnd, c) in
  mk_tcp_sock (Z.min cwnd (snd_cwnd_clamp tp)) (snd_ssthresh tp) (snd_nxt tp)
    (lsndtime tp) c (snd_cwnd_clamp tp)
    (sdev_num_packets tp) (sdev_m2_rtt_ms tp).

Definition linux_kernel : Kernel :=
  {| HZ := 1000;
     msecs_to_jiffies := fun m => if s32 m <? 0 then 2 ^ 62 - 2 else m;
     tcp_is_cwnd_limited := fun _ => true;
     tcp_slow_start := linux_tcp_slow_start;
     tcp_cong_avoid_ai := linux_tcp_cong_avoid_ai |}.

(** A socket whose private area is all zero, with window [cwnd] and
    threshold [ssthresh]. *)
Definition zero_bictcp : bictcp := mk_bictcp 0 0 0 0 0 0 0 0 0 0 0 0 0 0 0 0.
Definition plain_tcp_sock (cwnd ssthresh : Z) : tcp_sock :=
  mk_tcp_sock cwnd ssthresh 0 0 0 (2 ^ 32 - 1) 0 0.

(** ** States and runs *)

(** The fields of the private area hold values of their C types. *)
Definition bictcp_wf (ca : bictcp) : Prop :=
  0 <= cnt ca < 2 ^ 32 /\ 0 <= last_max_cwnd ca < 2 ^ 32 /\
  0 <= last_cwnd ca < 2 ^ 32 /\ 0 <= last_time ca < 2 ^ 32 /\
  0 <= bic_origin_point ca < 2 ^ 32 /\ 0 <= bic_K ca < 2 ^ 32 /\
  0 <= delay_min ca < 2 ^ 32 /\ 0 <= epoch_start ca < 2 ^ 32 /\
  0 <= ack_cnt ca < 2 ^ 32 /\ 0 <= tcp_cwnd ca < 2 ^ 32 /\
  0 <= sample_cnt ca < 2 ^ 8 /\ 0 <= found ca < 2 ^ 8 /\
  0 <= round_start ca < 2 ^ 32 /\ 0 <= end_seq ca < 2 ^ 32 /\
  0 <= last_ack ca < 2 ^ 32 /\ 0 <= curr_rtt ca < 2 ^ 32.

(** What [bictcp_reset] establishes about [cnt] and every callback keeps:
    [cnt] is below two only as long as [last_cwnd] is still zero. *)
Definition cnt_valid (ca : bictcp) : Prop := 2 <= cnt ca \/ last_cwnd ca = 0.

(** One call of an exported callback, seen from the private area: the rest
    of the socket and the arguments are whatever the stack passes. *)
Inductive callback_step (K : Kernel) (P : Params) : bictcp -> bictcp -> Prop :=
| step_init : forall ca tp clock,
    callback_step K P ca (inet_csk_ca (bictcp_init P (mk_sock tp ca) clock))
| step_cong_avoid : forall ca tp fuel ack acked now clock sk',
    bictcp_cong_avoid K P fuel (mk_sock tp ca) ack acked now clock = Some sk' ->
    callback_step K P ca (inet_csk_ca sk')
| step_acked : forall ca tp fuel sample now clock sdev0 sk',
    bictcp_acked K P fuel (mk_sock tp ca) sample now clock sdev0 = Some sk' ->
    callback_step K P ca (inet_csk_ca sk')
| step_ssthresh : forall ca tp,
    callback_step K P ca
      (inet_csk_ca (fst (bictcp_recalc_ssthresh P (mk_sock tp ca))))
| step_state : forall ca tp new_state clock,
    callback_step K P ca
      (inet_csk_ca (bictcp_state (mk_sock tp ca) new_state clock))
| step_cwnd_event : forall ca tp tx_start now,
    callback_step K P ca
      (inet_csk_ca (bictcp_cwnd_event (mk_sock tp ca) tx_start now)).

(** The states of the private area from [bictcp_init] on; the area holds
    anything before. *)
Inductive reachable (K : Kernel) (P : Params) : bictcp -> Prop :=
| reach_init : forall ca0 tp clock,
    reachable K P (inet_csk_ca (bictcp_init P (mk_sock tp ca0) clock))
| reach_step : forall ca ca',
    reachable K P ca -> callback_step K P ca ca' -> reachable K P ca'.

(** One call inside a slow-start episode: any callback but the two that
    reset the private area ([bictcp_init], and [bictcp_state] on loss). *)
Inductive episode_step (K : Kernel) (P : Params) : bictcp -> bictcp -> Prop :=
| ep_cong_avoid : forall ca tp fuel ack acked now clock sk',
    bictcp_cong_avoid K P fuel (mk_sock tp ca) ack acked now clock = Some sk' ->
    episode_step K P ca (inet_csk_ca sk')
| ep_acked : forall ca tp fuel sample now clock sdev0 sk',
    bictcp_acked K P fuel (mk_sock tp ca) sample now clock sdev0 = Some sk' ->
    episode_step K P ca (inet_csk_ca sk')
| ep_ssthresh : forall ca tp,
    episode_step K P ca
      (inet_csk_ca (fst (bictcp_recalc_ssthresh P (mk_sock tp ca))))
| ep_state : forall ca tp new_state clock,
    new_state <> TCP_CA_Loss ->
    episode_step K P ca
      (inet_csk_ca (bictcp_state (mk_sock tp ca) new_state clock))
| ep_cwnd_event : forall ca tp tx_start now,
    episode_step K P ca
      (inet_csk_ca (bictcp_cwnd_event (mk_sock tp ca) tx_start now)).

Inductive episode (K : Kernel) (P : Params) : bictcp -> bictcp -> Prop :=
| episode_refl : forall ca, episode K P ca ca
| episode_next : forall ca ca' ca'',
    episode K P ca ca' -> episode_step K P ca' ca'' -> episode K P ca ca''.

(** The delay detector fed the samples of a round, one call a sample. *)
Definition hystart_delay_run (P : Params) (sk : sock) (delays : list Z)
  : sock :=
  fold_left (hystart_delay P) delays sk.

(** The least element of a list of samples, [d] for the empty list. *)
Definition list_min (d : Z) (l : list Z) : Z := fold_left Z.min l d.

(** Two states of the private area that agree on what HyStart keeps and on
    the remembered maximum. *)
Definition same_hystart (ca ca' : bictcp) : Prop :=
  delay_min ca' = delay_min ca /\ found ca' = found ca /\
  sample_cnt ca' = sample_cnt ca /\ round_start ca' = round_start ca /\
  end_seq ca' = end_seq ca /\ last_ack ca' = last_ack ca /\
  curr_rtt ca' = curr_rtt ca /\ last_max_cwnd ca' = last_max_cwnd ca.

(** Two states that agree on everything the window computation keeps. *)
Definition same_cubic (ca ca' : bictcp) : Prop :=
  cnt ca' = cnt ca /\ last_max_cwnd ca' = last_max_cwnd ca /\
  last_cwnd ca' = last_cwnd ca /\ last_time ca' = last_time ca /\
  bic_origin_point ca' = bic_origin_point ca /\ bic_K ca' = bic_K ca /\
  delay_min ca' = delay_min ca /\ epoch_start ca' = epoch_start ca /\
  ack_cnt ca' = ack_cnt ca /\ tcp_cwnd ca' = tcp_cwnd ca.

(** Setting the DELAY bit keeps a [u8] a [u8]. *)
Definition lor_delay_ok (f : Z) : bool :=
  u8 (Z.lor f HYSTART_DELAY) =? Z.lor f HYSTART_DELAY.

(** A value of [found] made of the two detector flags stays so when either
    flag is set. *)
Definition found_flags_ok (f : Z) : bool :=
  (0 <=? u8 (Z.lor f HYSTART_ACK_TRAIN))
  && (u8 (Z.lor f HYSTART_ACK_TRAIN) <=? 3)
  && (0 <=? u8 (Z.lor f HYSTART_DELAY))
  && (u8 (Z.lor f HYSTART_DELAY) <=? 3).



(** * Machine integers and ranges *)

Lemma In_Z_range (lo : Z) (n : nat) (i : Z) :
  lo <= i < lo + Z.of_nat n -> In i (Z_range lo n).
Proof.
  intros H. unfold Z_range. apply in_map_iff.
  exists (Z.to_nat (i - lo)). split; [lia|].
  apply in_seq. lia.
Qed.

Lemma forall_Z_range (f : Z -> bool) (lo : Z) (n : nat) :
  forallb f (Z_range lo n) = true ->
  forall i, lo <= i < lo + Z.of_nat n -> f i = true.
Proof.
  intros H i Hi. rewrite forallb_forall in H. apply H, In_Z_range, Hi.
Qed.

Lemma u32_small x : 0 <= x < 2 ^ 32 -> u32 x = x.
Proof. intros; unfold u32; apply Z.mod_small; assumption. Qed.

Lemma u64_small x : 0 <= x < 2 ^ 64 -> u64 x = x.
Proof. intros; unfold u64; apply Z.mod_small; assumption. Qed.

Lemma u8_small x : 0 <= x < 2 ^ 8 -> u8 x = x.
Proof. intros; unfold u8; apply Z.mod_small; assumption. Qed.

Lemma u32_range x : 0 <= u32 x < 2 ^ 32.
Proof. unfold u32; apply Z.mod_pos_bound; lia. Qed.

Lemma u64_range x : 0 <= u64 x < 2 ^ 64.
Proof. unfold u64; apply Z.mod_pos_bound; lia. Qed.

Lemma s32_small x : 0 <= x < 2 ^ 31 -> s32 x = x.
Proof.
  intros H. unfold s32. rewrite u32_small by lia.
  destruct (Z.ltb_spec x (2 ^ 31)); lia.
Qed.

Lemma shiftr_u32_range x n : 0 <= n -> 0 <= Z.shiftr (u32 x) n < 2 ^ 32.
Proof.
  intros Hn. pose proof (u32_range x) as Hx.
  rewrite Z.shiftr_div_pow2 by assumption.
  assert (0 < 2 ^ n) by (apply Z.pow_pos_nonneg; lia).
  split.
  - apply Z.div_pos; lia.
  - apply Z.div_lt_upper_bound; [assumption|]. nia.
Qed.



(** * The loop of the friendliness block *)

Lemma u32_succ_u32 (x n : Z) : u32 (u32 (x + n) + 1) = u32 (x + (n + 1)).
Proof.
  unfold u32. rewrite Z.add_mod_idemp_l by lia. f_equal. lia.
Qed.

Lemma tcp_friendly_loop_spec (fuel : nat) (delta : Z) :
  0 <= delta ->
  forall ack tcpw a w,
    0 <= ack < 2 ^ 32 -> 0 <= tcpw < 2 ^ 32 ->
    tcp_friendly_loop fuel delta ack tcpw = Some (a, w) ->
    exists n, 0 <= n /\ ack = a + n * delta /\ w = u32 (tcpw + n) /\
              0 <= a <= delta /\ (0 < ack -> 0 < a).
Proof.
  intros Hd. induction fuel as [|fuel IH]; intros ack tcpw a w Ha Ht H;
    simpl in H; destruct (Z.gtb_spec ack delta) as [Hgt|Hle];
    try discriminate.
  - injection H as <- <-. exists 0. rewrite Z.add_0_r, u32_small by lia. lia.
  - apply IH in H; [|rewrite u32_small; lia|apply u32_range].
    destruct H as (n & Hn & Hack & Hw & Hr & Hp).
    rewrite u32_small in Hack, Hp by lia.
    exists (n + 1). split; [lia|]. split; [lia|]. split.
    + rewrite Hw. unfold u32. rewrite Z.add_mod_idemp_l by lia.
      f_equal. lia.
    + split; [lia|]. intros _. apply Hp. lia.
  - injection H as <- <-. exists 0. rewrite Z.add_0_r, u32_small by lia. lia.
Qed.

Lemma tcp_friendly_loop_terminates (fuel : nat) (delta : Z) :
  0 < delta ->
  forall ack tcpw,
    0 <= ack < 2 ^ 32 -> (Z.to_nat ack <= fuel)%nat ->
    exists r, tcp_friendly_loop fuel delta ack tcpw = Some r.
Proof.
  intros Hd. induction fuel as [|fuel IH]; intros ack tcpw Ha Hf; simpl;
    destruct (Z.gtb_spec ack delta) as [Hgt|Hle]; eauto.
  - lia.
  - apply IH; rewrite u32_small by lia; lia.
Qed.

Lemma tcp_friendly_loop_more_fuel (fuel : nat) (delta : Z) :
  forall ack tcpw r fuel',
    tcp_friendly_loop fuel delta ack tcpw = Some r -> (fuel <= fuel')%nat ->
    tcp_friendly_loop fuel' delta ack tcpw = Some r.
Proof.
  induction fuel as [|fuel IH]; intros ack tcpw r fuel' H Hf;
    destruct fuel' as [|fuel']; simpl in *;
    destruct (ack >? delta); try discriminate; try assumption; try lia.
  apply (IH _ _ _ _ H). lia.
Qed.

Lemma tcp_friendly_loop_deterministic (f1 f2 : nat) (delta ack tcpw : Z) r1 r2 :
  tcp_friendly_loop f1 delta ack tcpw = Some r1 ->
  tcp_friendly_loop f2 delta ack tcpw = Some r2 -> r1 = r2.
Proof.
  intros H1 H2.
  apply (tcp_friendly_loop_more_fuel _ _ _ _ _ (Nat.max f1 f2)) in H1; [|lia].
  apply (tcp_friendly_loop_more_fuel _ _ _ _ _ (Nat.max f1 f2)) in H2; [|lia].
  congruence.
Qed.

(** With [delta = 0] and an ACK pending the loop never ends. *)
Lemma tcp_friendly_loop_diverges (fuel : nat) :
  forall ack tcpw, 0 < ack < 2 ^ 32 ->
    tcp_friendly_loop fuel 0 ack tcpw = None.
Proof.
  induction fuel as [|fuel IH]; intros ack tcpw Ha; simpl;
    destruct (Z.gtb_spec ack 0); try lia; [reflexivity|].
  rewrite Z.sub_0_r, u32_small by lia. apply IH. assumption.
Qed.

(** * The square-root search *)

Lemma sdev_search_terminates (fuel : nat) (variance : Z) :
  0 <= variance < 2 ^ 63 ->
  forall start end_ sdev,
    0 < start -> 0 <= end_ < 2 ^ 63 ->
    (Z.to_nat (end_ + 1 - start) <= fuel)%nat ->
    exists r, sdev_search fuel variance start end_ sdev = Some r.
Proof.
  intros Hv.
  induction fuel as [|fuel IH]; intros start end_ sdev Hs He Hf; simpl;
    destruct (Z.leb_spec start end_) as [Hle|Hgt]; eauto; [lia|].
  assert (Hmid : start <= Z.shiftr (u64 (start + end_)) 1 <= end_).
  { rewrite u64_small by lia.
    rewrite Z.shiftr_div_pow2 by lia. change (2 ^ 1) with 2.
    split; [apply Z.div_le_lower_bound; lia|].
    apply Z.div_le_upper_bound; lia. }
  set (mid := Z.shiftr (u64 (start + end_)) 1) in *.
  destruct (u64 (mid * mid) =? variance); eauto.
  destruct (Z.leb_spec mid (variance / mid)) as [Hsq|Hsq].
  - assert (mid * mid <= variance).
    { pose proof (Z.mul_div_le variance mid ltac:(lia)). nia. }
    assert (mid < 2 ^ 32 - 1).
    { change (2 ^ 63) with 9223372036854775808 in Hv.
      change (2 ^ 32 - 1) with 4294967295. nia. }
    apply IH; rewrite ?u32_small by lia; lia.
  - apply IH; rewrite ?u64_small by lia; lia.
Qed.

(** The dispersion block returns for every pair of 64-bit statistics. *)
Lemma rtt_sdev_returns (tp : tcp_sock) (sdev0 : Z) :
  - 2 ^ 63 <= sdev_m2_rtt_ms tp < 2 ^ 63 ->
  exists fuel r, rtt_sdev fuel tp sdev0 = Some r.
Proof.
  intros Hm. unfold rtt_sdev.
  set (variance := if sdev_num_packets tp >? 0
                   then Z.quot (sdev_m2_rtt_ms tp) (sdev_num_packets tp)
                   else 0).
  assert (Hv : variance < 2 ^ 63).
  { unfold variance. destruct (Z.gtb_spec (sdev_num_packets tp) 0); [|lia].
    destruct (Z.le_gt_cases 0 (sdev_m2_rtt_ms tp)).
    - rewrite Z.quot_div_nonneg by lia.
      apply Z.div_lt_upper_bound; nia.
    - pose proof (Z.quot_opp_l (sdev_m2_rtt_ms tp) (sdev_num_packets tp)
                    ltac:(lia)) as Hq.
      pose proof (Z.quot_pos (- sdev_m2_rtt_ms tp) (sdev_num_packets tp)
                    ltac:(lia) ltac:(lia)). lia. }
  destruct ((variance =? 0) || (variance =? 1)); [exists O; eauto|].
  destruct (Z.ltb_spec variance 0); [exists O; eauto|].
  exists (Z.to_nat (Z.shiftr variance 1)).
  assert (0 <= Z.shiftr variance 1 <= variance).
  { rewrite Z.shiftr_div_pow2 by lia. change (2 ^ 1) with 2.
    split; [apply Z.div_pos; lia|apply Z.div_le_upper_bound; lia]. }
  apply sdev_search_terminates; lia.
Qed.



(** * The parts of bictcp_update *)

Ltac break_if :=
  match goal with
  | |- context [if ?b then _ else _] => destruct b
  | H : context [if ?b then _ else _] |- _ => destruct b
  end.

Ltac some_inv :=
  repeat match goal with
         | H : Some _ = Some _ |- _ => injection H as H; subst
         | H : None = Some _ |- _ => discriminate H
         end.

Section UpdateFacts.

Variable K : Kernel.
Variable P : Params.

Lemma same_hystart_refl ca : same_hystart ca ca.
Proof. unfold same_hystart; tauto. Qed.

Lemma same_hystart_trans ca1 ca2 ca3 :
  same_hystart ca1 ca2 -> same_hystart ca2 ca3 -> same_hystart ca1 ca3.
Proof. unfold same_hystart; intuition congruence. Qed.

Lemma bictcp_cubic_fields ca cwnd acked now ca' :
  bictcp_cubic K P ca cwnd acked now = Some ca' ->
  last_cwnd ca' = cwnd /\ last_time ca' = now /\ same_hystart ca ca'.
Proof.
  unfold bictcp_cubic, same_hystart. cbv zeta.
  destruct ca as [c lm lc lt op bk dm es ac tw sc fd rs en la cr].
  cbn [epoch_start set_last_time set_last_cwnd set_epoch_start set_ack_cnt
       set_tcp_cwnd last_max_cwnd cnt last_cwnd last_time bic_origin_point
       bic_K delay_min ack_cnt tcp_cwnd sample_cnt found round_start end_seq
       last_ack curr_rtt set_bic_K set_bic_origin_point].
  intros H.
  destruct (es =? 0); [destruct (lm <=? cwnd); [|destruct (cubic_root _)]|];
    some_inv; try discriminate;
    cbn [set_cnt cnt last_max_cwnd last_cwnd last_time bic_origin_point
         bic_K delay_min epoch_start ack_cnt tcp_cwnd sample_cnt found
         round_start end_seq last_ack curr_rtt] in *;
    repeat break_if; cbn; tauto.
Qed.

(** The cubic part keeps the two counters of the friendliness block, or
    restarts them with the epoch. *)
Lemma bictcp_cubic_counters ca cwnd acked now ca' :
  bictcp_cubic K P ca cwnd acked now = Some ca' ->
  (ack_cnt ca' = ack_cnt ca /\ tcp_cwnd ca' = tcp_cwnd ca) \/
  (ack_cnt ca' = acked /\ tcp_cwnd ca' = cwnd).
Proof.
  unfold bictcp_cubic. cbv zeta.
  destruct ca as [c lm lc lt op bk dm es ac tw sc fd rs en la cr].
  cbn [epoch_start set_last_time set_last_cwnd set_epoch_start set_ack_cnt
       set_tcp_cwnd last_max_cwnd cnt last_cwnd last_time bic_origin_point
       bic_K delay_min ack_cnt tcp_cwnd sample_cnt found round_start end_seq
       last_ack curr_rtt set_bic_K set_bic_origin_point].
  intros H.
  destruct (es =? 0); [destruct (lm <=? cwnd); [|destruct (cubic_root _)]|];
    some_inv; try discriminate;
    cbn [set_cnt cnt last_max_cwnd ack_cnt tcp_cwnd] in *;
    repeat break_if; cbn; tauto.
Qed.

Lemma bictcp_cubic_epoch ca cwnd acked now ca' :
  bictcp_cubic K P ca cwnd acked now = Some ca' ->
  epoch_start ca' = epoch_start ca \/ epoch_start ca' = now.
Proof.
  unfold bictcp_cubic. cbv zeta.
  destruct ca as [c lm lc lt op bk dm es ac tw sc fd rs en la cr].
  cbn [epoch_start set_last_time set_last_cwnd set_epoch_start set_ack_cnt
       set_tcp_cwnd last_max_cwnd cnt last_cwnd last_time bic_origin_point
       bic_K delay_min ack_cnt tcp_cwnd sample_cnt found round_start end_seq
       last_ack curr_rtt set_bic_K set_bic_origin_point].
  intros H.
  destruct (es =? 0); [destruct (lm <=? cwnd); [|destruct (cubic_root _)]|];
    some_inv; try discriminate;
    cbn [set_cnt cnt last_max_cwnd epoch_start] in *;
    repeat break_if; cbn; tauto.
Qed.

Lemma bictcp_friendliness_fields fuel ca cwnd ca' :
  bictcp_friendliness P fuel ca cwnd = Some ca' ->
  last_cwnd ca' = last_cwnd ca /\ last_time ca' = last_time ca /\
  epoch_start ca' = epoch_start ca /\ cnt ca' <= cnt ca /\
  same_hystart ca ca'.
Proof.
  unfold bictcp_friendliness, same_hystart. cbv zeta.
  destruct ca as [c lm lc lt op bk dm es ac tw sc fd rs en la cr].
  cbn [ack_cnt tcp_cwnd set_ack_cnt set_tcp_cwnd cnt].
  intros H. destruct (tcp_friendliness P =? 0).
  - some_inv. cbn. intuition lia.
  - destruct (tcp_friendly_loop _ _ _ _) as [[a w]|]; [|discriminate].
    destruct (w >? cwnd); [destruct (Z.gtb_spec c (cwnd / u32 (w - cwnd)))|];
      some_inv; cbn; intuition lia.
Qed.

Lemma bictcp_update_rate_limited fuel ca cwnd acked now :
  rate_limited K (set_ack_cnt (u32 (ack_cnt ca + acked)) ca) cwnd now = true ->
  bictcp_update K P fuel ca cwnd acked now
  = Some (set_ack_cnt (u32 (ack_cnt ca + acked)) ca).
Proof. intros H. unfold bictcp_update. rewrite H. reflexivity. Qed.

(** A call that gets past the first guard runs the friendliness block,
    on the state the cubic part left or, in the same jiffy, on the state it
    was entered with, and floors [cnt] at two. *)
Lemma bictcp_update_not_limited fuel ca cwnd acked now ca' :
  rate_limited K (set_ack_cnt (u32 (ack_cnt ca + acked)) ca) cwnd now = false ->
  bictcp_update K P fuel ca cwnd acked now = Some ca' ->
  exists ca1 ca2,
    (if same_jiffy (set_ack_cnt (u32 (ack_cnt ca + acked)) ca) now
     then ca1 = set_ack_cnt (u32 (ack_cnt ca + acked)) ca
     else bictcp_cubic K P (set_ack_cnt (u32 (ack_cnt ca + acked)) ca)
            cwnd acked now = Some ca1) /\
    bictcp_friendliness P fuel ca1 cwnd = Some ca2 /\
    ca' = set_cnt (Z.max (cnt ca2) 2) ca2.
Proof.
  intros Hr H. unfold bictcp_update in H. rewrite Hr in H.
  destruct (same_jiffy _ now).
  - destruct (bictcp_friendliness P fuel _ cwnd) as [ca2|] eqn:Hf;
      [|discriminate].
    some_inv. eauto.
  - destruct (bictcp_cubic K P _ cwnd acked now) as [ca1|] eqn:Hc;
      [|discriminate].
    destruct (bictcp_friendliness P fuel ca1 cwnd) as [ca2|] eqn:Hf;
      [|discriminate].
    some_inv. eauto.
Qed.

Lemma set_ack_cnt_same_hystart x ca : same_hystart ca (set_ack_cnt x ca).
Proof. unfold same_hystart; cbn; tauto. Qed.

Lemma set_cnt_same_hystart x ca : same_hystart ca (set_cnt x ca).
Proof. unfold same_hystart; cbn; tauto. Qed.

Lemma bictcp_update_same_hystart fuel ca cwnd acked now ca' :
  bictcp_update K P fuel ca cwnd acked now = Some ca' -> same_hystart ca ca'.
Proof.
  intros H.
  destruct (rate_limited K (set_ack_cnt (u32 (ack_cnt ca + acked)) ca) cwnd now)
    eqn:Hr.
  - rewrite bictcp_update_rate_limited in H by assumption. some_inv.
    apply set_ack_cnt_same_hystart.
  - destruct (bictcp_update_not_limited _ _ _ _ _ _ Hr H)
      as (ca1 & ca2 & H1 & H2 & ->).
    apply same_hystart_trans with ca2; [|apply set_cnt_same_hystart].
    apply same_hystart_trans with ca1;
      [|apply (bictcp_friendliness_fields _ _ _ _ H2)].
    apply same_hystart_trans with (set_ack_cnt (u32 (ack_cnt ca + acked)) ca);
      [apply set_ack_cnt_same_hystart|].
    destruct (same_jiffy _ now).
    + subst ca1. apply same_hystart_refl.
    + apply (bictcp_cubic_fields _ _ _ _ _ H1).
Qed.

(** Past the first guard, [cnt] leaves the call at two or more. *)
Lemma bictcp_update_floor fuel ca cwnd acked now ca' :
  rate_limited K (set_ack_cnt (u32 (ack_cnt ca + acked)) ca) cwnd now = false ->
  bictcp_update K P fuel ca cwnd acked now = Some ca' ->
  2 <= cnt ca'.
Proof.
  intros Hr H.
  destruct (bictcp_update_not_limited _ _ _ _ _ _ Hr H)
    as (ca1 & ca2 & _ & _ & ->).
  cbn. lia.
Qed.

(** Where the call leaves [last_cwnd]. *)
Lemma bictcp_update_last_cwnd fuel ca cwnd acked now ca' :
  bictcp_update K P fuel ca cwnd acked now = Some ca' ->
  last_cwnd ca' = last_cwnd ca \/ last_cwnd ca' = cwnd.
Proof.
  intros H.
  destruct (rate_limited K (set_ack_cnt (u32 (ack_cnt ca + acked)) ca) cwnd now)
    eqn:Hr.
  - rewrite bictcp_update_rate_limited in H by assumption. some_inv.
    left. reflexivity.
  - destruct (bictcp_update_not_limited _ _ _ _ _ _ Hr H)
      as (ca1 & ca2 & H1 & H2 & ->).
    destruct (bictcp_friendliness_fields _ _ _ _ H2) as (Hl & _).
    cbn [last_cwnd set_cnt]. rewrite Hl.
    destruct (same_jiffy _ now).
    + subst ca1. left. reflexivity.
    + right. apply (bictcp_cubic_fields _ _ _ _ _ H1).
Qed.

(** The call returns whenever the friendliness loop has a positive step
    or is switched off. *)
Lemma bictcp_friendliness_returns ca cwnd :
  0 <= ack_cnt ca < 2 ^ 32 ->
  tcp_friendliness P = 0 \/ 8 <= u32 (cwnd * beta_scale P) ->
  exists ca', bictcp_friendliness P (Z.to_nat (ack_cnt ca)) ca cwnd = Some ca'.
Proof.
  intros Ha Hd. unfold bictcp_friendliness. cbv zeta.
  destruct (Z.eqb_spec (tcp_friendliness P) 0) as [|Hn]; [eauto|].
  destruct Hd as [Hd|Hd]; [contradiction|].
  destruct (tcp_friendly_loop_terminates (Z.to_nat (ack_cnt ca))
              (Z.shiftr (u32 (cwnd * beta_scale P)) 3)) with
    (ack := ack_cnt ca) (tcpw := tcp_cwnd ca) as [[a w] Hl].
  - rewrite Z.shiftr_div_pow2 by lia. change (2 ^ 3) with 8.
    apply Z.div_str_pos. lia.
  - assumption.
  - lia.
  - rewrite Hl. repeat break_if; eauto.
Qed.

End UpdateFacts.



(** * HyStart *)

Lemma land_pow2_testbit (d k : Z) :
  0 <= k -> Z.land d (2 ^ k) <> 0 -> Z.testbit d k = true.
Proof.
  intros Hk H. destruct (Z.testbit d k) eqn:Hb; [reflexivity|].
  exfalso. apply H. apply Z.bits_inj'. intros n Hn.
  rewrite Z.land_spec, Z.bits_0, Z.pow2_bits_eqb by assumption.
  destruct (Z.eqb_spec k n) as [<-|]; [rewrite Hb; reflexivity|].
  apply andb_false_r.
Qed.

Lemma testbit_land_nonzero (x d k : Z) :
  Z.testbit x k = true -> Z.testbit d k = true -> Z.land x d <> 0.
Proof.
  intros Hx Hd H.
  assert (Hb : Z.testbit (Z.land x d) k = true)
    by (rewrite Z.land_spec, Hx, Hd; reflexivity).
  rewrite H, Z.bits_0 in Hb. discriminate.
Qed.

Lemma testbit_u8_lor (f b k : Z) :
  0 <= k < 8 ->
  Z.testbit (u8 (Z.lor f b)) k = Z.testbit f k || Z.testbit b k.
Proof.
  intros Hk. unfold u8. rewrite Z.mod_pow2_bits_low by lia.
  apply Z.lor_spec.
Qed.

Section HystartFacts.

Variable K : Kernel.
Variable P : Params.

Lemma same_cubic_refl ca : same_cubic ca ca.
Proof. unfold same_cubic; tauto. Qed.

Lemma same_cubic_trans ca1 ca2 ca3 :
  same_cubic ca1 ca2 -> same_cubic ca2 ca3 -> same_cubic ca1 ca3.
Proof. unfold same_cubic; intuition congruence. Qed.

Lemma bictcp_hystart_reset_fields sk clock :
  same_cubic (inet_csk_ca sk) (inet_csk_ca (bictcp_hystart_reset sk clock)) /\
  found (inet_csk_ca (bictcp_hystart_reset sk clock)) = found (inet_csk_ca sk) /\
  tcp_sk (bictcp_hystart_reset sk clock) = tcp_sk sk.
Proof. unfold bictcp_hystart_reset, same_cubic; cbn; tauto. Qed.

Lemma hystart_ack_train_fields sk clock :
  same_cubic (inet_csk_ca sk) (inet_csk_ca (hystart_ack_train P sk clock)).
Proof.
  unfold hystart_ack_train, same_cubic. cbv zeta.
  repeat break_if; cbn; tauto.
Qed.

Lemma hystart_delay_fields sk delay :
  same_cubic (inet_csk_ca sk) (inet_csk_ca (hystart_delay P sk delay)).
Proof.
  unfold hystart_delay, same_cubic. cbv zeta.
  repeat break_if; cbn; tauto.
Qed.

Lemma hystart_update_fields sk delay clock :
  same_cubic (inet_csk_ca sk) (inet_csk_ca (hystart_update P sk delay clock)).
Proof.
  unfold hystart_update.
  destruct (negb (Z.land (found _) _ =? 0)); [apply same_cubic_refl|].
  destruct (negb (Z.land _ HYSTART_ACK_TRAIN =? 0));
    destruct (negb (Z.land _ HYSTART_DELAY =? 0));
    try apply same_cubic_refl;
    try apply hystart_ack_train_fields; try apply hystart_delay_fields.
  eapply same_cubic_trans;
    [apply hystart_ack_train_fields|apply hystart_delay_fields].
Qed.

(** The guard at the head of [hystart_update]. *)
Lemma hystart_update_found sk delay clock :
  Z.land (found (inet_csk_ca sk)) (hystart_detect P) <> 0 ->
  hystart_update P sk delay clock = sk.
Proof.
  intros H. unfold hystart_update.
  destruct (Z.eqb_spec (Z.land (found (inet_csk_ca sk)) (hystart_detect P)) 0);
    [contradiction|reflexivity].
Qed.

(** What [bictcp_acked] returns is the socket it was given or what
    [hystart_update] made of it. *)
Lemma bictcp_acked_cases fuel sk sample now clock sdev0 sk' :
  bictcp_acked K P fuel sk sample now clock sdev0 = Some sk' ->
  sk' = sk \/ sk' = hystart_update P sk (sample_delay sample) clock.
Proof.
  unfold bictcp_acked. cbv zeta. intros H.
  repeat break_if; some_inv; try discriminate; auto.
Qed.

Lemma bictcp_acked_fields fuel sk sample now clock sdev0 sk' :
  bictcp_acked K P fuel sk sample now clock sdev0 = Some sk' ->
  same_cubic (inet_csk_ca sk) (inet_csk_ca sk').
Proof.
  intros H. destruct (bictcp_acked_cases _ _ _ _ _ _ _ H) as [->| ->].
  - apply same_cubic_refl.
  - apply hystart_update_fields.
Qed.

Lemma bictcp_acked_returns sk sample now clock sdev0 :
  - 2 ^ 63 <= sdev_m2_rtt_ms (tcp_sk sk) < 2 ^ 63 ->
  exists fuel sk', bictcp_acked K P fuel sk sample now clock sdev0 = Some sk'.
Proof.
  intros Hm. destruct (rtt_sdev_returns (tcp_sk sk) sdev0 Hm) as (fuel & r & Hr).
  exists fuel. unfold bictcp_acked. cbv zeta. rewrite Hr.
  repeat break_if; eauto.
Qed.

Lemma bictcp_cwnd_event_fields sk tx_start now :
  delay_min (inet_csk_ca (bictcp_cwnd_event sk tx_start now))
  = delay_min (inet_csk_ca sk) /\
  found (inet_csk_ca (bictcp_cwnd_event sk tx_start now))
  = found (inet_csk_ca sk) /\
  cnt (inet_csk_ca (bictcp_cwnd_event sk tx_start now))
  = cnt (inet_csk_ca sk) /\
  last_cwnd (inet_csk_ca (bictcp_cwnd_event sk tx_start now))
  = last_cwnd (inet_csk_ca sk).
Proof.
  unfold bictcp_cwnd_event. cbv zeta. repeat break_if; cbn; tauto.
Qed.

Lemma bictcp_recalc_ssthresh_fields sk :
  delay_min (inet_csk_ca (fst (bictcp_recalc_ssthresh P sk)))
  = delay_min (inet_csk_ca sk) /\
  found (inet_csk_ca (fst (bictcp_recalc_ssthresh P sk)))
  = found (inet_csk_ca sk) /\
  cnt (inet_csk_ca (fst (bictcp_recalc_ssthresh P sk)))
  = cnt (inet_csk_ca sk) /\
  last_cwnd (inet_csk_ca (fst (bictcp_recalc_ssthresh P sk)))
  = last_cwnd (inet_csk_ca sk).
Proof.
  unfold bictcp_recalc_ssthresh. cbv zeta. repeat break_if; cbn; tauto.
Qed.

Lemma bictcp_init_fields sk clock :
  delay_min (inet_csk_ca (bictcp_init P sk clock)) = 0 /\
  found (inet_csk_ca (bictcp_init P sk clock)) = 0 /\
  cnt (inet_csk_ca (bictcp_init P sk clock)) = 0 /\
  last_cwnd (inet_csk_ca (bictcp_init P sk clock)) = 0.
Proof.
  unfold bictcp_init. cbv zeta. repeat break_if; cbn; tauto.
Qed.

Lemma bictcp_state_fields sk new_state clock :
  (new_state = TCP_CA_Loss /\
   delay_min (inet_csk_ca (bictcp_state sk new_state clock)) = 0 /\
   found (inet_csk_ca (bictcp_state sk new_state clock)) = 0 /\
   cnt (inet_csk_ca (bictcp_state sk new_state clock)) = 0 /\
   last_cwnd (inet_csk_ca (bictcp_state sk new_state clock)) = 0) \/
  (new_state <> TCP_CA_Loss /\ bictcp_state sk new_state clock = sk).
Proof.
  unfold bictcp_state. destruct (Z.eqb_spec new_state TCP_CA_Loss).
  - left. cbn. tauto.
  - right. tauto.
Qed.

Lemma bictcp_cong_avoid_fields fuel sk ack acked now clock sk' :
  bictcp_cong_avoid K P fuel sk ack acked now clock = Some sk' ->
  delay_min (inet_csk_ca sk') = delay_min (inet_csk_ca sk) /\
  found (inet_csk_ca sk') = found (inet_csk_ca sk).
Proof.
  unfold bictcp_cong_avoid. cbv zeta.
  destruct (negb (tcp_is_cwnd_limited K (tcp_sk sk))).
  { intros H. some_inv. tauto. }
  assert (Hpre : forall sk1 acked1,
             (if tcp_in_slow_start (tcp_sk sk)
              then cong_avoid_slow_start K P sk ack acked clock
              else (sk, acked)) = (sk1, acked1) ->
             delay_min (inet_csk_ca sk1) = delay_min (inet_csk_ca sk) /\
             found (inet_csk_ca sk1) = found (inet_csk_ca sk)).
  { intros sk1 acked1. destruct (tcp_in_slow_start (tcp_sk sk)).
    - unfold cong_avoid_slow_start. cbv zeta.
      destruct (negb _ && after _ _);
        destruct (tcp_slow_start K _ acked) as [tp' acked'];
        intros H; injection H as <- <-; cbn; tauto.
    - intros H; injection H as <- <-. tauto. }
  destruct (if tcp_in_slow_start (tcp_sk sk)
            then cong_avoid_slow_start K P sk ack acked clock
            else (sk, acked)) as [sk1 acked1].
  specialize (Hpre sk1 acked1 eq_refl). destruct Hpre as [Hd Hf].
  destruct (tcp_in_slow_start (tcp_sk sk) && (acked1 =? 0)).
  { intros H. some_inv. tauto. }
  destruct (bictcp_update K P fuel (inet_csk_ca sk1) _ acked1 now)
    as [ca'|] eqn:Hu; [|discriminate].
  intros H. some_inv. cbn [inet_csk_ca].
  destruct (bictcp_update_same_hystart K P _ _ _ _ _ _ Hu) as (Hd' & Hf' & _).
  split; congruence.
Qed.

End HystartFacts.



(** * The cube root is defined everywhere *)

Lemma fls64_pos a : 0 < a -> fls64 a = Z.log2 a + 1.
Proof. intros H; unfold fls64. destruct (Z.eqb_spec a 0); lia. Qed.

Lemma fls64_bounds a :
  0 < a < 2 ^ 64 -> 1 <= fls64 a <= 64 /\ 2 ^ (fls64 a - 1) <= a < 2 ^ fls64 a.
Proof.
  intros [H0 H1]. rewrite fls64_pos by assumption.
  pose proof (Z.log2_nonneg a). pose proof (Z.log2_spec a H0) as Hs.
  assert (Z.log2 a < 64) by (apply Z.log2_lt_pow2; assumption).
  replace (Z.log2 a + 1 - 1) with (Z.log2 a) by lia.
  replace (Z.log2 a + 1) with (Z.succ (Z.log2 a)) by lia. lia.
Qed.

Lemma fls64_ge7_nonzero a : 7 <= fls64 a -> a <> 0.
Proof. intros H ->. change (fls64 0) with 0 in H. lia. Qed.

Lemma b_ok_all : forallb b_ok (Z_range 7 58) = true.
Proof. vm_compute. reflexivity. Qed.

Lemma cubic_root_b_bounds a :
  0 <= a < 2 ^ 64 -> 7 <= fls64 a ->
  1 <= cubic_root_b a <= 20 /\
  3 * cubic_root_b a + 4 <= fls64 a <= 3 * cubic_root_b a + 6.
Proof.
  intros Ha H7.
  assert (0 < a) by (pose proof (fls64_ge7_nonzero a H7); lia).
  destruct (fls64_bounds a) as [Hf _]; [lia|].
  pose proof (forall_Z_range b_ok 7 58 b_ok_all (fls64 a)) as Hb.
  unfold b_ok in Hb. fold (cubic_root_b a) in Hb.
  specialize (Hb ltac:(lia)).
  rewrite !andb_true_iff, !Z.leb_le in Hb. lia.
Qed.

Lemma cubic_root_shift_div a :
  0 <= a < 2 ^ 64 -> 7 <= fls64 a ->
  cubic_root_shift a = a / 2 ^ (3 * cubic_root_b a) /\
  8 <= a / 2 ^ (3 * cubic_root_b a) < 64.
Proof.
  intros Ha H7.
  destruct (cubic_root_b_bounds a Ha H7) as [Hb Hf].
  assert (0 < a) by (pose proof (fls64_ge7_nonzero a H7); lia).
  destruct (fls64_bounds a) as [_ Hp]; [lia|].
  unfold cubic_root_shift.
  set (kb := cubic_root_b a) in *. set (f := fls64 a) in *.
  rewrite (u32_small (kb * 3)) by lia.
  rewrite Z.shiftr_div_pow2 by lia.
  replace (kb * 3) with (3 * kb) by lia.
  assert (Hm : 0 < 2 ^ (3 * kb)) by (apply Z.pow_pos_nonneg; lia).
  assert (Hlo : 8 <= a / 2 ^ (3 * kb)).
  { apply Z.div_le_lower_bound; [assumption|].
    apply Z.le_trans with (2 ^ (f - 1)); [|lia].
    replace (f - 1) with (3 * kb + (f - 1 - 3 * kb)) by lia.
    rewrite Z.pow_add_r by lia.
    assert (2 ^ 3 <= 2 ^ (f - 1 - 3 * kb)) by (apply Z.pow_le_mono_r; lia).
    change (2 ^ 3) with 8 in *. nia. }
  assert (Hhi : a / 2 ^ (3 * kb) < 64).
  { apply Z.div_lt_upper_bound; [assumption|].
    apply Z.lt_le_trans with (2 ^ f); [lia|].
    replace f with (3 * kb + (f - 3 * kb)) at 1 by lia.
    rewrite Z.pow_add_r by lia.
    assert (2 ^ (f - 3 * kb) <= 2 ^ 6) by (apply Z.pow_le_mono_r; lia).
    change (2 ^ 6) with 64 in *. nia. }
  rewrite u32_small by lia. lia.
Qed.

Lemma cubic_root_shift_bounds a :
  0 <= a < 2 ^ 64 -> 7 <= fls64 a -> 8 <= cubic_root_shift a < 64.
Proof.
  intros Ha H7. destruct (cubic_root_shift_div a Ha H7) as [-> H]. exact H.
Qed.

Lemma v_ok_all : forallb v_ok (Z_range 8 56) = true.
Proof. vm_compute. reflexivity. Qed.

Lemma v_at_seed_range i :
  8 <= i < 64 -> exists vs, v_at i = Some vs /\ 123 <= vs <= 254.
Proof.
  intros Hi.
  pose proof (forall_Z_range v_ok 8 56 v_ok_all i ltac:(lia)) as H.
  unfold v_ok in H. destruct (v_at i) as [vs|]; [|discriminate].
  exists vs. rewrite andb_true_iff, !Z.leb_le in H. split; [reflexivity|lia].
Qed.

Lemma v_in_table_all : forallb v_in_table (Z_range 0 64) = true.
Proof. vm_compute. reflexivity. Qed.

Lemma v_at_small i :
  0 <= i <= 63 -> exists va, v_at i = Some va /\ 0 <= va <= 254.
Proof.
  intros Hi.
  pose proof (forall_Z_range v_in_table 0 64 v_in_table_all i ltac:(lia)) as H.
  unfold v_in_table in H. destruct (v_at i) as [va|]; [|discriminate].
  exists va. rewrite andb_true_iff, !Z.leb_le in H. split; [reflexivity|lia].
Qed.

Lemma cubic_root_seed_bounds b vs :
  1 <= b <= 20 -> 123 <= vs <= 254 ->
  4 <= cubic_root_seed b vs < 2 ^ 23.
Proof.
  intros Hb Hv. unfold cubic_root_seed.
  rewrite Z.shiftl_mul_pow2 by lia.
  assert (2 ^ 1 <= 2 ^ b) by (apply Z.pow_le_mono_r; lia).
  assert (2 ^ b <= 2 ^ 20) by (apply Z.pow_le_mono_r; lia).
  change (2 ^ 1) with 2 in *. change (2 ^ 20) with 1048576 in *.
  rewrite u32_small by (change (2 ^ 32) with 4294967296; nia).
  rewrite Z.shiftr_div_pow2 by lia. change (2 ^ 6) with 64.
  change (2 ^ 23) with 8388608.
  split.
  - apply Z.div_le_lower_bound; nia.
  - apply Z.div_lt_upper_bound; nia.
Qed.

Lemma cubic_root_newton_defined x a :
  2 <= x < 2 ^ 32 ->
  u64 (x * u32 (x - 1)) <> 0 /\
  exists r, cubic_root_newton x a = Some r /\ 0 <= r < 2 ^ 32.
Proof.
  intros Hx.
  assert (Hd : u64 (x * u32 (x - 1)) <> 0).
  { rewrite (u32_small (x - 1)) by lia.
    rewrite u64_small; [nia|].
    change (2 ^ 64) with (2 ^ 32 * 2 ^ 32). nia. }
  split; [assumption|].
  unfold cubic_root_newton, div64_u64.
  destruct (Z.eqb_spec (u64 (x * u32 (x - 1))) 0); [contradiction|].
  eexists; split; [reflexivity|]. apply shiftr_u32_range; lia.
Qed.

Lemma cubic_root_small_input a : 0 <= a < 2 ^ 64 -> fls64 a < 7 -> 0 <= a <= 63.
Proof.
  intros Ha Hf. destruct (Z.eqb_spec a 0) as [->|Hn]; [lia|].
  destruct (fls64_bounds a) as [Hb Hp]; [lia|].
  assert (2 ^ fls64 a <= 2 ^ 6) by (apply Z.pow_le_mono_r; lia).
  change (2 ^ 6) with 64 in *. lia.
Qed.

Lemma cubic_root_seed_defined a :
  0 <= a < 2 ^ 64 -> 7 <= fls64 a ->
  exists vs, v_at (cubic_root_shift a) = Some vs /\
             4 <= cubic_root_seed (cubic_root_b a) vs < 2 ^ 23.
Proof.
  intros Ha H7. pose proof (cubic_root_shift_bounds a Ha H7) as Hs.
  destruct (v_at_seed_range _ Hs) as (vs & Hv & Hr).
  exists vs. split; [assumption|].
  apply cubic_root_seed_bounds; [|assumption].
  apply cubic_root_b_bounds; assumption.
Qed.

Lemma cubic_root_returns a :
  0 <= a < 2 ^ 64 -> exists r, cubic_root a = Some r /\ 0 <= r < 2 ^ 32.
Proof.
  intros Ha. unfold cubic_root. destruct (Z.ltb_spec (fls64 a) 7) as [Hf|Hf].
  - pose proof (cubic_root_small_input a Ha Hf) as Hs.
    rewrite u32_small by lia.
    destruct (v_at_small a Hs) as (va & Hv & Hr). rewrite Hv.
    eexists; split; [reflexivity|].
    rewrite Z.shiftr_div_pow2 by lia. change (2 ^ 6) with 64.
    split; [apply Z.div_pos; lia|].
    apply Z.div_lt_upper_bound; [lia|]. change (2 ^ 32) with 4294967296. lia.
  - destruct (cubic_root_seed_defined a Ha Hf) as (vs & Hv & Hx). rewrite Hv.
    apply cubic_root_newton_defined. lia.
Qed.

(** C10.  [cubic_root] is defined on every 64-bit input: below bit length
    seven the input itself indexes the table and is at most 63; otherwise
    the index [a >> (b * 3)] is below 64, the seed is at least two and the
    divisor [x * (x - 1)] is not zero; the result is a [u32]. *)
Theorem cubic_root_total (a : Z) :
  0 <= a < 2 ^ 64 ->
  (fls64 a < 7 ->
     0 <= u32 a <= 63 /\ exists va, v_at (u32 a) = Some va) /\
  (7 <= fls64 a ->
     0 <= cubic_root_shift a < 64 /\
     exists vs, v_at (cubic_root_shift a) = Some vs /\
       2 <= cubic_root_seed (cubic_root_b a) vs /\
       u64 (cubic_root_seed (cubic_root_b a) vs
            * u32 (cubic_root_seed (cubic_root_b a) vs - 1)) <> 0) /\
  exists r, cubic_root a = Some r /\ 0 <= r < 2 ^ 32.
Proof.
  intros Ha. split; [|split].
  - intros Hf. pose proof (cubic_root_small_input a Ha Hf) as Hs.
    rewrite u32_small by lia.
    split; [lia|]. destruct (v_at_small a Hs) as (va & Hv & _). eauto.
  - intros H7. pose proof (cubic_root_shift_bounds a Ha H7) as Hs.
    destruct (cubic_root_seed_defined a Ha H7) as (vs & Hv & Hx).
    split; [lia|]. exists vs. split; [assumption|]. split; [lia|].
    apply (cubic_root_newton_defined _ a). lia.
  - apply cubic_root_returns. assumption.
Qed.

Lemma cubic_root_total_witness :
  0 <= 2 ^ 40 < 2 ^ 64 /\
  exists r, cubic_root (2 ^ 40) = Some r /\ 0 <= r < 2 ^ 32.
Proof.
  split; [lia|]. apply (cubic_root_total (2 ^ 40)). lia.
Defined.



(** * Accuracy of the cube root *)

Lemma cube_err_ok_between (r a1 a2 a : Z) :
  cube_err_ok r a1 = true -> cube_err_ok r a2 = true ->
  a1 <= a <= a2 -> cube_err_ok r a = true.
Proof.
  unfold cube_err_ok. rewrite !Z.ltb_lt. generalize (r ^ 3). intros c. lia.
Qed.

Lemma check_quots_sound (fuel : nat) (x d lo hi : Z) :
  0 < d ->
  forall q, check_quots fuel x d lo hi q = true ->
  forall a, lo <= a <= hi -> q <= a / d ->
  cube_err_ok (newton_of_quot x (a / d)) a = true.
Proof.
  intros Hd. induction fuel as [|fuel IH]; intros q Hc a Ha Hq; simpl in Hc.
  - destruct (Z.gtb_spec (q * d) hi) as [Hgt|]; [|discriminate].
    assert (q * d <= a) by (pose proof (Z.mul_div_le a d Hd); nia). lia.
  - destruct (Z.gtb_spec (q * d) hi) as [Hgt|Hle].
    + assert (q * d <= a) by (pose proof (Z.mul_div_le a d Hd); nia). lia.
    + rewrite !andb_true_iff in Hc. destruct Hc as [[H1 H2] H3].
      destruct (Z.eq_dec (a / d) q) as [Heq|Hne].
      * rewrite Heq.
        apply (cube_err_ok_between _ _ _ a H1 H2).
        pose proof (Z.mul_div_le a d Hd).
        pose proof (Z.mul_succ_div_gt a d Hd).
        rewrite Heq in *. lia.
      * apply (IH (q + 1)); [assumption|assumption|lia].
Qed.

Lemma cubic_root_newton_quot (x a : Z) :
  2 <= x < 2 ^ 32 ->
  cubic_root_newton x a = Some (newton_of_quot x (a / (x * (x - 1)))).
Proof.
  intros Hx. unfold cubic_root_newton, div64_u64.
  rewrite (u32_small (x - 1)) by lia.
  rewrite u64_small by (change (2 ^ 64) with (2 ^ 32 * 2 ^ 32); nia).
  destruct (Z.eqb_spec (x * (x - 1)) 0); [nia|]. reflexivity.
Qed.

Lemma check_class_sound (a : Z) :
  0 <= a < 2 ^ 64 -> 7 <= fls64 a ->
  check_class (cubic_root_b a) (cubic_root_shift a) = true ->
  exists r, cubic_root a = Some r /\ cube_err_ok r a = true.
Proof.
  intros Ha H7 Hc.
  destruct (cubic_root_b_bounds a Ha H7) as [Hb _].
  unfold cubic_root. destruct (Z.ltb_spec (fls64 a) 7); [lia|].
  unfold check_class in Hc.
  destruct (v_at (cubic_root_shift a)) as [vs|]; [|discriminate].
  cbv zeta in Hc. rewrite !andb_true_iff, Z.leb_le, Z.ltb_lt in Hc.
  destruct Hc as [[Hx2 Hx32] Hq].
  set (x := cubic_root_seed (cubic_root_b a) vs) in *.
  rewrite cubic_root_newton_quot by lia.
  eexists; split; [reflexivity|].
  assert (Hd : 0 < x * (x - 1)) by nia.
  destruct (cubic_root_shift_div a Ha H7) as [Hs _].
  rewrite Hs in Hq.
  assert (Hm : 0 < 2 ^ (3 * cubic_root_b a)) by (apply Z.pow_pos_nonneg; lia).
  assert (Hrange : a / 2 ^ (3 * cubic_root_b a) * 2 ^ (3 * cubic_root_b a) <= a
                   <= a / 2 ^ (3 * cubic_root_b a) * 2 ^ (3 * cubic_root_b a)
                      + 2 ^ (3 * cubic_root_b a) - 1).
  { pose proof (Z.mul_div_le a _ Hm) as H1.
    pose proof (Z.mul_succ_div_gt a _ Hm) as H2.
    clear - H1 H2.
    set (p := 2 ^ (3 * cubic_root_b a)) in *. set (s := a / p) in *. nia. }
  eapply check_quots_sound; [exact Hd|exact Hq|exact Hrange|].
  apply Z.div_le_mono; [exact Hd|apply Hrange].
Qed.

Lemma check_class_9 : forallb (check_class 9) (Z_range 16 48) = true.
Proof. vm_compute. reflexivity. Qed.

Lemma check_class_10 : forallb (check_class 10) (Z_range 8 56) = true.
Proof. vm_compute. reflexivity. Qed.

Lemma check_class_11 : forallb (check_class 11) (Z_range 8 56) = true.
Proof. vm_compute. reflexivity. Qed.

Lemma check_class_12 : forallb (check_class 12) (Z_range 8 9) = true.
Proof. vm_compute. reflexivity. Qed.

Lemma check_class_covered (kb s : Z) :
  (kb = 9 /\ 16 <= s < 64) \/ (kb = 10 /\ 8 <= s < 64) \/
  (kb = 11 /\ 8 <= s < 64) \/ (kb = 12 /\ 8 <= s < 17) ->
  check_class kb s = true.
Proof.
  intros [[-> Hs]|[[-> Hs]|[[-> Hs]|[-> Hs]]]].
  - apply (forall_Z_range _ 16 48 check_class_9). lia.
  - apply (forall_Z_range _ 8 56 check_class_10). lia.
  - apply (forall_Z_range _ 8 56 check_class_11). lia.
  - apply (forall_Z_range _ 8 9 check_class_12). lia.
Qed.

Lemma fls64_range_31_40 (a : Z) :
  2 ^ 31 <= a <= 2 ^ 40 -> 32 <= fls64 a <= 41.
Proof.
  intros Ha. rewrite fls64_pos by lia.
  assert (Z.log2 (2 ^ 31) <= Z.log2 a) by (apply Z.log2_le_mono; lia).
  assert (Z.log2 a < 41) by (apply Z.log2_lt_pow2; lia).
  rewrite Z.log2_pow2 in * by lia. lia.
Qed.

(** C6, as the code has it.  For every [a] from [2^31] to [2^40] the cube
    of [cubic_root a] is within 0.5% of [a]. *)
Theorem cubic_root_accuracy (a : Z) :
  2 ^ 31 <= a <= 2 ^ 40 ->
  exists r, cubic_root a = Some r /\ 200 * Z.abs (r ^ 3 - a) < a.
Proof.
  intros Ha.
  pose proof (fls64_range_31_40 a Ha) as Hf.
  assert (Ha64 : 0 <= a < 2 ^ 64) by lia.
  assert (H7 : 7 <= fls64 a) by lia.
  destruct (cubic_root_b_bounds a Ha64 H7) as [_ Hb].
  destruct (cubic_root_shift_div a Ha64 H7) as [Hsv Hs].
  destruct (check_class_sound a Ha64 H7) as (r & Hr & Hok).
  - apply check_class_covered. rewrite Hsv.
    assert (Hk : cubic_root_b a = 9 \/ cubic_root_b a = 10 \/
                 cubic_root_b a = 11 \/ cubic_root_b a = 12) by lia.
    destruct Hk as [Hk|[Hk|[Hk|Hk]]]; rewrite Hk in Hs |- *.
    + left. split; [reflexivity|].
      change (2 ^ (3 * 9)) with 134217728 in Hs |- *.
      assert (16 <= a / 134217728) by (apply Z.div_le_lower_bound; lia). lia.
    + right; left. split; [reflexivity|lia].
    + right; right; left. split; [reflexivity|lia].
    + right; right; right. split; [reflexivity|].
      change (2 ^ (3 * 12)) with 68719476736 in Hs |- *.
      assert (a / 68719476736 < 17) by (apply Z.div_lt_upper_bound; lia). lia.
  - exists r. split; [assumption|].
    unfold cube_err_ok in Hok. apply Z.ltb_lt in Hok. assumption.
Qed.

Lemma cubic_root_accuracy_witness :
  2 ^ 31 <= 10 ^ 12 <= 2 ^ 40 /\
  exists r, cubic_root (10 ^ 12) = Some r /\ 200 * Z.abs (r ^ 3 - 10 ^ 12) < 10 ^ 12.
Proof. split; [lia | apply (cubic_root_accuracy (10 ^ 12)); lia]. Defined.

(** Below that range the bound fails: the cube of [cubic_root (2^20)] is
    1.7% above [2^20]. *)
Lemma cubic_root_small_inaccurate :
  2 ^ 20 <= 2 ^ 40 /\
  cubic_root (2 ^ 20) = Some 101 /\
  ~ (200 * Z.abs (101 ^ 3 - 2 ^ 20) < 2 ^ 20).
Proof. split; [lia|]. split; [vm_compute; reflexivity|lia]. Qed.



(** * The slow-start threshold on loss *)

(** C2, as the code has it.  With [beta] between 0 and 1024 and a window
    for which [cwnd * (1024 + beta)] fits 32 bits,
    [bictcp_recalc_ssthresh] ends the epoch, returns
    [max(cwnd * beta / 1024, 2)], and sets [last_max_cwnd] to
    [cwnd * (1024 + beta) / 2048], which is below the old value, when fast
    convergence is on and the window is below the old value, and to the
    window otherwise. *)
Theorem recalc_ssthresh_spec (P : Params) (sk : sock) :
  0 <= beta P <= BICTCP_BETA_SCALE ->
  0 <= snd_cwnd (tcp_sk sk) ->
  snd_cwnd (tcp_sk sk) * (BICTCP_BETA_SCALE + beta P) < 2 ^ 32 ->
  let cwnd := snd_cwnd (tcp_sk sk) in
  let old := last_max_cwnd (inet_csk_ca sk) in
  let sk' := fst (bictcp_recalc_ssthresh P sk) in
  epoch_start (inet_csk_ca sk') = 0 /\
  snd (bictcp_recalc_ssthresh P sk) = Z.max (cwnd * beta P / 1024) 2 /\
  (fast_convergence P <> 0 /\ cwnd < old ->
   last_max_cwnd (inet_csk_ca sk') = cwnd * (1024 + beta P) / (2 * 1024) /\
   last_max_cwnd (inet_csk_ca sk') < old) /\
  (~ (fast_convergence P <> 0 /\ cwnd < old) ->
   last_max_cwnd (inet_csk_ca sk') = cwnd) /\
  tcp_sk sk' = tcp_sk sk.
Proof.
  unfold BICTCP_BETA_SCALE. intros Hb Hc Hov. cbv zeta.
  unfold bictcp_recalc_ssthresh, BICTCP_BETA_SCALE. cbn [fst snd].
  set (cwnd := snd_cwnd (tcp_sk sk)) in *.
  rewrite (u32_small (1024 + beta P)) by lia.
  rewrite (u32_small (beta P)) by lia.
  rewrite (u32_small (cwnd * (1024 + beta P))) by nia.
  rewrite (u32_small (cwnd * beta P)) by nia.
  cbn [last_max_cwnd set_epoch_start].
  split; [|split; [reflexivity|split; [|split]]].
  - destruct (_ && _); reflexivity.
  - intros [Hfc Hlt].
    destruct (Z.ltb_spec cwnd (last_max_cwnd (inet_csk_ca sk))); [|lia].
    destruct (Z.eqb_spec (fast_convergence P) 0); [contradiction|].
    cbn [andb negb with_ca inet_csk_ca last_max_cwnd set_last_max_cwnd].
    split; [reflexivity|].
    apply Z.le_lt_trans with cwnd; [|assumption].
    apply Z.div_le_upper_bound; nia.
  - intros Hn.
    destruct (Z.ltb_spec cwnd (last_max_cwnd (inet_csk_ca sk)));
      destruct (Z.eqb_spec (fast_convergence P) 0);
      cbn [andb negb with_ca inet_csk_ca last_max_cwnd set_last_max_cwnd];
      try reflexivity.
    exfalso. apply Hn. split; assumption.
  - destruct (_ && _); reflexivity.
Qed.

(** The scenario: [last_max_cwnd] 100, window 60, default [beta]. *)
Lemma recalc_ssthresh_scenario :
  let sk := mk_sock (plain_tcp_sock 60 (2 ^ 31 - 1))
                    (set_last_max_cwnd 100 zero_bictcp) in
  (0 <= beta default_params <= BICTCP_BETA_SCALE /\
   0 <= snd_cwnd (tcp_sk sk) /\
   snd_cwnd (tcp_sk sk) * (BICTCP_BETA_SCALE + beta default_params) < 2 ^ 32) /\
  snd (bictcp_recalc_ssthresh default_params sk) = 42 /\
  last_max_cwnd (inet_csk_ca (fst (bictcp_recalc_ssthresh default_params sk)))
  = 51 /\
  epoch_start (inet_csk_ca (fst (bictcp_recalc_ssthresh default_params sk)))
  = 0.
Proof.
  cbv zeta.
  assert (H : 0 <= beta default_params <= BICTCP_BETA_SCALE /\
              0 <= 60 /\ 60 * (BICTCP_BETA_SCALE + beta default_params) < 2 ^ 32)
    by (vm_compute; intuition discriminate).
  split; [exact H|].
  destruct H as (Hb & Hc & Hov).
  destruct (recalc_ssthresh_spec default_params
              (mk_sock (plain_tcp_sock 60 (2 ^ 31 - 1))
                       (set_last_max_cwnd 100 zero_bictcp)) Hb Hc Hov)
    as (He & Hr & Hfc & _ & _).
  split; [exact Hr|]. split; [|exact He].
  exact (proj1 (Hfc (conj (fun e : 1 = 0 => Z.neq_succ_diag_l 0 e)
                          (eq_refl : (60 ?= 100) = Lt)))).
Defined.

(** At a window of [2^23] the 32-bit product [cwnd * beta] wraps. *)
Lemma recalc_ssthresh_wraps :
  let sk := mk_sock (plain_tcp_sock (2 ^ 23) (2 ^ 31 - 1)) zero_bictcp in
  snd (bictcp_recalc_ssthresh default_params sk) = 1679360 /\
  snd (bictcp_recalc_ssthresh default_params sk)
  <> Z.max (snd_cwnd (tcp_sk sk) * beta default_params / 1024) 2.
Proof. cbv zeta. split; [vm_compute; reflexivity|vm_compute; discriminate]. Qed.



(** * The floor of the increment count *)

Section CntFloor.

Variable K : Kernel.
Variable P : Params.

Lemma bictcp_cubic_returns ca cwnd acked now :
  exists ca', bictcp_cubic K P ca cwnd acked now = Some ca'.
Proof.
  unfold bictcp_cubic. cbv zeta.
  destruct (epoch_start _ =? 0); [|eauto].
  destruct (last_max_cwnd _ <=? cwnd); [eauto|].
  destruct (cubic_root_returns
              (u64 (cube_factor P
                    * u32 (last_max_cwnd
                             (set_tcp_cwnd cwnd
                                (set_ack_cnt acked
                                   (set_epoch_start now
                                      (set_last_time now
                                         (set_last_cwnd cwnd ca)))))
                           - cwnd))))
    as (k & Hk & _); [apply u64_range|].
  rewrite Hk. eauto.
Qed.

Lemma bictcp_update_returns ca cwnd acked now :
  0 <= acked < 2 ^ 32 ->
  tcp_friendliness P = 0 \/ 8 <= u32 (cwnd * beta_scale P) ->
  exists fuel ca', bictcp_update K P fuel ca cwnd acked now = Some ca'.
Proof.
  intros Ha Hd. unfold bictcp_update. cbv zeta.
  destruct (rate_limited K _ cwnd now); [exists O; eauto|].
  set (ca0 := set_ack_cnt (u32 (ack_cnt ca + acked)) ca).
  assert (Hret : forall ca1, 0 <= ack_cnt ca1 < 2 ^ 32 ->
            exists fuel ca', match bictcp_friendliness P fuel ca1 cwnd with
                             | Some c => Some (set_cnt (Z.max (cnt c) 2) c)
                             | None => None
                             end = Some ca').
  { intros ca1 H1.
    destruct (bictcp_friendliness_returns P ca1 cwnd H1 Hd) as (ca2 & H2).
    exists (Z.to_nat (ack_cnt ca1)). rewrite H2. eauto. }
  destruct (same_jiffy ca0 now).
  - apply Hret. unfold ca0. cbn. apply u32_range.
  - destruct (bictcp_cubic_returns ca0 cwnd acked now) as (ca1 & H1).
    rewrite H1. apply Hret.
    (* the cubic part either keeps ack_cnt or restarts it from acked *)
    revert H1. unfold bictcp_cubic. cbv zeta.
    assert (H0 : 0 <= ack_cnt ca0 < 2 ^ 32) by (unfold ca0; cbn; apply u32_range).
    destruct ca0 as [c lm lc lt op bk dm es ac tw sc fd rs en la cr].
    cbn in H0.
    cbn [epoch_start set_last_time set_last_cwnd set_epoch_start set_ack_cnt
         set_tcp_cwnd last_max_cwnd cnt last_cwnd last_time bic_origin_point
         bic_K delay_min ack_cnt tcp_cwnd sample_cnt found round_start end_seq
         last_ack curr_rtt set_bic_K set_bic_origin_point].
    intros H1.
    destruct (es =? 0); [destruct (lm <=? cwnd); [|destruct (cubic_root _)]|];
      some_inv; try discriminate;
      cbn [set_cnt cnt last_max_cwnd ack_cnt] in *;
      repeat break_if; cbn; lia.
Qed.

Lemma bictcp_update_cnt_valid fuel ca cwnd acked now ca' :
  cnt_valid ca ->
  bictcp_update K P fuel ca cwnd acked now = Some ca' -> cnt_valid ca'.
Proof.
  intros Hv H.
  destruct (rate_limited K (set_ack_cnt (u32 (ack_cnt ca + acked)) ca) cwnd now)
    eqn:Hr.
  - rewrite bictcp_update_rate_limited in H by assumption. some_inv.
    exact Hv.
  - left. apply (bictcp_update_floor K P _ _ _ _ _ _ Hr H).
Qed.

Lemma bictcp_update_cnt_floor fuel ca cwnd acked now ca' :
  cnt_valid ca -> cwnd <> 0 ->
  bictcp_update K P fuel ca cwnd acked now = Some ca' -> 2 <= cnt ca'.
Proof.
  intros Hv Hc H.
  destruct (rate_limited K (set_ack_cnt (u32 (ack_cnt ca + acked)) ca) cwnd now)
    eqn:Hr.
  - rewrite bictcp_update_rate_limited in H by assumption. some_inv.
    unfold rate_limited in Hr. cbn [last_cwnd set_ack_cnt] in Hr.
    apply andb_true_iff in Hr. destruct Hr as [Hl _].
    apply Z.eqb_eq in Hl. cbn [cnt set_ack_cnt].
    destruct Hv as [Hv|Hv]; [assumption|congruence].
  - apply (bictcp_update_floor K P _ _ _ _ _ _ Hr H).
Qed.

Lemma cong_avoid_slow_start_ca sk ack acked clock :
  cnt (inet_csk_ca (fst (cong_avoid_slow_start K P sk ack acked clock)))
  = cnt (inet_csk_ca sk) /\
  last_cwnd (inet_csk_ca (fst (cong_avoid_slow_start K P sk ack acked clock)))
  = last_cwnd (inet_csk_ca sk).
Proof.
  unfold cong_avoid_slow_start. cbv zeta.
  destruct (negb _ && after _ _);
    destruct (tcp_slow_start K _ acked) as [tp' acked']; cbn; tauto.
Qed.

(** C3.  From a state in which [cnt] is valid (what [bictcp_reset] sets up
    and every callback keeps) and with a window of at least one segment,
    every [bictcp_update] that returns leaves [cnt >= 2]; it does return
    when the friendliness loop has a positive step; and so every
    [bictcp_cong_avoid] that gets as far as [bictcp_update] leaves
    [cnt >= 2]. *)
Theorem cnt_floor_after_ack (ca : bictcp) (cwnd acked now : Z) :
  cnt_valid ca -> 0 < cwnd -> 0 <= acked < 2 ^ 32 ->
  (forall fuel ca',
      bictcp_update K P fuel ca cwnd acked now = Some ca' -> 2 <= cnt ca') /\
  (tcp_friendliness P = 0 \/ 8 <= u32 (cwnd * beta_scale P) ->
   exists fuel ca',
     bictcp_update K P fuel ca cwnd acked now = Some ca' /\ 2 <= cnt ca') /\
  (forall fuel tp ack acked0 clock sk',
      let sk := mk_sock tp ca in
      let ss := tcp_in_slow_start tp in
      let pre := if ss then cong_avoid_slow_start K P sk ack acked0 clock
                 else (sk, acked0) in
      tcp_is_cwnd_limited K tp = true ->
      ss && (snd pre =? 0) = false ->
      snd_cwnd (tcp_sk (fst pre)) = cwnd ->
      bictcp_cong_avoid K P fuel sk ack acked0 now clock = Some sk' ->
      2 <= cnt (inet_csk_ca sk')).
Proof.
  intros Hv Hc Ha. split; [|split].
  - intros fuel ca' H.
    apply (bictcp_update_cnt_floor fuel ca cwnd acked now); [assumption|lia|assumption].
  - intros Hd.
    destruct (bictcp_update_returns ca cwnd acked now Ha Hd) as (fuel & ca' & H).
    exists fuel, ca'. split; [assumption|].
    apply (bictcp_update_cnt_floor fuel ca cwnd acked now); [assumption|lia|assumption].
  - intros fuel tp ack acked0 clock sk'. cbv zeta.
    intros Hlim Hstop Hcw H.
    unfold bictcp_cong_avoid in H. cbn [tcp_sk] in H. rewrite Hlim in H.
    cbn [negb] in H.
    destruct (tcp_in_slow_start tp) eqn:Hss.
    + pose proof (cong_avoid_slow_start_ca (mk_sock tp ca) ack acked0 clock)
        as [Hcnt Hlast].
      destruct (cong_avoid_slow_start K P (mk_sock tp ca) ack acked0 clock)
        as [sk1 acked1].
      cbn [fst snd] in *. rewrite Hstop in H.
      destruct (bictcp_update K P fuel (inet_csk_ca sk1) _ acked1 now)
        as [ca'|] eqn:Hu; [|discriminate].
      some_inv. cbn [inet_csk_ca].
      apply (bictcp_update_cnt_floor _ _ _ _ _ _ ) with (3 := Hu); [|lia].
      unfold cnt_valid in *. cbn [inet_csk_ca] in *. rewrite Hcnt, Hlast.
      assumption.
    + cbn [fst snd andb tcp_sk inet_csk_ca] in *.
      destruct (bictcp_update K P fuel ca (snd_cwnd tp) acked0 now)
        as [ca'|] eqn:Hu; [|discriminate].
      some_inv. cbn [inet_csk_ca].
      apply (bictcp_update_cnt_floor _ _ _ _ _ _ ) with (3 := Hu);
        [assumption|lia].
Qed.

End CntFloor.

Lemma cnt_floor_after_ack_witness :
  (cnt_valid (bictcp_reset zero_bictcp) /\ 0 < 10 /\ 0 <= 1 < 2 ^ 32 /\
   8 <= u32 (10 * beta_scale default_params)) /\
  exists fuel ca',
    bictcp_update linux_kernel default_params fuel
      (bictcp_reset zero_bictcp) 10 1 5000 = Some ca' /\ 2 <= cnt ca'.
Proof.
  assert (Hv : cnt_valid (bictcp_reset zero_bictcp)) by (right; reflexivity).
  assert (Hc : 0 < 10) by reflexivity.
  assert (Ha : 0 <= 1 < 2 ^ 32) by (split; [discriminate|reflexivity]).
  assert (Hd : 8 <= u32 (10 * beta_scale default_params)) by discriminate.
  split; [exact (conj Hv (conj Hc (conj Ha Hd)))|].
  exact (proj1 (proj2 (cnt_floor_after_ack linux_kernel default_params
                         (bictcp_reset zero_bictcp) 10 1 5000 Hv Hc Ha))
               (or_intror Hd)).
Defined.



(** * The friendliness block *)

Section Friendliness.

Variable K : Kernel.
Variable P : Params.

(** What the block does to a state, when it returns. *)
Lemma bictcp_friendliness_spec fuel ca cwnd ca' :
  tcp_friendliness P <> 0 ->
  0 <= ack_cnt ca < 2 ^ 32 -> 0 <= tcp_cwnd ca < 2 ^ 32 ->
  bictcp_friendliness P fuel ca cwnd = Some ca' ->
  let delta := Z.shiftr (u32 (cwnd * beta_scale P)) 3 in
  exists n,
    0 <= n /\ tcp_cwnd ca' = u32 (tcp_cwnd ca + n) /\
    ack_cnt ca = ack_cnt ca' + n * delta /\
    0 <= ack_cnt ca' <= delta /\ (0 < ack_cnt ca -> 0 < ack_cnt ca') /\
    (cwnd < tcp_cwnd ca' ->
     cnt ca' = Z.min (cnt ca) (cwnd / u32 (tcp_cwnd ca' - cwnd))) /\
    (tcp_cwnd ca' <= cwnd -> cnt ca' = cnt ca).
Proof.
  intros Hf Ha Ht H. cbv zeta.
  unfold bictcp_friendliness in H. cbv zeta in H.
  destruct (Z.eqb_spec (tcp_friendliness P) 0) as [|_]; [contradiction|].
  destruct (tcp_friendly_loop fuel _ (ack_cnt ca) (tcp_cwnd ca))
    as [[a w]|] eqn:Hl; [|discriminate].
  apply tcp_friendly_loop_spec in Hl; try assumption.
  2:{ rewrite Z.shiftr_div_pow2 by lia. apply Z.div_pos; [apply u32_range|lia]. }
  destruct Hl as (n & Hn & Hack & Hw & Hr & Hp).
  exists n.
  destruct ca as [c lm lc lt op bk dm es ac tw sc fd rs en la cr].
  cbn [set_tcp_cwnd set_ack_cnt tcp_cwnd ack_cnt cnt] in *.
  destruct (Z.gtb_spec w cwnd) as [Hgt|Hle].
  - destruct (Z.gtb_spec c (cwnd / u32 (w - cwnd))); some_inv;
      cbn [set_cnt set_tcp_cwnd set_ack_cnt tcp_cwnd ack_cnt cnt];
      repeat split; try lia.
  - some_inv. cbn [set_tcp_cwnd set_ack_cnt tcp_cwnd ack_cnt cnt].
    repeat split; try lia.
Qed.

(** C5.  A call of [bictcp_update] that passes the first guard runs the
    friendliness block, also when the cubic part is skipped in the same
    jiffy.  With [tcp_friendliness] set, the block moves [tcp_cwnd] up by
    one for each [delta = (cwnd * beta_scale) >> 3] ACKs taken out of
    [ack_cnt], leaving at most [delta] of them and at least one when any
    was counted, [(ack_cnt - 1) / delta] times in all; where the estimate
    is then
    above the window, [cnt] is capped at [cwnd / (tcp_cwnd - cwnd)] before
    the final floor of two.  The call returns when [delta] is positive. *)
Theorem friendliness_blend (ca : bictcp) (cwnd acked now : Z) :
  tcp_friendliness P <> 0 ->
  0 <= cwnd < 2 ^ 32 -> 0 <= acked < 2 ^ 32 -> 0 <= tcp_cwnd ca < 2 ^ 32 ->
  let ca0 := set_ack_cnt (u32 (ack_cnt ca + acked)) ca in
  let delta := Z.shiftr (u32 (cwnd * beta_scale P)) 3 in
  rate_limited K ca0 cwnd now = false ->
  (0 < delta ->
   exists fuel ca', bictcp_update K P fuel ca cwnd acked now = Some ca') /\
  (forall fuel ca',
      bictcp_update K P fuel ca cwnd acked now = Some ca' ->
      exists ca1 n,
        (if same_jiffy ca0 now then ca1 = ca0
         else bictcp_cubic K P ca0 cwnd acked now = Some ca1) /\
        0 <= n /\ tcp_cwnd ca' = u32 (tcp_cwnd ca1 + n) /\
        ack_cnt ca1 = ack_cnt ca' + n * delta /\
        0 <= ack_cnt ca' <= delta /\
        (0 < ack_cnt ca1 -> 0 < ack_cnt ca') /\
        (0 < delta -> 0 < ack_cnt ca1 -> n = (ack_cnt ca1 - 1) / delta) /\
        (cwnd < tcp_cwnd ca' ->
         cnt ca' = Z.max (Z.min (cnt ca1) (cwnd / (tcp_cwnd ca' - cwnd))) 2) /\
        (tcp_cwnd ca' <= cwnd -> cnt ca' = Z.max (cnt ca1) 2)).
Proof.
  intros Hf Hc Ha Ht. cbv zeta. intros Hr. split.
  - intros Hd. apply bictcp_update_returns; [assumption|]. right.
    rewrite Z.shiftr_div_pow2 in Hd by lia. change (2 ^ 3) with 8 in Hd.
    destruct (Z.le_gt_cases 8 (u32 (cwnd * beta_scale P))) as [|Hlt];
      [assumption|].
    rewrite Z.div_small in Hd by (pose proof (u32_range (cwnd * beta_scale P)); lia).
    lia.
  - intros fuel ca' H.
    destruct (bictcp_update_not_limited K P _ _ _ _ _ _ Hr H)
      as (ca1 & ca2 & H1 & H2 & ->).
    exists ca1.
    assert (Hrange : 0 <= ack_cnt ca1 < 2 ^ 32 /\ 0 <= tcp_cwnd ca1 < 2 ^ 32).
    { destruct (same_jiffy _ now).
      - subst ca1. cbn. split; [apply u32_range|assumption].
      - destruct (bictcp_cubic_counters K P _ _ _ _ _ H1) as [[-> ->]|[-> ->]];
          cbn; [split; [apply u32_range|assumption]|lia]. }
    destruct Hrange as [Hra Hrt].
    destruct (bictcp_friendliness_spec fuel ca1 cwnd ca2 Hf Hra Hrt H2)
      as (n & Hn & Hw & Hack & Hb & Hpos & Hcap & Hkeep).
    exists n. cbn [set_cnt tcp_cwnd ack_cnt cnt].
    split; [exact H1|]. split; [assumption|]. split; [assumption|].
    split; [assumption|]. split; [assumption|]. split; [assumption|].
    split.
    { intros Hd Hp. specialize (Hpos Hp).
      apply (Z.div_unique (ack_cnt ca1 - 1) _ n (ack_cnt ca2 - 1)); lia. }
    split.
    + intros Hgt. rewrite (Hcap Hgt). rewrite u32_small; [reflexivity|].
      rewrite Hw in *. pose proof (u32_range (tcp_cwnd ca1 + n)). lia.
    + intros Hle. rewrite (Hkeep Hle). reflexivity.
Qed.

End Friendliness.

Lemma friendliness_blend_witness :
  let ca2 := mk_bictcp 20 0 10 5000 10 0 0 5000 2 10 0 0 0 0 0 0 in
  let ca3 := mk_bictcp 11 0 10 5000 10 0 0 5000 2 12 0 0 0 0 0 0 in
  let ca0 := set_ack_cnt (u32 (ack_cnt ca2 + 40)) ca2 in
  let delta := Z.shiftr (u32 (11 * beta_scale default_params)) 3 in
  (tcp_friendliness default_params <> 0 /\
   0 <= 11 < 2 ^ 32 /\ 0 <= 40 < 2 ^ 32 /\ 0 <= tcp_cwnd ca2 < 2 ^ 32 /\
   rate_limited linux_kernel ca0 11 5000 = false /\
   bictcp_update linux_kernel default_params 2 ca2 11 40 5000 = Some ca3) /\
  (delta = 20 /\ same_jiffy ca0 5000 = true /\ ack_cnt ca0 = 42 /\
   tcp_cwnd ca2 = 10 /\ tcp_cwnd ca3 = 12 /\ cnt ca2 = 20 /\ cnt ca3 = 11) /\
  exists ca1 n,
    (if same_jiffy ca0 5000 then ca1 = ca0
     else bictcp_cubic linux_kernel default_params ca0 11 40 5000 = Some ca1) /\
    0 <= n /\ tcp_cwnd ca3 = u32 (tcp_cwnd ca1 + n) /\
    ack_cnt ca1 = ack_cnt ca3 + n * delta /\
    0 <= ack_cnt ca3 <= delta /\
    (0 < ack_cnt ca1 -> 0 < ack_cnt ca3) /\
    (0 < delta -> 0 < ack_cnt ca1 -> n = (ack_cnt ca1 - 1) / delta) /\
    (11 < tcp_cwnd ca3 ->
     cnt ca3 = Z.max (Z.min (cnt ca1) (11 / (tcp_cwnd ca3 - 11))) 2) /\
    (tcp_cwnd ca3 <= 11 -> cnt ca3 = Z.max (cnt ca1) 2).
Proof.
  cbv zeta.
  set (ca2 := mk_bictcp 20 0 10 5000 10 0 0 5000 2 10 0 0 0 0 0 0).
  set (ca3 := mk_bictcp 11 0 10 5000 10 0 0 5000 2 12 0 0 0 0 0 0).
  assert (Hf : tcp_friendliness default_params <> 0) by discriminate.
  assert (Hc : 0 <= 11 < 2 ^ 32) by (split; [discriminate|reflexivity]).
  assert (Ha : 0 <= 40 < 2 ^ 32) by (split; [discriminate|reflexivity]).
  assert (Ht : 0 <= tcp_cwnd ca2 < 2 ^ 32)
    by (split; [discriminate|reflexivity]).
  assert (Hr : rate_limited linux_kernel
                 (set_ack_cnt (u32 (ack_cnt ca2 + 40)) ca2) 11 5000 = false)
    by (vm_compute; reflexivity).
  assert (Hu : bictcp_update linux_kernel default_params 2 ca2 11 40 5000
               = Some ca3) by (vm_compute; reflexivity).
  split; [exact (conj Hf (conj Hc (conj Ha (conj Ht (conj Hr Hu)))))|].
  split; [repeat split; vm_compute; reflexivity|].
  exact (proj2 (friendliness_blend linux_kernel default_params ca2 11 40 5000
                  Hf Hc Ha Ht Hr) 2%nat ca3 Hu).
Defined.

(** With the default [beta] the step is [15 * cwnd / 8], not
    [3 * cwnd / 8]: four ACKs at a window of eight do not move the
    estimate. *)
Lemma friendliness_step_default :
  let ca := set_tcp_cwnd 8 (set_ack_cnt 4 zero_bictcp) in
  beta_scale default_params = 15 /\
  3 * 8 / 8 < ack_cnt ca /\
  bictcp_friendliness default_params 0 ca 8 = Some ca /\
  forall fuel ca',
    bictcp_friendliness default_params fuel ca 8 = Some ca' ->
    tcp_cwnd ca' = tcp_cwnd ca /\ ack_cnt ca' = ack_cnt ca.
Proof.
  cbv zeta. split; [reflexivity|]. split; [reflexivity|].
  split; [reflexivity|].
  intros fuel ca' H. destruct fuel; vm_compute in H; some_inv; split; reflexivity.
Qed.



(** * Two calls in one tick *)

Section SameTick.

Variable K : Kernel.
Variable P : Params.

Lemma s32_self (x : Z) : s32 (x - x) = 0.
Proof. rewrite Z.sub_diag. reflexivity. Qed.

Lemma rate_limited_ext ca ca' cwnd now :
  last_cwnd ca' = last_cwnd ca -> last_time ca' = last_time ca ->
  rate_limited K ca' cwnd now = rate_limited K ca cwnd now.
Proof. unfold rate_limited. intros -> ->. reflexivity. Qed.

Lemma same_jiffy_ext ca ca' now :
  epoch_start ca' = epoch_start ca -> last_time ca' = last_time ca ->
  same_jiffy ca' now = same_jiffy ca now.
Proof. unfold same_jiffy. intros -> ->. reflexivity. Qed.

(** C8, as the code has it.  Two calls of [bictcp_update] in the same tick
    with the same window: when the first call was stopped by the first
    guard or went through the cubic part, the second is stopped by the
    first guard and only adds its ACKs to [ack_cnt]; when the first call
    jumped to the friendliness block (an epoch is running,
    [now == last_time], and [last_cwnd] differs from the window), so does
    the second, and [cnt] stays or goes down, never below two. *)
Theorem update_twice_same_tick (ca : bictcp) (cwnd acked1 acked2 now : Z)
    (fuel1 fuel2 : nat) (ca1 : bictcp) :
  0 <= HZ K ->
  bictcp_update K P fuel1 ca cwnd acked1 now = Some ca1 ->
  let ca0 := set_ack_cnt (u32 (ack_cnt ca + acked1)) ca in
  (rate_limited K ca0 cwnd now = true \/ same_jiffy ca0 now = false ->
   bictcp_update K P fuel2 ca1 cwnd acked2 now
   = Some (set_ack_cnt (u32 (ack_cnt ca1 + acked2)) ca1)) /\
  (forall ca2,
      bictcp_update K P fuel2 ca1 cwnd acked2 now = Some ca2 ->
      cnt ca2 <= cnt ca1 /\
      (rate_limited K ca0 cwnd now = false -> 2 <= cnt ca2)).
Proof.
  intros HHZ H1. cbv zeta.
  set (ca0 := set_ack_cnt (u32 (ack_cnt ca + acked1)) ca) in *.
  set (ca10 := set_ack_cnt (u32 (ack_cnt ca1 + acked2)) ca1).
  destruct (rate_limited K ca0 cwnd now) eqn:Hr.
  - (* the first call was rate-limited *)
    unfold ca0 in Hr.
    rewrite bictcp_update_rate_limited in H1 by assumption. some_inv.
    assert (Hr2 : rate_limited K ca10 cwnd now = true).
    { rewrite <- Hr. apply rate_limited_ext; reflexivity. }
    split.
    + intros _. apply bictcp_update_rate_limited. exact Hr2.
    + intros ca2 H2.
      rewrite bictcp_update_rate_limited in H2 by exact Hr2. some_inv.
      split; [cbn; lia|discriminate].
  - destruct (bictcp_update_not_limited K P _ _ _ _ _ _ Hr H1)
      as (c1 & c2 & Hc1 & Hc2 & Hca1).
    destruct (bictcp_friendliness_fields P _ _ _ _ Hc2)
      as (Hlc & Hlt & Hes & Hcnt & _).
    assert (Hge : 2 <= cnt ca1) by (subst ca1; cbn; lia).
    fold ca0 in Hc1.
    destruct (same_jiffy ca0 now) eqn:Hj.
    + (* both calls skip the cubic part *)
      subst c1.
      assert (Hr2 : rate_limited K ca10 cwnd now = false).
      { rewrite <- Hr. apply rate_limited_ext; subst ca1; cbn; assumption. }
      split; [intros [?|?]; discriminate|].
      intros ca2 H2.
      destruct (bictcp_update_not_limited K P _ _ _ _ _ _ Hr2 H2)
        as (d1 & d2 & Hd1 & Hd2 & ->).
      fold ca10 in Hd1.
      assert (Hj2 : same_jiffy ca10 now = true).
      { rewrite <- Hj. apply same_jiffy_ext; subst ca1; cbn; assumption. }
      rewrite Hj2 in Hd1. subst d1.
      destruct (bictcp_friendliness_fields P _ _ _ _ Hd2)
        as (_ & _ & _ & Hcnt2 & _).
      unfold ca10 in Hcnt2. cbn [cnt set_cnt set_ack_cnt] in *.
      split; [|intros _]; lia.
    + (* the first call set last_cwnd and last_time *)
      destruct (bictcp_cubic_fields K P _ _ _ _ _ Hc1) as (Hl1 & Ht1 & _).
      assert (Hr2 : rate_limited K ca10 cwnd now = true).
      { unfold rate_limited, ca10. subst ca1.
        cbn [last_cwnd last_time set_ack_cnt set_cnt].
        rewrite Hlc, Hlt, Hl1, Ht1, Z.eqb_refl, s32_self. cbn [andb].
        apply Z.leb_le. apply Z.quot_pos; lia. }
      split.
      * intros _. apply bictcp_update_rate_limited. exact Hr2.
      * intros ca2 H2.
        rewrite bictcp_update_rate_limited in H2 by exact Hr2. some_inv.
        split; [|intros _]; cbn [cnt set_ack_cnt]; lia.
Qed.

End SameTick.

Lemma update_twice_same_tick_witness :
  (0 <= HZ linux_kernel /\
   bictcp_update linux_kernel default_params 0 (bictcp_reset zero_bictcp)
     10 1 5000
   = Some (mk_bictcp 20 0 10 5000 10 0 0 5000 1 10 0 0 0 0 0 0)) /\
  bictcp_update linux_kernel default_params 0
    (mk_bictcp 20 0 10 5000 10 0 0 5000 1 10 0 0 0 0 0 0) 10 7 5000
  = Some (mk_bictcp 20 0 10 5000 10 0 0 5000 8 10 0 0 0 0 0 0).
Proof.
  assert (H0 : 0 <= HZ linux_kernel) by discriminate.
  assert (H1 : bictcp_update linux_kernel default_params 0
                 (bictcp_reset zero_bictcp) 10 1 5000
               = Some (mk_bictcp 20 0 10 5000 10 0 0 5000 1 10 0 0 0 0 0 0))
    by reflexivity.
  split; [exact (conj H0 H1)|].
  exact (proj1 (update_twice_same_tick linux_kernel default_params
                  (bictcp_reset zero_bictcp) 10 1 7 5000 0 0 _ H0 H1)
               (or_intror eq_refl)).
Defined.

(** The window goes from 10 to 11 within tick 5000; the next two calls see
    the same window and the same tick, and the second lowers [cnt] from 20
    to 11. *)
Lemma update_twice_same_tick_differs :
  let ca1 := mk_bictcp 20 0 10 5000 10 0 0 5000 1 10 0 0 0 0 0 0 in
  let ca2 := mk_bictcp 20 0 10 5000 10 0 0 5000 2 10 0 0 0 0 0 0 in
  let ca3 := mk_bictcp 11 0 10 5000 10 0 0 5000 2 12 0 0 0 0 0 0 in
  bictcp_update linux_kernel default_params 0 (bictcp_reset zero_bictcp)
    10 1 5000 = Some ca1 /\
  bictcp_update linux_kernel default_params 0 ca1 11 1 5000 = Some ca2 /\
  bictcp_update linux_kernel default_params 2 ca2 11 40 5000 = Some ca3 /\
  cnt ca3 <> cnt ca2.
Proof.
  cbv zeta. repeat split; try reflexivity. discriminate.
Qed.



(** * The delay-increase detector *)

Lemma lor_delay_u8 (f : Z) :
  0 <= f < 2 ^ 8 -> u8 (Z.lor f HYSTART_DELAY) = Z.lor f HYSTART_DELAY.
Proof.
  intros Hf. apply Z.eqb_eq.
  apply (forall_Z_range lor_delay_ok 0 256); [vm_compute; reflexivity|].
  change (2 ^ 8) with 256 in Hf. lia.
Qed.

Section DelayDetector.

Variable P : Params.

Lemma HYSTART_DELAY_THRESH_clamp (x : Z) :
  HYSTART_DELAY_THRESH P x
  = clamp x 32 (if hystart_delay_max P =? 0 then INT_MAX else 128).
Proof. reflexivity. Qed.

(** One call of the detector. *)
Lemma hystart_delay_step (sk : sock) (delay : Z) :
  let ca := inet_csk_ca sk in
  let sk' := hystart_delay P sk delay in
  let ca' := inet_csk_ca sk' in
  let limit := u32 (delay_min ca
                    + HYSTART_DELAY_THRESH P (Z.shiftr (delay_min ca) 3)) in
  0 <= delay -> 0 <= curr_rtt ca ->
  0 <= sample_cnt ca < 2 ^ 8 -> 0 <= found ca < 2 ^ 8 ->
  (sample_cnt ca < HYSTART_MIN_SAMPLES ->
   curr_rtt ca' = (if curr_rtt ca =? 0 then delay
                   else Z.min (curr_rtt ca) delay) /\
   sample_cnt ca' = sample_cnt ca + 1 /\
   found ca' = found ca /\ tcp_sk sk' = tcp_sk sk) /\
  (HYSTART_MIN_SAMPLES <= sample_cnt ca ->
   curr_rtt ca' = Z.min (curr_rtt ca) delay /\
   sample_cnt ca' = sample_cnt ca /\
   (limit < Z.min (curr_rtt ca) delay ->
    found ca' = Z.lor (found ca) HYSTART_DELAY /\
    snd_ssthresh (tcp_sk sk') = snd_cwnd (tcp_sk sk)) /\
   (Z.min (curr_rtt ca) delay <= limit ->
    found ca' = found ca /\ tcp_sk sk' = tcp_sk sk)).
Proof.
  cbv zeta. unfold HYSTART_MIN_SAMPLES. intros Hd Hc Hs Hf.
  unfold hystart_delay, HYSTART_MIN_SAMPLES. cbv zeta.
  destruct sk as [tp ca].
  destruct ca as [c lm lc lt op bk dm es ac tw sc fd rs en la cr].
  cbn [inet_csk_ca tcp_sk curr_rtt sample_cnt found delay_min] in *.
  split.
  - intros Hlt.
    destruct (Z.ltb_spec
                (sample_cnt (if cr >? delay
                             then set_curr_rtt delay
                                    (mk_bictcp c lm lc lt op bk dm es ac tw sc
                                       fd rs en la cr)
                             else mk_bictcp c lm lc lt op bk dm es ac tw sc
                                    fd rs en la cr)) 8) as [_|Hge];
      [|destruct (cr >? delay); cbn in Hge; lia].
    destruct (Z.gtb_spec cr delay) as [Hgt|Hle];
      cbn [curr_rtt set_curr_rtt sample_cnt].
    + rewrite Z.eqb_sym. destruct (Z.eqb_spec 0 delay) as [H0|H0];
        rewrite ?Z.gtb_ltb, ?Z.ltb_irrefl; cbn [orb];
        cbn [with_ca inet_csk_ca tcp_sk curr_rtt sample_cnt found
             set_sample_cnt set_curr_rtt];
        rewrite u8_small by (change (2 ^ 8) with 256 in *; lia);
        destruct (Z.eqb_spec cr 0); repeat split; lia.
    + destruct (Z.eqb_spec cr 0) as [H0|H0]; cbn [orb];
        [|destruct (Z.gtb_spec cr delay); [lia|]];
        cbn [with_ca inet_csk_ca tcp_sk curr_rtt sample_cnt found
             set_sample_cnt set_curr_rtt];
        rewrite u8_small by (change (2 ^ 8) with 256 in *; lia);
        repeat split; lia.
  - intros Hge.
    set (limit := u32 (dm + HYSTART_DELAY_THRESH P (Z.shiftr dm 3))).
    destruct (Z.gtb_spec cr delay) as [Hgt|Hle];
      cbn [curr_rtt set_curr_rtt sample_cnt delay_min];
      (destruct (Z.ltb_spec sc 8); [lia|]); fold limit.
    + destruct (Z.gtb_spec delay limit);
        cbn [with_ca inet_csk_ca tcp_sk curr_rtt sample_cnt found
             set_found set_curr_rtt snd_ssthresh set_snd_ssthresh];
        rewrite ?lor_delay_u8 by assumption; repeat split; lia.
    + destruct (Z.gtb_spec cr limit);
        cbn [with_ca inet_csk_ca tcp_sk curr_rtt sample_cnt found
             set_found set_curr_rtt snd_ssthresh set_snd_ssthresh];
        rewrite ?lor_delay_u8 by assumption; repeat split; lia.
Qed.

(** The round minimum and the sample count after one more sample. *)
Lemma hystart_delay_min_step (sk : sock) (delay : Z) :
  1 <= delay -> 1 <= curr_rtt (inet_csk_ca sk) ->
  0 <= sample_cnt (inet_csk_ca sk) <= 8 ->
  curr_rtt (inet_csk_ca (hystart_delay P sk delay))
  = Z.min (curr_rtt (inet_csk_ca sk)) delay /\
  sample_cnt (inet_csk_ca (hystart_delay P sk delay))
  = Z.min 8 (sample_cnt (inet_csk_ca sk) + 1).
Proof.
  intros Hd Hc Hs. unfold hystart_delay, HYSTART_MIN_SAMPLES. cbv zeta.
  destruct sk as [tp ca].
  destruct ca as [c lm lc lt op bk dm es ac tw sc fd rs en la cr].
  cbn [inet_csk_ca tcp_sk curr_rtt sample_cnt found delay_min] in *.
  destruct (Z.gtb_spec cr delay) as [Hgt|Hle];
    cbn [curr_rtt set_curr_rtt sample_cnt delay_min];
    destruct (Z.ltb_spec sc 8);
    repeat match goal with
           | |- context [?a =? ?b] => destruct (Z.eqb_spec a b)
           | |- context [?a >? ?b] => destruct (Z.gtb_spec a b)
           end;
    cbn [orb with_ca inet_csk_ca tcp_sk curr_rtt sample_cnt found set_found
         set_sample_cnt set_curr_rtt];
    rewrite ?u8_small by (change (2 ^ 8) with 256; lia);
    split; lia.
Qed.

Lemma hystart_delay_run_from (l : list Z) :
  forall sk,
    1 <= curr_rtt (inet_csk_ca sk) ->
    0 <= sample_cnt (inet_csk_ca sk) <= 8 ->
    Forall (fun x => 1 <= x) l ->
    curr_rtt (inet_csk_ca (hystart_delay_run P sk l))
    = list_min (curr_rtt (inet_csk_ca sk)) l /\
    sample_cnt (inet_csk_ca (hystart_delay_run P sk l))
    = Z.min 8 (sample_cnt (inet_csk_ca sk) + Z.of_nat (length l)).
Proof.
  unfold hystart_delay_run, list_min.
  induction l as [|d l IH]; intros sk Hc Hs Hl.
  - cbn. split; lia.
  - inversion Hl as [|? ? Hd Hl']; subst.
    destruct (hystart_delay_min_step sk d Hd Hc Hs) as [Hm Hn].
    cbn [fold_left length].
    destruct (IH (hystart_delay P sk d)) as [IHm IHn]; [lia|lia|assumption|].
    rewrite IHm, IHn, Hm, Hn. split; [reflexivity|lia].
Qed.

(** C4, as the code has it.  In a round that starts with [curr_rtt] and
    [sample_cnt] zero, [curr_rtt] is the least of all the samples fed so
    far, those after the eighth included, and [sample_cnt] stops at
    eight.  A call that finds eight samples counted compares that
    minimum, the current sample included, with
    [delay_min + clamp(delay_min >> 3, 32, hi)] (32-bit sum), [hi] being
    128 or, with [hystart_delay_max] off, [INT_MAX]; above it the DELAY
    flag is set and the threshold becomes the window, otherwise nothing
    but [curr_rtt] is written.  A call that finds fewer than eight
    samples decides nothing. *)
Theorem hystart_delay_detector :
  (forall sk d l,
      curr_rtt (inet_csk_ca sk) = 0 -> sample_cnt (inet_csk_ca sk) = 0 ->
      Forall (fun x => 1 <= x) (d :: l) ->
      curr_rtt (inet_csk_ca (hystart_delay_run P sk (d :: l)))
      = list_min d l /\
      sample_cnt (inet_csk_ca (hystart_delay_run P sk (d :: l)))
      = Z.min 8 (Z.of_nat (length (d :: l)))) /\
  (forall sk delay,
      let ca := inet_csk_ca sk in
      let sk' := hystart_delay P sk delay in
      let limit :=
        u32 (delay_min ca
             + clamp (Z.shiftr (delay_min ca) 3) 32
                 (if hystart_delay_max P =? 0 then INT_MAX else 128)) in
      0 <= delay -> 0 <= curr_rtt ca ->
      0 <= sample_cnt ca < 2 ^ 8 -> 0 <= found ca < 2 ^ 8 ->
      (sample_cnt ca < 8 ->
       found (inet_csk_ca sk') = found ca /\ tcp_sk sk' = tcp_sk sk) /\
      (8 <= sample_cnt ca ->
       curr_rtt (inet_csk_ca sk') = Z.min (curr_rtt ca) delay /\
       (limit < Z.min (curr_rtt ca) delay ->
        found (inet_csk_ca sk') = Z.lor (found ca) HYSTART_DELAY /\
        snd_ssthresh (tcp_sk sk') = snd_cwnd (tcp_sk sk)) /\
       (Z.min (curr_rtt ca) delay <= limit ->
        found (inet_csk_ca sk') = found ca /\ tcp_sk sk' = tcp_sk sk))).
Proof.
  split.
  - intros sk d l Hc Hs Hl. inversion Hl as [|? ? Hd Hl']; subst.
    change (hystart_delay_run P sk (d :: l))
      with (hystart_delay_run P (hystart_delay P sk d) l).
    assert (H1 : curr_rtt (inet_csk_ca (hystart_delay P sk d)) = d /\
                 sample_cnt (inet_csk_ca (hystart_delay P sk d)) = 1).
    { unfold hystart_delay, HYSTART_MIN_SAMPLES. cbv zeta.
      destruct sk as [tp ca].
      destruct ca as [c lm lc lt op bk dm es ac tw sc fd rs en la cr].
      cbn [inet_csk_ca curr_rtt sample_cnt] in *. subst cr sc.
      destruct (Z.gtb_spec 0 d); [lia|]. cbn. split; reflexivity. }
    destruct H1 as [H1 H2].
    destruct (hystart_delay_run_from l (hystart_delay P sk d)) as [Hm Hn];
      [lia|lia|assumption|].
    rewrite Hm, Hn, H1, H2. split; [reflexivity|].
    cbn [length]. lia.
  - intros sk delay. cbv zeta. intros Hd Hc Hs Hf.
    pose proof (hystart_delay_step sk delay Hd Hc Hs Hf) as [Hlt Hge].
    rewrite HYSTART_DELAY_THRESH_clamp in Hge.
    unfold HYSTART_MIN_SAMPLES in *.
    split.
    + intros H. specialize (Hlt H). tauto.
    + intros H. specialize (Hge H). tauto.
Qed.

End DelayDetector.

(** The scenario: [delay_min] 400, eight samples with minimum 560, a ninth
    of 560, clamp on.  The limit is 400 + 50, and the detector fires. *)
Lemma hystart_delay_scenario :
  let ca := set_sample_cnt 8 (set_curr_rtt 560 (set_delay_min 400 zero_bictcp)) in
  let sk := mk_sock (plain_tcp_sock 20 1000) ca in
  let sk' := hystart_delay default_params sk 560 in
  (0 <= 560 /\ 0 <= curr_rtt ca /\ 0 <= sample_cnt ca < 2 ^ 8 /\
   0 <= found ca < 2 ^ 8 /\ 8 <= sample_cnt ca /\
   u32 (400 + clamp (Z.shiftr 400 3) 32 128) = 450 /\
   450 < Z.min (curr_rtt ca) 560) /\
  found (inet_csk_ca sk') = HYSTART_DELAY /\
  snd_ssthresh (tcp_sk sk') = 20.
Proof.
  cbv zeta.
  set (ca := set_sample_cnt 8 (set_curr_rtt 560 (set_delay_min 400 zero_bictcp))).
  assert (Hd : 0 <= 560) by discriminate.
  assert (Hc : 0 <= curr_rtt ca) by discriminate.
  assert (Hs : 0 <= sample_cnt ca < 2 ^ 8) by (split; [discriminate|reflexivity]).
  assert (Hf : 0 <= found ca < 2 ^ 8) by (split; [discriminate|reflexivity]).
  assert (H8 : 8 <= sample_cnt ca) by discriminate.
  assert (Hl : u32 (400 + clamp (Z.shiftr 400 3) 32 128) = 450) by reflexivity.
  assert (Hm : 450 < Z.min (curr_rtt ca) 560) by reflexivity.
  split; [exact (conj Hd (conj Hc (conj Hs (conj Hf (conj H8 (conj Hl Hm))))))|].
  exact (proj1 (proj2 (proj2 (proj2 (hystart_delay_detector default_params)
                                (mk_sock (plain_tcp_sock 20 1000) ca) 560
                                Hd Hc Hs Hf) H8)) Hm).
Defined.

(** Eight samples of 560 against a [delay_min] of 400: the minimum of the
    first eight is above the limit of 450.  The ninth sample is 440, and
    the detector, which takes it into the minimum first, does not fire. *)
Lemma hystart_delay_ninth_sample :
  let sk0 := mk_sock (plain_tcp_sock 20 1000) (set_delay_min 400 zero_bictcp) in
  let sk8 := hystart_delay_run default_params sk0 (repeat 560 8) in
  list_min 560 (repeat 560 7) = 560 /\
  curr_rtt (inet_csk_ca sk8) = 560 /\
  sample_cnt (inet_csk_ca sk8) = 8 /\
  delay_min (inet_csk_ca sk8)
    + clamp (Z.shiftr (delay_min (inet_csk_ca sk8)) 3) 32 128 = 450 /\
  found (inet_csk_ca (hystart_delay default_params sk8 440)) = 0 /\
  snd_ssthresh (tcp_sk (hystart_delay default_params sk8 440)) = 1000 /\
  hystart_update default_params sk8 440 100
  = hystart_delay default_params sk8 440 /\
  ~ (found (inet_csk_ca (hystart_update default_params sk8 440 100))
     = Z.lor (found (inet_csk_ca sk8)) HYSTART_DELAY /\
     snd_ssthresh (tcp_sk (hystart_update default_params sk8 440 100))
     = snd_cwnd (tcp_sk sk8)).
Proof.
  cbv zeta.
  split; [vm_compute; reflexivity|]. split; [vm_compute; reflexivity|].
  split; [vm_compute; reflexivity|]. split; [vm_compute; reflexivity|].
  split; [vm_compute; reflexivity|]. split; [vm_compute; reflexivity|].
  split; [vm_compute; reflexivity|].
  intros [H _]. vm_compute in H. discriminate.
Qed.



(** * HyStart fires once *)

Section SingleFire.

Variable K : Kernel.
Variable P : Params.

Lemma hystart_ack_train_found sk clock :
  (tcp_sk (hystart_ack_train P sk clock) = tcp_sk sk /\
   found (inet_csk_ca (hystart_ack_train P sk clock)) = found (inet_csk_ca sk))
  \/ Z.testbit (found (inet_csk_ca (hystart_ack_train P sk clock))) 0 = true.
Proof.
  unfold hystart_ack_train. cbv zeta.
  destruct (_ <=? _); [|left; split; reflexivity].
  destruct (_ >? _); [|left; split; reflexivity].
  right. cbn [inet_csk_ca found set_found set_last_ack].
  rewrite testbit_u8_lor by lia. apply orb_true_r.
Qed.

Lemma hystart_delay_found sk delay :
  (tcp_sk (hystart_delay P sk delay) = tcp_sk sk /\
   found (inet_csk_ca (hystart_delay P sk delay)) = found (inet_csk_ca sk))
  \/ (Z.testbit (found (inet_csk_ca (hystart_delay P sk delay))) 1 = true /\
      forall k, 0 <= k < 8 ->
        Z.testbit (found (inet_csk_ca sk)) k = true ->
        Z.testbit (found (inet_csk_ca (hystart_delay P sk delay))) k = true).
Proof.
  unfold hystart_delay. cbv zeta.
  destruct (sample_cnt _ <? HYSTART_MIN_SAMPLES).
  { left. split; reflexivity || (repeat break_if; reflexivity). }
  destruct (curr_rtt _ >? _).
  - right. cbn [inet_csk_ca found set_found].
    split.
    + rewrite testbit_u8_lor by lia. apply orb_true_r.
    + intros k Hk Hb. rewrite testbit_u8_lor by lia.
      apply orb_true_iff. left. revert Hb. repeat break_if; cbn; auto.
  - left. split; reflexivity || (repeat break_if; reflexivity).
Qed.

(** A call of [hystart_update] that writes the threshold or sets a flag
    leaves a flag of an enabled detector in [found]. *)
Lemma hystart_update_fire_recorded sk delay clock :
  let sk' := hystart_update P sk delay clock in
  snd_ssthresh (tcp_sk sk') <> snd_ssthresh (tcp_sk sk) \/
  found (inet_csk_ca sk') <> found (inet_csk_ca sk) ->
  Z.land (found (inet_csk_ca sk')) (hystart_detect P) <> 0.
Proof.
  cbv zeta. unfold hystart_update.
  destruct (Z.eqb_spec (Z.land (found (inet_csk_ca sk)) (hystart_detect P)) 0)
    as [H0|H0]; cbn [negb]; [|intros [H|H]; contradiction].
  destruct (Z.eqb_spec (Z.land (hystart_detect P) HYSTART_ACK_TRAIN) 0)
    as [Ht|Ht];
    destruct (Z.eqb_spec (Z.land (hystart_detect P) HYSTART_DELAY) 0)
    as [Hd|Hd]; cbn [negb].
  - intros [H|H]; contradiction.
  - apply (land_pow2_testbit _ 1) in Hd; [|lia].
    destruct (hystart_delay_found sk delay) as [[He Hf]|[Hb _]].
    + rewrite He, Hf. intros [H|H]; contradiction.
    + intros _. apply (testbit_land_nonzero _ _ 1); assumption.
  - apply (land_pow2_testbit _ 0) in Ht; [|lia].
    destruct (hystart_ack_train_found sk clock) as [[He Hf]|Hb].
    + rewrite He, Hf. intros [H|H]; contradiction.
    + intros _. apply (testbit_land_nonzero _ _ 0); assumption.
  - apply (land_pow2_testbit _ 0) in Ht; [|lia].
    apply (land_pow2_testbit _ 1) in Hd; [|lia].
    destruct (hystart_delay_found (hystart_ack_train P sk clock) delay)
      as [[He Hf]|[Hb Hk]].
    + destruct (hystart_ack_train_found sk clock) as [[He' Hf']|Hb'].
      * rewrite He, Hf, He', Hf'. intros [H|H]; contradiction.
      * intros _. rewrite Hf. apply (testbit_land_nonzero _ _ 0); assumption.
    + intros _. apply (testbit_land_nonzero _ _ 1); assumption.
Qed.

(** Inside an episode a recorded flag stays. *)
Lemma episode_step_found ca ca' :
  Z.land (found ca) (hystart_detect P) <> 0 ->
  episode_step K P ca ca' -> found ca' = found ca.
Proof.
  intros Hf H.
  destruct H as [ca tp fuel ack acked now clock sk' H
                |ca tp fuel sample now clock sdev0 sk' H
                |ca tp|ca tp new_state clock Hn|ca tp tx_start now].
  - apply (bictcp_cong_avoid_fields K P _ _ _ _ _ _ _ H).
  - destruct (bictcp_acked_cases K P _ _ _ _ _ _ _ H) as [->| ->];
      [reflexivity|].
    rewrite hystart_update_found by exact Hf. reflexivity.
  - apply (bictcp_recalc_ssthresh_fields P (mk_sock tp ca)).
  - destruct (bictcp_state_fields (mk_sock tp ca) new_state clock)
      as [(He & _)|(_ & ->)]; [contradiction|reflexivity].
  - apply (bictcp_cwnd_event_fields (mk_sock tp ca)).
Qed.

Lemma episode_found ca ca' :
  Z.land (found ca) (hystart_detect P) <> 0 ->
  episode K P ca ca' -> found ca' = found ca.
Proof.
  intros Hf H. induction H as [ca|ca ca' ca'' _ IH Hs]; [reflexivity|].
  specialize (IH Hf).
  rewrite <- IH. apply episode_step_found; [|assumption].
  rewrite IH. assumption.
Qed.

Lemma hystart_found_guard (ca : bictcp) :
  Z.land (found ca) (hystart_detect P) <> 0 ->
  forall ca', episode K P ca ca' ->
    found ca' = found ca /\
    (forall tp delay clock,
        hystart_update P (mk_sock tp ca') delay clock = mk_sock tp ca') /\
    (forall tp fuel sample now clock sdev0 sk',
        bictcp_acked K P fuel (mk_sock tp ca') sample now clock sdev0
        = Some sk' ->
        sk' = mk_sock tp ca').
Proof.
  intros Hf ca' He.
  pose proof (episode_found ca ca' Hf He) as Hsame.
  assert (Hf' : Z.land (found ca') (hystart_detect P) <> 0)
    by (rewrite Hsame; assumption).
  split; [assumption|]. split.
  - intros tp delay clock. apply hystart_update_found. exact Hf'.
  - intros tp fuel sample now clock sdev0 sk' H.
    destruct (bictcp_acked_cases K P _ _ _ _ _ _ _ H) as [->| ->];
      [reflexivity|].
    apply hystart_update_found. exact Hf'.
Qed.

(** C7.  A call of [hystart_update] that fires (it writes the threshold or
    sets a flag) leaves the flag of an enabled detector in [found].  From
    then on, through any further calls of the episode, the flag stays,
    [hystart_update] returns the socket as it got it, and so does
    [bictcp_acked]: the threshold is not written again. *)
Theorem hystart_single_fire (sk : sock) (delay clock : Z) :
  let sk1 := hystart_update P sk delay clock in
  snd_ssthresh (tcp_sk sk1) <> snd_ssthresh (tcp_sk sk) \/
  found (inet_csk_ca sk1) <> found (inet_csk_ca sk) ->
  Z.land (found (inet_csk_ca sk1)) (hystart_detect P) <> 0 /\
  forall ca', episode K P (inet_csk_ca sk1) ca' ->
    found ca' = found (inet_csk_ca sk1) /\
    (forall tp delay' clock',
        hystart_update P (mk_sock tp ca') delay' clock' = mk_sock tp ca') /\
    (forall tp fuel sample now clock' sdev0 sk',
        bictcp_acked K P fuel (mk_sock tp ca') sample now clock' sdev0
        = Some sk' ->
        sk' = mk_sock tp ca').
Proof.
  cbv zeta. intros Hfire.
  pose proof (hystart_update_fire_recorded sk delay clock Hfire) as Hf.
  split; [exact Hf|]. apply hystart_found_guard. exact Hf.
Qed.

End SingleFire.

Lemma hystart_single_fire_witness :
  let sk0 := bictcp_init default_params
               (mk_sock (plain_tcp_sock 20 1000) zero_bictcp) 7000 in
  let sk1 := hystart_update default_params sk0 400 7001 in
  (snd_ssthresh (tcp_sk sk1) <> snd_ssthresh (tcp_sk sk0) \/
   found (inet_csk_ca sk1) <> found (inet_csk_ca sk0)) /\
  snd_ssthresh (tcp_sk sk1) = 20 /\
  forall tp delay clock,
    hystart_update default_params (mk_sock tp (inet_csk_ca sk1)) delay clock
    = mk_sock tp (inet_csk_ca sk1).
Proof.
  cbv zeta.
  set (sk0 := bictcp_init default_params
                (mk_sock (plain_tcp_sock 20 1000) zero_bictcp) 7000).
  assert (Hfire : snd_ssthresh (tcp_sk (hystart_update default_params sk0 400 7001))
                  <> snd_ssthresh (tcp_sk sk0) \/
                  found (inet_csk_ca (hystart_update default_params sk0 400 7001))
                  <> found (inet_csk_ca sk0))
    by (left; discriminate).
  split; [exact Hfire|]. split; [reflexivity|].
  exact (proj1 (proj2 (proj2 (hystart_single_fire linux_kernel default_params
                                sk0 400 7001 Hfire) _
                         (episode_refl linux_kernel default_params _)))).
Defined.



(** * The minimum delay is never recorded *)

Section DelayMin.

Variable K : Kernel.
Variable P : Params.

(** No callback writes [delay_min], but for the reset to zero. *)
Lemma callback_step_delay_min ca ca' :
  callback_step K P ca ca' ->
  delay_min ca' = delay_min ca \/ delay_min ca' = 0.
Proof.
  intros H. destruct H as [ca tp clock|ca tp fuel ack acked now clock sk' H
                          |ca tp fuel sample now clock sdev0 sk' H
                          |ca tp|ca tp new_state clock|ca tp tx_start now].
  - right. apply bictcp_init_fields.
  - left. apply (bictcp_cong_avoid_fields K P _ _ _ _ _ _ _ H).
  - left. apply (bictcp_acked_fields K P _ _ _ _ _ _ _ H).
  - left. apply (bictcp_recalc_ssthresh_fields P (mk_sock tp ca)).
  - destruct (bictcp_state_fields (mk_sock tp ca) new_state clock)
      as [(_ & H0 & _)|(_ & ->)]; [right; assumption|left; reflexivity].
  - left. apply (bictcp_cwnd_event_fields (mk_sock tp ca)).
Qed.

Lemma reachable_delay_min ca : reachable K P ca -> delay_min ca = 0.
Proof.
  induction 1 as [ca0 tp clock|ca ca' _ IH Hstep].
  - apply bictcp_init_fields.
  - destruct (callback_step_delay_min _ _ Hstep); congruence.
Qed.

Lemma HYSTART_DELAY_THRESH_zero : HYSTART_DELAY_THRESH P 0 = HYSTART_DELAY_MIN.
Proof.
  unfold HYSTART_DELAY_THRESH, HYSTART_DELAY_MAX, clamp.
  destruct (hystart_delay_max P =? 0); reflexivity.
Qed.

(** C9.  In every state the callbacks can reach from [bictcp_init],
    [delay_min] is zero; so the ACK-train detector compares the time into
    the round with zero, and the delay detector compares [curr_rtt] with
    the lower bound of the clamp. *)
Theorem delay_min_stays_zero (ca : bictcp) :
  reachable K P ca ->
  delay_min ca = 0 /\
  Z.shiftr (delay_min ca) 4 = 0 /\
  u32 (delay_min ca + HYSTART_DELAY_THRESH P (Z.shiftr (delay_min ca) 3))
  = HYSTART_DELAY_MIN /\
  HYSTART_DELAY_MIN = 32.
Proof.
  intros H. apply reachable_delay_min in H. rewrite H.
  split; [reflexivity|]. split; [reflexivity|]. split; [|reflexivity].
  change (Z.shiftr 0 3) with 0. rewrite HYSTART_DELAY_THRESH_zero.
  reflexivity.
Qed.

End DelayMin.

Lemma delay_min_stays_zero_witness :
  let sk0 := bictcp_init default_params
               (mk_sock (plain_tcp_sock 20 1000)
                        (set_delay_min 400 zero_bictcp)) 7000 in
  let ca1 := mk_bictcp 0 0 0 0 0 0 0 0 0 0 1 1 7000 0 7001 400 in
  reachable linux_kernel default_params ca1 /\ delay_min ca1 = 0.
Proof.
  cbv zeta.
  assert (H : reachable linux_kernel default_params
                (mk_bictcp 0 0 0 0 0 0 0 0 0 0 1 1 7000 0 7001 400)).
  { apply (reach_step linux_kernel default_params
             (inet_csk_ca
                (bictcp_init default_params
                   (mk_sock (plain_tcp_sock 20 1000)
                            (set_delay_min 400 zero_bictcp)) 7000))).
    - apply reach_init.
    - apply (step_acked linux_kernel default_params _
               (plain_tcp_sock 20 1000) 0 (mk_ack_sample 1 50000)
               9000 7001 0
               (mk_sock (set_snd_ssthresh 20 (plain_tcp_sock 20 1000))
                  (mk_bictcp 0 0 0 0 0 0 0 0 0 0 1 1 7000 0 7001 400))).
      reflexivity. }
  split; [exact H|].
  exact (proj1 (delay_min_stays_zero linux_kernel default_params _ H)).
Defined.



(** * RTT samples and the minimum delay *)

(** C1 at a first sample.  A socket fresh from [bictcp_init], in slow
    start with a window of 20, gets a sample of 50 ms: the delay computed
    is 400, [delay_min] was 0 (unset) and is 0 after the call. *)
Lemma bictcp_acked_first_sample :
  let sk0 := bictcp_init default_params
               (mk_sock (plain_tcp_sock 20 1000) zero_bictcp) 7000 in
  let sample := mk_ack_sample 1 50000 in
  sample_delay sample = 400 /\
  delay_min (inet_csk_ca sk0) = 0 /\
  exists sk',
    bictcp_acked linux_kernel default_params 0 sk0 sample 9000 7001 0
    = Some sk' /\
    curr_rtt (inet_csk_ca sk') = 400 /\
    delay_min (inet_csk_ca sk') = 0.
Proof.
  cbv zeta. split; [reflexivity|]. split; [reflexivity|].
  eexists. split; [reflexivity|]. split; reflexivity.
Qed.



(** * Signed differences of 32-bit clocks *)

Lemma s32_range (x : Z) : - 2 ^ 31 <= s32 x < 2 ^ 31.
Proof.
  unfold s32. pose proof (u32_range x).
  destruct (Z.ltb_spec (u32 x) (2 ^ 31)); lia.
Qed.

Lemma s32_congr (x : Z) : exists k, x = s32 x + k * 2 ^ 32.
Proof.
  unfold s32, u32.
  pose proof (Z.div_mod x (2 ^ 32) ltac:(lia)) as H.
  destruct (Z.ltb_spec (x mod 2 ^ 32) (2 ^ 31)).
  - exists (x / 2 ^ 32). lia.
  - exists (x / 2 ^ 32 + 1). lia.
Qed.

Lemma s32_unique (x y k : Z) :
  - 2 ^ 31 <= y < 2 ^ 31 -> x = y + k * 2 ^ 32 -> s32 x = y.
Proof.
  intros Hy Hx. destruct (s32_congr x) as (k' & Hk').
  pose proof (s32_range x). 
  assert (k = k') by nia. subst k'. lia.
Qed.

Lemma u32_congr (x : Z) : exists k, x = u32 x + k * 2 ^ 32.
Proof.
  unfold u32. exists (x / 2 ^ 32).
  pose proof (Z.div_mod x (2 ^ 32) ltac:(lia)). lia.
Qed.

(** * Idle periods and the epoch *)

(** X1.  When sending resumes ([CA_EVENT_TX_START]) in a running epoch
    after an idle time, the age of the epoch is reduced by the idle time
    and stops at zero: the epoch start is never left after [now].  Nothing
    else in the socket changes; and without a running epoch, without idle
    time or on any other event the socket is returned as it is. *)
Theorem cwnd_event_epoch_shift (sk : sock) (now : Z) :
  let ca := inet_csk_ca sk in
  let age := s32 (now - epoch_start ca) in
  let idle := s32 (now - lsndtime (tcp_sk sk)) in
  0 <= now < 2 ^ 32 ->
  (epoch_start ca <> 0 -> 0 < idle -> 0 <= age ->
   let sk' := bictcp_cwnd_event sk true now in
   s32 (now - epoch_start (inet_csk_ca sk')) = Z.max (age - idle) 0 /\
   after (epoch_start (inet_csk_ca sk')) now = false /\
   sk' = with_ca (set_epoch_start (epoch_start (inet_csk_ca sk')) ca) sk) /\
  (epoch_start ca = 0 \/ idle <= 0 -> bictcp_cwnd_event sk true now = sk) /\
  bictcp_cwnd_event sk false now = sk.
Proof.
  cbv zeta. intros Hnow. split; [|split].
  - intros Hes Hidle Hage.
    unfold bictcp_cwnd_event. cbv zeta.
    destruct (Z.eqb_spec (epoch_start (inet_csk_ca sk)) 0); [contradiction|].
    destruct (Z.gtb_spec (s32 (now - lsndtime (tcp_sk sk))) 0); [|lia].
    cbn [negb andb].
    set (es := epoch_start (inet_csk_ca sk)) in *.
    set (idle := s32 (now - lsndtime (tcp_sk sk))) in *.
    cbn [epoch_start set_epoch_start].
    assert (Hshift : s32 (now - u32 (es + idle)) = s32 (now - es) - idle).
    { destruct (u32_congr (es + idle)) as (k1 & Hk1).
      destruct (s32_congr (now - es)) as (k2 & Hk2).
      pose proof (s32_range (now - es)). pose proof (s32_range (now - lsndtime (tcp_sk sk))).
      apply (s32_unique _ _ (k2 + k1)); [fold idle in H0; lia|lia]. }
    unfold after. rewrite Hshift.
    destruct (Z.ltb_spec (s32 (now - es) - idle) 0) as [Hlt|Hge].
    + cbn [with_ca inet_csk_ca epoch_start set_epoch_start].
      rewrite Z.sub_diag. change (s32 0) with 0.
      split; [lia|]. split; reflexivity.
    + cbn [with_ca inet_csk_ca epoch_start set_epoch_start].
      rewrite Hshift.
      split; [lia|]. split; [apply Z.ltb_ge; assumption|reflexivity].
  - intros H. unfold bictcp_cwnd_event. cbv zeta.
    destruct (Z.eqb_spec (epoch_start (inet_csk_ca sk)) 0); [reflexivity|].
    destruct (Z.gtb_spec (s32 (now - lsndtime (tcp_sk sk))) 0);
      [lia|reflexivity].
  - reflexivity.
Qed.

Lemma cwnd_event_epoch_shift_witness :
  let ca := set_epoch_start 1000 zero_bictcp in
  let tp := mk_tcp_sock 10 100 0 4000 0 (2 ^ 32 - 1) 0 0 in
  (0 <= 5000 < 2 ^ 32 /\ epoch_start ca <> 0 /\
   0 < s32 (5000 - lsndtime tp) /\ 0 <= s32 (5000 - epoch_start ca)) /\
  s32 (5000 - epoch_start
                (inet_csk_ca (bictcp_cwnd_event (mk_sock tp ca) true 5000)))
  = Z.max (s32 (5000 - epoch_start ca) - s32 (5000 - lsndtime tp)) 0.
Proof.
  cbv zeta.
  assert (Hn : 0 <= 5000 < 2 ^ 32) by (split; [discriminate|reflexivity]).
  assert (He : epoch_start (set_epoch_start 1000 zero_bictcp) <> 0)
    by discriminate.
  assert (Hi : 0 < s32 (5000 - lsndtime
                          (mk_tcp_sock 10 100 0 4000 0 (2 ^ 32 - 1) 0 0)))
    by reflexivity.
  assert (Ha : 0 <= s32 (5000 - epoch_start (set_epoch_start 1000 zero_bictcp)))
    by discriminate.
  split; [exact (conj Hn (conj He (conj Hi Ha)))|].
  exact (proj1 (proj1 (cwnd_event_epoch_shift
                         (mk_sock (mk_tcp_sock 10 100 0 4000 0 (2 ^ 32 - 1) 0 0)
                                  (set_epoch_start 1000 zero_bictcp))
                         5000 Hn) He Hi Ha)).
Defined.



(** * The standard deviation printed by bictcp_acked *)

Lemma le_div_iff_mul (m v : Z) : 0 < m -> (m <=? v / m) = (m * m <=? v).
Proof.
  intros Hm. destruct (Z.leb_spec (m * m) v) as [H|H].
  - apply Z.leb_le. apply Z.div_le_lower_bound; assumption.
  - apply Z.leb_gt. apply Z.div_lt_upper_bound; assumption.
Qed.

(** The search keeps the root between [start - 1] and [end_]. *)
Lemma sdev_search_sqrt (fuel : nat) (v : Z) :
  2 <= v < 2 ^ 33 ->
  forall start end_ sdev r,
    1 <= start <= end_ + 1 -> end_ < 2 ^ 32 ->
    (start - 1) * (start - 1) <= v -> v < (end_ + 1) * (end_ + 1) ->
    start = 1 \/ sdev = start - 1 ->
    sdev_search fuel v start end_ sdev = Some r ->
    0 <= r /\ r * r <= v < (r + 1) * (r + 1).
Proof.
  intros Hv.
  induction fuel as [|fuel IH]; intros start end_ sdev r Hs He Hlo Hhi Hsd H;
    simpl in H; destruct (Z.leb_spec start end_) as [Hle|Hgt];
    try discriminate.
  - injection H as <-. assert (start = end_ + 1) by lia. subst start.
    destruct Hsd as [H1|H1]; [assert (end_ = 0) by lia; subst; lia|].
    subst sdev. replace (end_ + 1 - 1) with end_ in * by lia. nia.
  - assert (Hmid : start <= Z.shiftr (u64 (start + end_)) 1 <= end_).
    { rewrite u64_small by lia.
      rewrite Z.shiftr_div_pow2 by lia. change (2 ^ 1) with 2.
      split; [apply Z.div_le_lower_bound; lia|].
      apply Z.div_le_upper_bound; lia. }
    set (mid := Z.shiftr (u64 (start + end_)) 1) in *.
    assert (Hmm : u64 (mid * mid) = mid * mid).
    { apply u64_small. change (2 ^ 64) with (2 ^ 32 * 2 ^ 32). nia. }
    rewrite Hmm in H. rewrite le_div_iff_mul in H by lia.
    destruct (Z.eqb_spec (mid * mid) v) as [Heq|Hne].
    + injection H as <-. nia.
    + destruct (Z.leb_spec (mid * mid) v) as [Hsq|Hsq].
      * assert (mid < 2 ^ 17).
        { change (2 ^ 33) with 8589934592 in Hv.
          change (2 ^ 17) with 131072. nia. }
        rewrite u32_small in H by lia.
        apply IH in H; try assumption; try lia.
      * rewrite u64_small in H by lia.
        apply IH in H; try assumption; try lia.
  - injection H as <-. assert (start = end_ + 1) by lia. subst start.
    destruct Hsd as [H1|H1]; [assert (end_ = 0) by lia; subst; lia|].
    subst sdev. replace (end_ + 1 - 1) with end_ in * by lia. nia.
Qed.

(** X2.  With a positive packet count and a variance
    [m2_rtt_ms / num_packets] from 0 up to [2^33], the dispersion block of
    [bictcp_acked] ends and the value it prints is the integer square root
    of the variance, whatever the local [sdev] held.  With a negative
    variance the local is left as it was, unset. *)
Theorem rtt_sdev_sqrt (tp : tcp_sock) (sdev0 : Z) :
  0 < sdev_num_packets tp ->
  sdev_m2_rtt_ms tp < 2 ^ 33 * sdev_num_packets tp ->
  let variance := Z.quot (sdev_m2_rtt_ms tp) (sdev_num_packets tp) in
  (0 <= sdev_m2_rtt_ms tp ->
   (exists fuel r, rtt_sdev fuel tp sdev0 = Some r) /\
   (forall fuel r, rtt_sdev fuel tp sdev0 = Some r ->
      0 <= r /\ r * r <= variance < (r + 1) * (r + 1))) /\
  (variance < 0 -> forall fuel, rtt_sdev fuel tp sdev0 = Some sdev0).
Proof.
  intros Hn Hm. cbv zeta. split.
  - intros H0.
    assert (Hv : 0 <= sdev_m2_rtt_ms tp / sdev_num_packets tp < 2 ^ 33).
    { change (2 ^ 33) with 8589934592 in *.
      split; [apply Z.div_pos; lia|apply Z.div_lt_upper_bound; lia]. }
    assert (Hq : Z.quot (sdev_m2_rtt_ms tp) (sdev_num_packets tp)
                 = sdev_m2_rtt_ms tp / sdev_num_packets tp)
      by (apply Z.quot_div_nonneg; lia).
    split.
    + unfold rtt_sdev.
      destruct (Z.gtb_spec (sdev_num_packets tp) 0); [|lia].
      rewrite Hq.
      set (v := sdev_m2_rtt_ms tp / sdev_num_packets tp) in *.
      destruct ((v =? 0) || (v =? 1)); [exists O; eauto|].
      destruct (Z.ltb_spec v 0); [exists O; eauto|].
      exists (Z.to_nat (Z.shiftr v 1)).
      assert (0 <= Z.shiftr v 1 <= v).
      { rewrite Z.shiftr_div_pow2 by lia. change (2 ^ 1) with 2.
        split; [apply Z.div_pos; lia|apply Z.div_le_upper_bound; lia]. }
      apply sdev_search_terminates; lia.
    + intros fuel r H. unfold rtt_sdev in H.
      destruct (Z.gtb_spec (sdev_num_packets tp) 0); [|lia].
      rewrite Hq in *.
      set (v := sdev_m2_rtt_ms tp / sdev_num_packets tp) in *.
      destruct (Z.eqb_spec v 0) as [E0|N0].
      { cbn [orb] in H. injection H as <-. rewrite E0. lia. }
      destruct (Z.eqb_spec v 1) as [E1|N1].
      { cbn [orb] in H. injection H as <-. rewrite E1. lia. }
      cbn [orb] in H. destruct (Z.ltb_spec v 0); [lia|].
      assert (Hh : 0 <= Z.shiftr v 1 /\ v < (Z.shiftr v 1 + 1) * (Z.shiftr v 1 + 1)
                   /\ Z.shiftr v 1 < 2 ^ 32).
      { rewrite Z.shiftr_div_pow2 by lia. change (2 ^ 1) with 2.
        pose proof (Z.div_mod v 2 ltac:(lia)).
        pose proof (Z.mod_pos_bound v 2 ltac:(lia)).
        change (2 ^ 33) with 8589934592 in Hv.
        change (2 ^ 32) with 4294967296.
        split; [lia|]. split; [nia|lia]. }
      apply (sdev_search_sqrt fuel v) in H; try lia.
  - intros Hneg fuel. unfold rtt_sdev.
    destruct (Z.gtb_spec (sdev_num_packets tp) 0); [|lia].
    destruct (Z.eqb_spec (Z.quot (sdev_m2_rtt_ms tp) (sdev_num_packets tp)) 0);
      [lia|].
    destruct (Z.eqb_spec (Z.quot (sdev_m2_rtt_ms tp) (sdev_num_packets tp)) 1);
      [lia|].
    cbn [orb].
    destruct (Z.ltb_spec (Z.quot (sdev_m2_rtt_ms tp) (sdev_num_packets tp)) 0);
      [reflexivity|lia].
Qed.

Lemma rtt_sdev_sqrt_witness :
  let tp := mk_tcp_sock 10 100 0 0 0 (2 ^ 32 - 1) 7 700 in
  (0 < sdev_num_packets tp /\
   sdev_m2_rtt_ms tp < 2 ^ 33 * sdev_num_packets tp /\
   0 <= sdev_m2_rtt_ms tp) /\
  rtt_sdev 8 tp 0 = Some 10 /\
  10 * 10 <= Z.quot (sdev_m2_rtt_ms tp) (sdev_num_packets tp)
    < (10 + 1) * (10 + 1).
Proof.
  cbv zeta.
  set (tp := mk_tcp_sock 10 100 0 0 0 (2 ^ 32 - 1) 7 700).
  assert (Hn : 0 < sdev_num_packets tp) by reflexivity.
  assert (Hm : sdev_m2_rtt_ms tp < 2 ^ 33 * sdev_num_packets tp) by reflexivity.
  assert (H0 : 0 <= sdev_m2_rtt_ms tp) by discriminate.
  assert (Hr : rtt_sdev 8 tp 0 = Some 10) by reflexivity.
  split; [exact (conj Hn (conj Hm H0))|]. split; [exact Hr|].
  exact (proj2 (proj2 (proj1 (rtt_sdev_sqrt tp 0 Hn Hm) H0) 8%nat 10 Hr)).
Defined.



(** * The delay of a sample *)

(** X3.  The delay handed to HyStart is never zero, and for a round trip
    time below [2^28] microseconds it is the time in eighths of a
    millisecond, rounded down, or one when that is zero. *)
Theorem sample_delay_units (sample : ack_sample) :
  1 <= sample_delay sample < 2 ^ 32 /\
  (0 <= rtt_us sample < 2 ^ 28 ->
   sample_delay sample = Z.max 1 (8 * rtt_us sample / 1000)).
Proof.
  unfold sample_delay. cbv zeta. split.
  - pose proof (u32_range (Z.quot (s32 (Z.shiftl (rtt_us sample) 3))
                             USEC_PER_MSEC)).
    destruct (Z.eqb_spec (u32 (Z.quot (s32 (Z.shiftl (rtt_us sample) 3))
                                 USEC_PER_MSEC)) 0); lia.
  - intros Hr. rewrite Z.shiftl_mul_pow2 by lia. change (2 ^ 3) with 8.
    change (2 ^ 28) with 268435456 in Hr.
    rewrite s32_small by (change (2 ^ 31) with 2147483648; lia).
    unfold USEC_PER_MSEC. rewrite Z.quot_div_nonneg by lia.
    replace (rtt_us sample * 8) with (8 * rtt_us sample) by lia.
    assert (0 <= 8 * rtt_us sample / 1000 < 2 ^ 32).
    { split; [apply Z.div_pos; lia|].
      apply Z.div_lt_upper_bound; [lia|].
      change (2 ^ 32) with 4294967296. lia. }
    rewrite u32_small by assumption.
    destruct (Z.eqb_spec (8 * rtt_us sample / 1000) 0); lia.
Qed.

(** * The threshold on loss, for every window *)

(** X4.  With [beta] between 0 and 1024, for every 32-bit window, also
    where the 32-bit products wrap: the threshold returned is at least two
    and at most the window (or two), and the remembered maximum is left at
    most the window. *)
Theorem recalc_ssthresh_bounds (P : Params) (sk : sock) :
  0 <= beta P <= BICTCP_BETA_SCALE ->
  0 <= snd_cwnd (tcp_sk sk) < 2 ^ 32 ->
  2 <= snd (bictcp_recalc_ssthresh P sk) <= Z.max (snd_cwnd (tcp_sk sk)) 2 /\
  0 <= last_max_cwnd (inet_csk_ca (fst (bictcp_recalc_ssthresh P sk)))
    <= snd_cwnd (tcp_sk sk).
Proof.
  unfold BICTCP_BETA_SCALE. intros Hb Hc.
  unfold bictcp_recalc_ssthresh, BICTCP_BETA_SCALE. cbv zeta. cbn [fst snd].
  set (cwnd := snd_cwnd (tcp_sk sk)) in *.
  assert (Hmod : forall x, 0 <= x -> 0 <= u32 x <= x).
  { intros x Hx. unfold u32. split.
    - apply Z.mod_pos_bound. lia.
    - apply Z.mod_le; lia. }
  rewrite (u32_small (1024 + beta P))
    by (change (2 ^ 32) with 4294967296; lia).
  rewrite (u32_small (beta P)) by (change (2 ^ 32) with 4294967296; lia).
  pose proof (Hmod (cwnd * beta P) ltac:(nia)) as H1.
  pose proof (Hmod (cwnd * (1024 + beta P)) ltac:(nia)) as H2.
  split.
  - split; [lia|].
    assert (u32 (cwnd * beta P) / 1024 <= cwnd).
    { apply Z.div_le_upper_bound; [lia|]. nia. }
    lia.
  - destruct (_ && _); cbn [with_ca inet_csk_ca last_max_cwnd set_last_max_cwnd];
      [|lia].
    split; [apply Z.div_pos; lia|].
    apply Z.div_le_upper_bound; [lia|]. nia.
Qed.

Lemma recalc_ssthresh_bounds_witness :
  let sk := mk_sock (plain_tcp_sock (2 ^ 23) 1000)
                    (set_last_max_cwnd (2 ^ 24) zero_bictcp) in
  (0 <= beta default_params <= BICTCP_BETA_SCALE /\
   0 <= snd_cwnd (tcp_sk sk) < 2 ^ 32) /\
  2 <= snd (bictcp_recalc_ssthresh default_params sk)
    <= Z.max (snd_cwnd (tcp_sk sk)) 2.
Proof.
  cbv zeta.
  assert (Hb : 0 <= beta default_params <= BICTCP_BETA_SCALE)
    by (split; discriminate).
  assert (Hc : 0 <= snd_cwnd (tcp_sk (mk_sock (plain_tcp_sock (2 ^ 23) 1000)
                      (set_last_max_cwnd (2 ^ 24) zero_bictcp))) < 2 ^ 32)
    by (split; [discriminate|reflexivity]).
  split; [exact (conj Hb Hc)|].
  exact (proj1 (recalc_ssthresh_bounds default_params _ Hb Hc)).
Defined.

(** * The window computation *)

Section UpdateMore.

Variable K : Kernel.
Variable P : Params.

Lemma first_epoch_clamp_step (c : bictcp) :
  last_max_cwnd c = 0 ->
  cnt (if (last_max_cwnd c =? 0) && (cnt c >? 20) then set_cnt 20 c else c)
  <= 20.
Proof.
  intros ->. cbn [Z.eqb andb].
  destruct (Z.gtb_spec (cnt c) 20); cbn [cnt set_cnt]; lia.
Qed.

Lemma bictcp_cubic_first_epoch ca cwnd acked now ca' :
  last_max_cwnd ca = 0 ->
  bictcp_cubic K P ca cwnd acked now = Some ca' -> cnt ca' <= 20.
Proof.
  unfold bictcp_cubic. cbv zeta.
  destruct ca as [c lm lc lt op bk dm es ac tw sc fd rs en la cr].
  cbn [epoch_start set_last_time set_last_cwnd set_epoch_start set_ack_cnt
       set_tcp_cwnd last_max_cwnd cnt last_cwnd last_time bic_origin_point
       bic_K delay_min ack_cnt tcp_cwnd sample_cnt found round_start end_seq
       last_ack curr_rtt set_bic_K set_bic_origin_point].
  intros Hlm H.
  destruct (es =? 0);
    [destruct (lm <=? cwnd); [|destruct (cubic_root _); [|discriminate H]]|];
    injection H as <-;
    match goal with
    | |- cnt (if (last_max_cwnd ?X =? 0) && _ then _ else _) <= 20 =>
        assert (Hl : last_max_cwnd X = 0) by (repeat break_if; exact Hlm);
        exact (first_epoch_clamp_step X Hl)
    end.
Qed.

(** X5.  As long as no maximum is remembered ([last_max_cwnd] is zero, as
    on a fresh connection), a call of [bictcp_update] that recomputes the
    cubic part leaves [cnt] between 2 and 20, and a call that does not
    never takes [cnt] from 20 or less to more than 20. *)
Theorem first_epoch_clamp (fuel : nat) (ca : bictcp) (cwnd acked now : Z)
    (ca' : bictcp) :
  last_max_cwnd ca = 0 ->
  bictcp_update K P fuel ca cwnd acked now = Some ca' ->
  let ca0 := set_ack_cnt (u32 (ack_cnt ca + acked)) ca in
  last_max_cwnd ca' = 0 /\
  (cnt ca <= 20 -> cnt ca' <= 20) /\
  (rate_limited K ca0 cwnd now = false -> same_jiffy ca0 now = false ->
   2 <= cnt ca' <= 20).
Proof.
  intros Hlm H. cbv zeta.
  pose proof (bictcp_update_same_hystart K P _ _ _ _ _ _ H) as Hsame.
  split; [destruct Hsame as (_ & _ & _ & _ & _ & _ & _ & ->); assumption|].
  destruct (rate_limited K (set_ack_cnt (u32 (ack_cnt ca + acked)) ca) cwnd now)
    eqn:Hr.
  - rewrite bictcp_update_rate_limited in H by assumption. some_inv.
    cbn [cnt set_ack_cnt]. split; [tauto|discriminate].
  - destruct (bictcp_update_not_limited K P _ _ _ _ _ _ Hr H)
      as (ca1 & ca2 & H1 & H2 & ->).
    destruct (bictcp_friendliness_fields P _ _ _ _ H2) as (_ & _ & _ & Hc & _).
    cbn [cnt set_cnt].
    destruct (same_jiffy _ now).
    + subst ca1. cbn [cnt set_ack_cnt] in Hc. split; [lia|discriminate].
    + assert (cnt ca1 <= 20)
        by (apply (bictcp_cubic_first_epoch
                     (set_ack_cnt (u32 (ack_cnt ca + acked)) ca)
                     cwnd acked now ca1 Hlm H1)).
      split; [lia|]. intros _ _. lia.
Qed.

(** X6.  With [tcp_friendliness] on, a window so small that
    [(cwnd * beta_scale) >> 3] is zero (a window of zero, with the default
    [beta]) and an ACK counted, the loop of the friendliness block never
    ends: no amount of fuel makes the block, or a call of [bictcp_update]
    that reaches it, return. *)
Theorem friendliness_never_returns (ca : bictcp) (cwnd : Z) :
  tcp_friendliness P <> 0 ->
  u32 (cwnd * beta_scale P) < 8 ->
  (0 < ack_cnt ca < 2 ^ 32 ->
   forall fuel, bictcp_friendliness P fuel ca cwnd = None) /\
  (forall acked now,
      0 < acked < 2 ^ 32 -> 0 < u32 (ack_cnt ca + acked) ->
      rate_limited K (set_ack_cnt (u32 (ack_cnt ca + acked)) ca) cwnd now
      = false ->
      forall fuel, bictcp_update K P fuel ca cwnd acked now = None).
Proof.
  intros Hf Hd.
  assert (Hz : Z.shiftr (u32 (cwnd * beta_scale P)) 3 = 0).
  { rewrite Z.shiftr_div_pow2 by lia. change (2 ^ 3) with 8.
    apply Z.div_small. pose proof (u32_range (cwnd * beta_scale P)). lia. }
  assert (Hblock : forall c fuel, 0 < ack_cnt c < 2 ^ 32 ->
                     bictcp_friendliness P fuel c cwnd = None).
  { intros c fuel Ha. unfold bictcp_friendliness. cbv zeta.
    destruct (Z.eqb_spec (tcp_friendliness P) 0); [contradiction|].
    rewrite Hz, tcp_friendly_loop_diverges by assumption. reflexivity. }
  split.
  - intros Ha fuel. apply Hblock. assumption.
  - intros acked now Hacked Hack Hr fuel.
    unfold bictcp_update. rewrite Hr.
    set (ca0 := set_ack_cnt (u32 (ack_cnt ca + acked)) ca).
    assert (H0 : 0 < ack_cnt ca0 < 2 ^ 32).
    { unfold ca0. cbn [ack_cnt set_ack_cnt].
      pose proof (u32_range (ack_cnt ca + acked)). lia. }
    destruct (same_jiffy ca0 now).
    + rewrite Hblock by assumption. reflexivity.
    + destruct (bictcp_cubic K P ca0 cwnd acked now) as [ca1|] eqn:Hc;
        [|reflexivity].
      rewrite Hblock; [reflexivity|].
      destruct (bictcp_cubic_counters K P _ _ _ _ _ Hc) as [[-> _]|[-> _]];
        assumption.
Qed.

(** X7.  With no epoch running ([epoch_start] is zero, as after
    [bictcp_recalc_ssthresh] and after a reset), a call of
    [bictcp_update] that passes the first guard starts one at [now] and
    centres the curve: on the window, with [bic_K] zero, when the window
    has reached the remembered maximum, and on the remembered maximum,
    with [bic_K] the cube root of [cube_factor * (last_max_cwnd - cwnd)],
    when it has not.  The first guard lets every call pass whose window
    differs from [last_cwnd]. *)
Theorem epoch_restart (fuel : nat) (ca : bictcp) (cwnd acked now : Z)
    (ca' : bictcp) :
  epoch_start ca = 0 ->
  bictcp_update K P fuel ca cwnd acked now = Some ca' ->
  let ca0 := set_ack_cnt (u32 (ack_cnt ca + acked)) ca in
  (last_cwnd ca <> cwnd -> rate_limited K ca0 cwnd now = false) /\
  (rate_limited K ca0 cwnd now = false ->
   epoch_start ca' = now /\ last_cwnd ca' = cwnd /\ last_time ca' = now /\
   (last_max_cwnd ca <= cwnd ->
    bic_K ca' = 0 /\ bic_origin_point ca' = cwnd) /\
   (cwnd < last_max_cwnd ca ->
    bic_origin_point ca' = last_max_cwnd ca /\
    cubic_root (u64 (cube_factor P * u32 (last_max_cwnd ca - cwnd)))
    = Some (bic_K ca'))).
Proof.
  intros Hes H. cbv zeta. split.
  - intros Hne. unfold rate_limited. cbn [last_cwnd set_ack_cnt].
    destruct (Z.eqb_spec (last_cwnd ca) cwnd); [contradiction|reflexivity].
  - intros Hr.
    destruct (bictcp_update_not_limited K P _ _ _ _ _ _ Hr H)
      as (ca1 & ca2 & H1 & H2 & ->).
    assert (Hj : same_jiffy (set_ack_cnt (u32 (ack_cnt ca + acked)) ca) now
                 = false).
    { unfold same_jiffy. cbn [epoch_start set_ack_cnt]. rewrite Hes.
      reflexivity. }
    rewrite Hj in H1.
    assert (Hcubic : epoch_start ca1 = now /\ last_cwnd ca1 = cwnd /\
                     last_time ca1 = now /\
                     (last_max_cwnd ca <= cwnd ->
                      bic_K ca1 = 0 /\ bic_origin_point ca1 = cwnd) /\
                     (cwnd < last_max_cwnd ca ->
                      bic_origin_point ca1 = last_max_cwnd ca /\
                      cubic_root (u64 (cube_factor P
                                       * u32 (last_max_cwnd ca - cwnd)))
                      = Some (bic_K ca1))).
    { revert H1. unfold bictcp_cubic. cbv zeta.
      destruct ca as [c lm lc lt op bk dm es ac tw sc fd rs en la cr].
      cbn [epoch_start set_last_time set_last_cwnd set_epoch_start set_ack_cnt
           set_tcp_cwnd last_max_cwnd cnt last_cwnd last_time bic_origin_point
           bic_K delay_min ack_cnt tcp_cwnd sample_cnt found round_start
           end_seq last_ack curr_rtt set_bic_K set_bic_origin_point] in *.
      subst es. cbn [Z.eqb].
      destruct (Z.leb_spec lm cwnd).
      - intros H1. some_inv.
        repeat break_if; cbn; repeat split; try reflexivity; try lia.
      - destruct (cubic_root _) as [k|] eqn:Hk; [|discriminate].
        intros H1. some_inv.
        repeat break_if; cbn; repeat split; try reflexivity; try lia. }
    revert H2. unfold bictcp_friendliness. cbv zeta.
    destruct ca1 as [c lm lc lt op bk dm es ac tw sc fd rs en la cr].
    cbn [epoch_start last_cwnd last_time bic_K bic_origin_point] in Hcubic.
    intros H2.
    destruct (tcp_friendliness P =? 0); [some_inv; cbn; exact Hcubic|].
    destruct (tcp_friendly_loop _ _ _ _) as [[a w]|]; [|discriminate].
    cbn [set_tcp_cwnd set_ack_cnt tcp_cwnd cnt] in H2.
    repeat break_if; some_inv; cbn; exact Hcubic.
Qed.

End UpdateMore.

Lemma first_epoch_clamp_witness :
  (last_max_cwnd (bictcp_reset zero_bictcp) = 0 /\
   bictcp_update linux_kernel default_params 0 (bictcp_reset zero_bictcp)
     10 1 5000
   = Some (mk_bictcp 20 0 10 5000 10 0 0 5000 1 10 0 0 0 0 0 0)) /\
  2 <= cnt (mk_bictcp 20 0 10 5000 10 0 0 5000 1 10 0 0 0 0 0 0) <= 20.
Proof.
  assert (Hl : last_max_cwnd (bictcp_reset zero_bictcp) = 0) by reflexivity.
  assert (H : bictcp_update linux_kernel default_params 0
                (bictcp_reset zero_bictcp) 10 1 5000
              = Some (mk_bictcp 20 0 10 5000 10 0 0 5000 1 10 0 0 0 0 0 0))
    by reflexivity.
  split; [exact (conj Hl H)|].
  exact (proj2 (proj2 (first_epoch_clamp linux_kernel default_params
                         0 (bictcp_reset zero_bictcp) 10 1 5000 _ Hl H))
               eq_refl eq_refl).
Defined.

Lemma friendliness_never_returns_witness :
  let ca := set_ack_cnt 1 zero_bictcp in
  (tcp_friendliness default_params <> 0 /\
   u32 (0 * beta_scale default_params) < 8 /\ 0 < ack_cnt ca < 2 ^ 32) /\
  forall fuel, bictcp_friendliness default_params fuel ca 0 = None.
Proof.
  cbv zeta.
  assert (Hf : tcp_friendliness default_params <> 0) by discriminate.
  assert (Hd : u32 (0 * beta_scale default_params) < 8) by reflexivity.
  assert (Ha : 0 < ack_cnt (set_ack_cnt 1 zero_bictcp) < 2 ^ 32)
    by (split; reflexivity).
  split; [exact (conj Hf (conj Hd Ha))|].
  exact (proj1 (friendliness_never_returns linux_kernel default_params
                  (set_ack_cnt 1 zero_bictcp) 0 Hf Hd) Ha).
Defined.

Lemma epoch_restart_witness :
  (epoch_start (bictcp_reset zero_bictcp) = 0 /\
   bictcp_update linux_kernel default_params 0 (bictcp_reset zero_bictcp)
     10 1 5000
   = Some (mk_bictcp 20 0 10 5000 10 0 0 5000 1 10 0 0 0 0 0 0)) /\
  epoch_start (mk_bictcp 20 0 10 5000 10 0 0 5000 1 10 0 0 0 0 0 0) = 5000.
Proof.
  assert (He : epoch_start (bictcp_reset zero_bictcp) = 0) by reflexivity.
  assert (H : bictcp_update linux_kernel default_params 0
                (bictcp_reset zero_bictcp) 10 1 5000
              = Some (mk_bictcp 20 0 10 5000 10 0 0 5000 1 10 0 0 0 0 0 0))
    by reflexivity.
  split; [exact (conj He H)|].
  exact (proj1 (proj2 (epoch_restart linux_kernel default_params
                         0 (bictcp_reset zero_bictcp) 10 1 5000 _ He H)
                      eq_refl)).
Defined.



(** * What HyStart keeps in the private area *)

Lemma found_flags_all :
  forallb found_flags_ok (Z_range 0 4) = true.
Proof. vm_compute. reflexivity. Qed.

Lemma found_flags_lor (f : Z) :
  0 <= f <= 3 ->
  0 <= u8 (Z.lor f HYSTART_ACK_TRAIN) <= 3 /\
  0 <= u8 (Z.lor f HYSTART_DELAY) <= 3.
Proof.
  intros Hf.
  pose proof (forall_Z_range found_flags_ok 0 4 found_flags_all f ltac:(lia))
    as H.
  unfold found_flags_ok in H. rewrite !andb_true_iff, !Z.leb_le in H. lia.
Qed.

Section HystartInvariants.

Variable K : Kernel.
Variable P : Params.

Lemma hystart_ack_train_round sk clock :
  let ca := inet_csk_ca sk in
  let ca' := inet_csk_ca (hystart_ack_train P sk clock) in
  sample_cnt ca' = sample_cnt ca /\
  (0 <= found ca <= 3 -> 0 <= found ca' <= 3).
Proof.
  cbv zeta. unfold hystart_ack_train. cbv zeta.
  destruct (_ <=? _); [|tauto].
  destruct (_ >? _); cbn [inet_csk_ca with_ca sample_cnt found set_found
                           set_last_ack]; [|tauto].
  split; [reflexivity|]. intros Hf. apply found_flags_lor. assumption.
Qed.

Lemma hystart_delay_round sk delay :
  let ca := inet_csk_ca sk in
  let ca' := inet_csk_ca (hystart_delay P sk delay) in
  (0 <= sample_cnt ca <= 8 -> 0 <= sample_cnt ca' <= 8) /\
  (0 <= found ca <= 3 -> 0 <= found ca' <= 3).
Proof.
  cbv zeta. unfold hystart_delay, HYSTART_MIN_SAMPLES. cbv zeta.
  destruct sk as [tp ca].
  destruct ca as [c lm lc lt op bk dm es ac tw sc fd rs en la cr].
  cbn [inet_csk_ca sample_cnt found curr_rtt].
  destruct (cr >? delay);
    cbn [sample_cnt found curr_rtt set_curr_rtt delay_min];
    destruct (Z.ltb_spec sc 8);
    repeat match goal with
           | |- context [if ?b then _ else _] => destruct b
           end;
    cbn [with_ca inet_csk_ca sample_cnt found set_sample_cnt set_curr_rtt
         set_found];
    (split; [intros Hs;
             rewrite ?u8_small by (change (2 ^ 8) with 256; lia); lia
            |intros Hf; try assumption; apply found_flags_lor; assumption]).
Qed.

Lemma hystart_update_round sk delay clock :
  let ca := inet_csk_ca sk in
  let ca' := inet_csk_ca (hystart_update P sk delay clock) in
  (0 <= sample_cnt ca <= 8 -> 0 <= sample_cnt ca' <= 8) /\
  (0 <= found ca <= 3 -> 0 <= found ca' <= 3).
Proof.
  cbv zeta. unfold hystart_update.
  destruct (negb (Z.land (found _) _ =? 0)); [tauto|].
  pose proof (hystart_ack_train_round sk clock) as [Ha1 Ha2].
  pose proof (hystart_delay_round sk delay) as [Hd1 Hd2].
  pose proof (hystart_delay_round (hystart_ack_train P sk clock) delay)
    as [He1 He2].
  destruct (negb (Z.land _ HYSTART_ACK_TRAIN =? 0));
    destruct (negb (Z.land _ HYSTART_DELAY =? 0)).
  - split; intros H.
    + apply He1. rewrite Ha1. assumption.
    + apply He2, Ha2. assumption.
  - split; intros H; [rewrite Ha1; assumption|apply Ha2; assumption].
  - split; assumption.
  - tauto.
Qed.

Lemma bictcp_hystart_reset_round sk clock :
  sample_cnt (inet_csk_ca (bictcp_hystart_reset sk clock)) = 0 /\
  curr_rtt (inet_csk_ca (bictcp_hystart_reset sk clock)) = 0.
Proof. split; reflexivity. Qed.

Lemma bictcp_cong_avoid_round fuel sk ack acked now clock sk' :
  bictcp_cong_avoid K P fuel sk ack acked now clock = Some sk' ->
  sample_cnt (inet_csk_ca sk') = sample_cnt (inet_csk_ca sk) \/
  sample_cnt (inet_csk_ca sk') = 0.
Proof.
  unfold bictcp_cong_avoid. cbv zeta.
  destruct (negb (tcp_is_cwnd_limited K (tcp_sk sk))).
  { intros H. some_inv. tauto. }
  assert (Hpre : forall sk1 acked1,
             (if tcp_in_slow_start (tcp_sk sk)
              then cong_avoid_slow_start K P sk ack acked clock
              else (sk, acked)) = (sk1, acked1) ->
             sample_cnt (inet_csk_ca sk1) = sample_cnt (inet_csk_ca sk) \/
             sample_cnt (inet_csk_ca sk1) = 0).
  { intros sk1 acked1. destruct (tcp_in_slow_start (tcp_sk sk)).
    - unfold cong_avoid_slow_start. cbv zeta.
      destruct (negb _ && after _ _);
        destruct (tcp_slow_start K _ acked) as [tp' acked'];
        intros H; injection H as <- <-; cbn; tauto.
    - intros H; injection H as <- <-. tauto. }
  destruct (if tcp_in_slow_start (tcp_sk sk)
            then cong_avoid_slow_start K P sk ack acked clock
            else (sk, acked)) as [sk1 acked1].
  specialize (Hpre sk1 acked1 eq_refl).
  destruct (tcp_in_slow_start (tcp_sk sk) && (acked1 =? 0)).
  { intros H. some_inv. assumption. }
  destruct (bictcp_update K P fuel (inet_csk_ca sk1) _ acked1 now)
    as [ca'|] eqn:Hu; [|discriminate].
  intros H. some_inv. cbn [inet_csk_ca].
  destruct (bictcp_update_same_hystart K P _ _ _ _ _ _ Hu) as (_ & _ & Hs & _).
  rewrite Hs. assumption.
Qed.

Lemma callback_step_round ca ca' :
  hystart P <> 0 ->
  callback_step K P ca ca' ->
  0 <= sample_cnt ca <= 8 /\ 0 <= found ca <= 3 ->
  0 <= sample_cnt ca' <= 8 /\ 0 <= found ca' <= 3.
Proof.
  intros Hh H [Hs Hf].
  destruct H as [ca tp clock|ca tp fuel ack acked now clock sk' H
                |ca tp fuel sample now clock sdev0 sk' H
                |ca tp|ca tp new_state clock|ca tp tx_start now].
  - unfold bictcp_init. cbv zeta.
    destruct (Z.eqb_spec (hystart P) 0); [contradiction|].
    cbn. lia.
  - destruct (bictcp_cong_avoid_fields K P _ _ _ _ _ _ _ H) as [_ Hfd].
    destruct (bictcp_cong_avoid_round _ _ _ _ _ _ _ H) as [Hsc|Hsc];
      cbn [inet_csk_ca] in *; rewrite Hfd, Hsc; lia.
  - destruct (bictcp_acked_cases K P _ _ _ _ _ _ _ H) as [->| ->].
    + cbn [inet_csk_ca]. tauto.
    + pose proof (hystart_update_round (mk_sock tp ca) (sample_delay sample)
                    clock) as [H1 H2].
      cbn [inet_csk_ca] in H1, H2. split; [apply H1|apply H2]; assumption.
  - unfold bictcp_recalc_ssthresh. cbv zeta. cbn [fst].
    destruct (_ && _); cbn; tauto.
  - unfold bictcp_state. destruct (new_state =? TCP_CA_Loss); cbn; [lia|tauto].
  - unfold bictcp_cwnd_event. cbv zeta. repeat break_if; cbn; tauto.
Qed.

(** X8.  With HyStart on, in every state the callbacks can reach from
    [bictcp_init] the sample count of the round is at most eight and
    [found] holds nothing but the two detector flags. *)
Theorem hystart_round_invariant (ca : bictcp) :
  hystart P <> 0 -> reachable K P ca ->
  0 <= sample_cnt ca <= 8 /\ 0 <= found ca <= 3.
Proof.
  intros Hh H. induction H as [ca0 tp clock|ca ca' _ IH Hstep].
  - unfold bictcp_init. cbv zeta.
    destruct (Z.eqb_spec (hystart P) 0); [contradiction|].
    cbn. lia.
  - apply (callback_step_round ca ca'); assumption.
Qed.

Lemma hystart_ack_train_effect s c :
  let s' := hystart_ack_train P s c in
  (tcp_sk s' = tcp_sk s /\ found (inet_csk_ca s') = found (inet_csk_ca s)) \/
  (tcp_sk s' = set_snd_ssthresh (snd_cwnd (tcp_sk s)) (tcp_sk s) /\
   found (inet_csk_ca s')
   = u8 (Z.lor (found (inet_csk_ca s)) HYSTART_ACK_TRAIN)).
Proof.
  cbv zeta. unfold hystart_ack_train. cbv zeta.
  destruct (_ <=? _); [|left; split; reflexivity].
  destruct (_ >? _); [right|left]; split; reflexivity.
Qed.

Lemma hystart_delay_effect s d :
  let s' := hystart_delay P s d in
  (tcp_sk s' = tcp_sk s /\ found (inet_csk_ca s') = found (inet_csk_ca s)) \/
  (tcp_sk s' = set_snd_ssthresh (snd_cwnd (tcp_sk s)) (tcp_sk s) /\
   found (inet_csk_ca s')
   = u8 (Z.lor (found (inet_csk_ca s)) HYSTART_DELAY)).
Proof.
  cbv zeta. unfold hystart_delay. cbv zeta.
  destruct (sample_cnt _ <? _).
  - left. split; [reflexivity|]. repeat break_if; reflexivity.
  - destruct (curr_rtt _ >? _); [right|left]; split;
      cbn [inet_csk_ca tcp_sk with_ca found set_found];
      try reflexivity; repeat break_if; reflexivity.
Qed.

Lemma hystart_update_tp sk delay clock :
  tcp_sk (hystart_update P sk delay clock) = tcp_sk sk \/
  tcp_sk (hystart_update P sk delay clock)
  = set_snd_ssthresh (snd_cwnd (tcp_sk sk)) (tcp_sk sk).
Proof.
  unfold hystart_update.
  destruct (negb (Z.land (found _) _ =? 0)); [left; reflexivity|].
  pose proof (hystart_ack_train_effect sk clock) as Ht.
  pose proof (hystart_delay_effect sk delay) as Hd.
  pose proof (hystart_delay_effect (hystart_ack_train P sk clock) delay) as He.
  cbv zeta in *.
  destruct (negb (Z.land _ HYSTART_ACK_TRAIN =? 0));
    destruct (negb (Z.land _ HYSTART_DELAY =? 0)).
  - destruct He as [[-> _]|[-> _]]; destruct Ht as [[-> _]|[-> _]];
      cbn; tauto.
  - destruct Ht as [[-> _]|[-> _]]; tauto.
  - destruct Hd as [[-> _]|[-> _]]; tauto.
  - left. reflexivity.
Qed.

(** X9.  A call of [hystart_update] that sets a flag leaves the threshold
    equal to the window, so the socket is out of slow start when it
    returns; a call that sets no flag leaves the socket's window fields as
    they were. *)
Theorem hystart_fire_ends_slow_start (sk : sock) (delay clock : Z) :
  let sk' := hystart_update P sk delay clock in
  snd_cwnd (tcp_sk sk') = snd_cwnd (tcp_sk sk) /\
  (found (inet_csk_ca sk') <> found (inet_csk_ca sk) ->
   snd_ssthresh (tcp_sk sk') = snd_cwnd (tcp_sk sk) /\
   tcp_in_slow_start (tcp_sk sk') = false) /\
  (found (inet_csk_ca sk') = found (inet_csk_ca sk) ->
   0 <= found (inet_csk_ca sk) <= 3 ->
   tcp_sk sk' = tcp_sk sk).
Proof.
  cbv zeta.
  pose proof hystart_ack_train_effect as Htrain.
  pose proof hystart_delay_effect as Hdelay.
  assert (Hss : forall t, tcp_in_slow_start (set_snd_ssthresh (snd_cwnd t) t)
                          = false).
  { intros t. unfold tcp_in_slow_start. cbn. apply Z.ltb_irrefl. }
  assert (Hbit1 : forall f, 0 <= f <= 3 ->
            u8 (Z.lor f HYSTART_ACK_TRAIN) = f -> Z.testbit f 0 = true).
  { intros f Hf He. rewrite <- He. rewrite testbit_u8_lor by lia.
    apply orb_true_r. }
  unfold hystart_update.
  destruct (Z.eqb_spec (Z.land (found (inet_csk_ca sk)) (hystart_detect P)) 0)
    as [H0|H0]; cbn [negb]; [|split; [reflexivity|split; [congruence|reflexivity]]].
  destruct (Z.eqb_spec (Z.land (hystart_detect P) HYSTART_ACK_TRAIN) 0)
    as [Ht|Ht];
    destruct (Z.eqb_spec (Z.land (hystart_detect P) HYSTART_DELAY) 0)
    as [Hd|Hd]; cbn [negb].
  - split; [reflexivity|split; [congruence|reflexivity]].
  - destruct (Hdelay sk delay) as [[E1 E2]|[E1 E2]]; cbv zeta in *;
      rewrite E1, E2.
    + split; [reflexivity|split; [congruence|reflexivity]].
    + split; [reflexivity|]. split; [intros _; split; [reflexivity|apply Hss]|].
      intros He Hf. exfalso.
      apply (land_pow2_testbit _ 1) in Hd; [|lia].
      apply (testbit_land_nonzero (found (inet_csk_ca sk)) _ 1) in Hd;
        [contradiction|].
      rewrite <- He. rewrite testbit_u8_lor by lia. apply orb_true_r.
  - destruct (Htrain sk clock) as [[E1 E2]|[E1 E2]]; cbv zeta in *;
      rewrite E1, E2.
    + split; [reflexivity|split; [congruence|reflexivity]].
    + split; [reflexivity|]. split; [intros _; split; [reflexivity|apply Hss]|].
      intros He Hf. exfalso.
      apply (land_pow2_testbit _ 0) in Ht; [|lia].
      apply (testbit_land_nonzero (found (inet_csk_ca sk)) _ 0) in Ht;
        [contradiction|].
      rewrite <- He. rewrite testbit_u8_lor by lia. apply orb_true_r.
  - apply (land_pow2_testbit _ 0) in Ht; [|lia].
    apply (land_pow2_testbit _ 1) in Hd; [|lia].
    assert (Hno0 : Z.testbit (found (inet_csk_ca sk)) 0 = false).
    { destruct (Z.testbit (found (inet_csk_ca sk)) 0) eqn:Hb; [|reflexivity].
      exfalso. apply (testbit_land_nonzero _ _ 0 Hb Ht). assumption. }
    assert (Hno1 : Z.testbit (found (inet_csk_ca sk)) 1 = false).
    { destruct (Z.testbit (found (inet_csk_ca sk)) 1) eqn:Hb; [|reflexivity].
      exfalso. apply (testbit_land_nonzero _ _ 1 Hb Hd). assumption. }
    destruct (Htrain sk clock) as [[E1 E2]|[E1 E2]];
      destruct (Hdelay (hystart_ack_train P sk clock) delay)
        as [[F1 F2]|[F1 F2]]; cbv zeta in *;
      rewrite F1, F2, E1, ?E2.
    + split; [reflexivity|split; [congruence|reflexivity]].
    + split; [reflexivity|]. split; [intros _; split; [reflexivity|apply Hss]|].
      intros He _. exfalso.
      assert (Hb : Z.testbit (u8 (Z.lor (found (inet_csk_ca sk)) HYSTART_DELAY)) 1
                   = true) by (rewrite testbit_u8_lor by lia; apply orb_true_r).
      rewrite He in Hb. congruence.
    + split; [reflexivity|]. split; [intros _; split; [reflexivity|apply Hss]|].
      intros He _. exfalso.
      assert (Hb : Z.testbit (u8 (Z.lor (found (inet_csk_ca sk))
                                    HYSTART_ACK_TRAIN)) 0 = true)
        by (rewrite testbit_u8_lor by lia; apply orb_true_r).
      rewrite He in Hb. congruence.
    + split; [reflexivity|]. split.
      * intros _. cbn [snd_cwnd set_snd_ssthresh snd_ssthresh].
        split; [reflexivity|]. unfold tcp_in_slow_start. cbn.
        apply Z.ltb_irrefl.
      * intros He _. exfalso.
        assert (Hb : Z.testbit
                       (u8 (Z.lor (u8 (Z.lor (found (inet_csk_ca sk))
                                         HYSTART_ACK_TRAIN)) HYSTART_DELAY)) 1
                     = true)
          by (rewrite testbit_u8_lor by lia; apply orb_true_r).
        rewrite He in Hb. congruence.
Qed.

(** X10.  In a state the callbacks can reach, where [delay_min] is zero,
    the ACK-train detector needs nothing but two ACKs close together: a
    call of [hystart_update] with no flag recorded yet, the ACK-train
    detector enabled, a clock within [hystart_ack_delta] of [last_ack] and
    different from [round_start] sets the ACK_TRAIN flag and takes the
    socket out of slow start. *)
Theorem ack_train_fires_at_once (ca : bictcp) (tp : tcp_sock)
    (delay clock : Z) :
  reachable K P ca ->
  Z.land (found ca) (hystart_detect P) = 0 ->
  Z.land (hystart_detect P) HYSTART_ACK_TRAIN <> 0 ->
  s32 (clock - last_ack ca) <= hystart_ack_delta P ->
  u32 (s32 (clock - round_start ca)) <> 0 ->
  let sk' := hystart_update P (mk_sock tp ca) delay clock in
  Z.testbit (found (inet_csk_ca sk')) 0 = true /\
  snd_ssthresh (tcp_sk sk') = snd_cwnd tp /\
  tcp_in_slow_start (tcp_sk sk') = false.
Proof.
  intros Hreach H0 Ht Hsp Hrs. cbv zeta.
  pose proof (reachable_delay_min K P ca Hreach) as Hdm.
  assert (Htrain : tcp_sk (hystart_ack_train P (mk_sock tp ca) clock)
                   = set_snd_ssthresh (snd_cwnd tp) tp /\
                   found (inet_csk_ca (hystart_ack_train P (mk_sock tp ca) clock))
                   = u8 (Z.lor (found ca) HYSTART_ACK_TRAIN)).
  { unfold hystart_ack_train. cbv zeta. cbn [inet_csk_ca tcp_sk].
    destruct (Z.leb_spec (s32 (clock - last_ack ca)) (hystart_ack_delta P));
      [|lia].
    cbn [round_start delay_min set_last_ack]. rewrite Hdm.
    change (Z.shiftr 0 4) with 0.
    pose proof (u32_range (s32 (clock - round_start ca))).
    destruct (Z.gtb_spec (u32 (s32 (clock - round_start ca))) 0); [|lia].
    split; reflexivity. }
  destruct Htrain as [T1 T2].
  assert (Hss : tcp_in_slow_start (set_snd_ssthresh (snd_cwnd tp) tp) = false).
  { unfold tcp_in_slow_start. cbn. apply Z.ltb_irrefl. }
  unfold hystart_update. cbn [inet_csk_ca].
  destruct (Z.eqb_spec (Z.land (found ca) (hystart_detect P)) 0);
    [|contradiction].
  destruct (Z.eqb_spec (Z.land (hystart_detect P) HYSTART_ACK_TRAIN) 0);
    [contradiction|].
  cbn [negb].
  destruct (Z.land (hystart_detect P) HYSTART_DELAY =? 0); cbn [negb].
  - rewrite T1, T2. split; [|split; [reflexivity|exact Hss]].
    rewrite testbit_u8_lor by lia. apply orb_true_r.
  - destruct (hystart_delay_found P (hystart_ack_train P (mk_sock tp ca) clock)
                delay) as [[D1 D2]|[_ Dk]].
    + rewrite D1, D2, T1, T2. split; [|split; [reflexivity|exact Hss]].
      rewrite testbit_u8_lor by lia. apply orb_true_r.
    + split.
      * apply Dk; [lia|]. rewrite T2.
        rewrite testbit_u8_lor by lia. apply orb_true_r.
      * unfold hystart_delay. cbv zeta.
        repeat break_if; cbn [tcp_sk with_ca snd_ssthresh set_snd_ssthresh
                                snd_cwnd];
          rewrite ?T1; cbn; (split; [reflexivity|]);
          unfold tcp_in_slow_start; cbn; apply Z.ltb_irrefl.
Qed.

(** X11.  [bictcp_acked] never writes the fields of the window
    computation, and of the socket's own fields it can only set the
    threshold, to the window.  It returns the socket as it got it for a
    sample without a time, for a sample taken less than [HZ] ticks into an
    epoch, with HyStart off, outside slow start, and below the low
    window. *)
Theorem bictcp_acked_gate (fuel : nat) (sk : sock) (sample : ack_sample)
    (now clock sdev0 : Z) (sk' : sock) :
  bictcp_acked K P fuel sk sample now clock sdev0 = Some sk' ->
  let tp := tcp_sk sk in
  let ca := inet_csk_ca sk in
  same_cubic ca (inet_csk_ca sk') /\
  (tcp_sk sk' = tp \/ tcp_sk sk' = set_snd_ssthresh (snd_cwnd tp) tp) /\
  (rtt_us sample < 0 \/
   (epoch_start ca <> 0 /\ s32 (now - epoch_start ca) < HZ K) \/
   hystart P = 0 \/ snd_ssthresh tp <= snd_cwnd tp \/
   snd_cwnd tp < u32 (hystart_low_window P) ->
   sk' = sk).
Proof.
  intros H. cbv zeta.
  split; [apply (bictcp_acked_fields K P _ _ _ _ _ _ _ H)|]. split.
  - destruct (bictcp_acked_cases K P _ _ _ _ _ _ _ H) as [->| ->];
      [left; reflexivity|apply hystart_update_tp].
  - intros Hg. revert H. unfold bictcp_acked, tcp_in_slow_start. cbv zeta.
    destruct (Z.ltb_spec (rtt_us sample) 0) as [Hr|Hr];
      [intros H; some_inv; reflexivity|].
    destruct (Z.eqb_spec (epoch_start (inet_csk_ca sk)) 0) as [He|He];
      destruct (Z.ltb_spec (s32 (now - epoch_start (inet_csk_ca sk))) (HZ K))
        as [Ht|Ht];
      cbn [negb andb]; try (intros H; some_inv; reflexivity);
      (destruct (rtt_sdev fuel (tcp_sk sk) sdev0); [|discriminate]);
      destruct (Z.eqb_spec (hystart P) 0) as [Hh|Hh];
      destruct (Z.ltb_spec (snd_cwnd (tcp_sk sk)) (snd_ssthresh (tcp_sk sk)))
        as [Hs|Hs];
      destruct (Z.geb_spec (snd_cwnd (tcp_sk sk)) (u32 (hystart_low_window P)))
        as [Hw|Hw];
      cbn [negb andb]; intros H; some_inv; try reflexivity; exfalso; lia.
Qed.

End HystartInvariants.

Lemma sample_state_reachable :
  reachable linux_kernel default_params
    (mk_bictcp 0 0 0 0 0 0 0 0 0 0 1 1 7000 0 7001 400).
Proof.
  apply (reach_step linux_kernel default_params
           (inet_csk_ca
              (bictcp_init default_params
                 (mk_sock (plain_tcp_sock 20 1000) zero_bictcp) 7000))).
  - apply reach_init.
  - apply (step_acked linux_kernel default_params _
             (plain_tcp_sock 20 1000) 0 (mk_ack_sample 1 50000)
             9000 7001 0
             (mk_sock (set_snd_ssthresh 20 (plain_tcp_sock 20 1000))
                (mk_bictcp 0 0 0 0 0 0 0 0 0 0 1 1 7000 0 7001 400))).
    reflexivity.
Defined.

Lemma hystart_round_invariant_witness :
  let ca := mk_bictcp 0 0 0 0 0 0 0 0 0 0 1 1 7000 0 7001 400 in
  (hystart default_params <> 0 /\ reachable linux_kernel default_params ca) /\
  0 <= sample_cnt ca <= 8 /\ 0 <= found ca <= 3.
Proof.
  cbv zeta.
  assert (Hh : hystart default_params <> 0) by discriminate.
  split; [exact (conj Hh sample_state_reachable)|].
  exact (hystart_round_invariant linux_kernel default_params _ Hh
           sample_state_reachable).
Defined.

Lemma ack_train_fires_at_once_witness :
  let ca := inet_csk_ca
              (bictcp_init default_params
                 (mk_sock (plain_tcp_sock 20 1000) zero_bictcp) 7000) in
  let tp := plain_tcp_sock 20 1000 in
  (reachable linux_kernel default_params ca /\
   Z.land (found ca) (hystart_detect default_params) = 0 /\
   Z.land (hystart_detect default_params) HYSTART_ACK_TRAIN <> 0 /\
   s32 (7001 - last_ack ca) <= hystart_ack_delta default_params /\
   u32 (s32 (7001 - round_start ca)) <> 0) /\
  snd_ssthresh (tcp_sk (hystart_update default_params (mk_sock tp ca) 400 7001))
  = 20.
Proof.
  cbv zeta.
  set (ca := inet_csk_ca
               (bictcp_init default_params
                  (mk_sock (plain_tcp_sock 20 1000) zero_bictcp) 7000)).
  assert (Hr : reachable linux_kernel default_params ca)
    by (apply reach_init).
  assert (H0 : Z.land (found ca) (hystart_detect default_params) = 0)
    by reflexivity.
  assert (Ht : Z.land (hystart_detect default_params) HYSTART_ACK_TRAIN <> 0)
    by discriminate.
  assert (Hs : s32 (7001 - last_ack ca) <= hystart_ack_delta default_params)
    by discriminate.
  assert (Hn : u32 (s32 (7001 - round_start ca)) <> 0) by discriminate.
  split; [exact (conj Hr (conj H0 (conj Ht (conj Hs Hn))))|].
  exact (proj1 (proj2 (ack_train_fires_at_once linux_kernel default_params
                         ca (plain_tcp_sock 20 1000) 400 7001
                         Hr H0 Ht Hs Hn))).
Defined.

Lemma bictcp_acked_gate_witness :
  let sk := mk_sock (plain_tcp_sock 20 1000) zero_bictcp in
  let sample := mk_ack_sample 1 (-1) in
  bictcp_acked linux_kernel default_params 0 sk sample 9000 7001 0 = Some sk
  /\ same_cubic (inet_csk_ca sk) (inet_csk_ca sk).
Proof.
  cbv zeta.
  assert (H : bictcp_acked linux_kernel default_params 0
                (mk_sock (plain_tcp_sock 20 1000) zero_bictcp)
                (mk_ack_sample 1 (-1)) 9000 7001 0
              = Some (mk_sock (plain_tcp_sock 20 1000) zero_bictcp))
    by reflexivity.
  split; [exact H|].
  exact (proj1 (bictcp_acked_gate linux_kernel default_params _ _ _ _ _ _ _ H)).
Defined.



(** * Initialisation *)

(** X12.  With HyStart on, [bictcp_init] leaves nothing of what the
    private area held before, and it does not touch the rest of the
    socket; [bictcp_state] on loss leaves nothing of it either, whatever
    the parameters.  With HyStart off, [bictcp_init] leaves the five round
    fields as it found them. *)
Theorem init_forgets (P : Params) (tp : tcp_sock) (ca1 ca2 : bictcp)
    (clock : Z) :
  (hystart P <> 0 ->
   bictcp_init P (mk_sock tp ca1) clock = bictcp_init P (mk_sock tp ca2) clock
   /\ tcp_sk (bictcp_init P (mk_sock tp ca1) clock) = tp) /\
  bictcp_state (mk_sock tp ca1) TCP_CA_Loss clock
  = bictcp_state (mk_sock tp ca2) TCP_CA_Loss clock /\
  (hystart P = 0 ->
   let ca' := inet_csk_ca (bictcp_init P (mk_sock tp ca1) clock) in
   sample_cnt ca' = sample_cnt ca1 /\ curr_rtt ca' = curr_rtt ca1 /\
   round_start ca' = round_start ca1 /\ last_ack ca' = last_ack ca1 /\
   end_seq ca' = end_seq ca1).
Proof.
  split; [|split].
  - intros Hh. unfold bictcp_init. cbv zeta.
    destruct (Z.eqb_spec (hystart P) 0); [contradiction|].
    cbn [andb]. split; reflexivity.
  - reflexivity.
  - intros Hh. unfold bictcp_init. cbv zeta. rewrite Hh. cbn [Z.eqb andb].
    destruct (negb (initial_ssthresh P =? 0)); cbn; tauto.
Qed.

